(** * TenderLens front end: a shallow embedding of the recommendation client

    The development follows the TypeScript sources file by file.  Each
    module below embeds one source file (or one component of it); the
    theorems about them come after all the definitions.

    Conventions of the embedding:
    - a JavaScript [number] that counts something (a limit, a number of days,
      milliseconds) is a [Z]; a score, which may carry a fraction, is a [Q];
    - a JavaScript string is a [string] (a sequence of bytes);
    - an optional field [f?: T] is an [option T], [None] standing for
      [undefined];
    - an [async] function that talks to the network is a function of the
      world it writes to (the requests issued so far and the console): it
      returns its completion, a value or a rejection, with the world after;
    - the state of a React hook is passed explicitly to its callbacks, which
      return the state after their updates. *)

From Stdlib Require Import ZArith QArith Qround Lia Lqa List Bool.
From Stdlib Require Import Sorting.Sorted Sorting.Permutation.
From stdpp Require Import base list strings gmap pretty.

Close Scope Q_scope.
Set Warnings "-register-all,-clear-no-such-hyp".
Local Open Scope Z_scope.

(** ** JavaScript preliminaries shared by the modules *)

Module JS.

(** The outcome of evaluating JavaScript code: it returns a value or it
    throws. *)
Inductive Completion (E A : Type) : Type :=
| Return (a : A)
| Throw (e : E).
Arguments Return {E A} a.
Arguments Throw {E A} e.

Definition bind {E A B} (c : Completion E A) (k : A -> Completion E B)
  : Completion E B :=
  match c with
  | Return a => k a
  | Throw e => Throw e
  end.

(** [Number.prototype.toString] on an integer below 10^21 in absolute
    value: the decimal numeral, with a leading minus sign below zero.  (From
    10^21 on JavaScript prints the exponent form; the numeral of such a
    number is not read anywhere below.) *)
Definition toString (n : Z) : string := pretty n.

(** Truthiness of a string: every string but the empty one. *)
Definition truthyString (s : string) : bool :=
  match s with
  | EmptyString => false
  | String _ _ => true
  end.

(** Truthiness of an optional string field ([undefined] is falsy). *)
Definition truthyOptString (o : option string) : bool :=
  match o with
  | None => false
  | Some s => truthyString s
  end.

(** [Math.round]: the nearest integer, halves going up. *)
Definition Math_round (q : Q) : Z := Qfloor (Qplus q (1 # 2)).

(** [Math.floor (a / b)] for integers [a] and a positive [b]. *)
Definition floorDiv (a b : Z) : Z := a / b.

(** Reading a key of an object literal: [None] is [undefined]. *)
Fixpoint objLookup {V} (key : string) (obj : list (string * V)) : option V :=
  match obj with
  | [] => None
  | (k, v) :: rest => if String.eqb k key then Some v else objLookup key rest
  end.

End JS.

(** ** types/recommendation.ts: match reasons and score display *)

Module Recommendation.

(** The union of string literals of [MatchReason.type]. *)
Inductive MatchReasonType : Type :=
| semantic_match
| sector_match
| subsector_match
| keyword_match
| region_match
| budget_match
| urgency.

(** The string literal of each member of the union. *)
Definition typeName (t : MatchReasonType) : string :=
  match t with
  | semantic_match => "semantic_match"
  | sector_match => "sector_match"
  | subsector_match => "subsector_match"
  | keyword_match => "keyword_match"
  | region_match => "region_match"
  | budget_match => "budget_match"
  | urgency => "urgency"
  end.

(** A tag is admitted by the type when it is one of its literals. *)
Definition admits (tag : string) : Prop := exists t, typeName t = tag.

(** A match reason as it arrives in a response: at run time the [type]
    field is whatever string the server sent. *)
Record MatchReason : Type := {
  type : string;
  category : string;
  reason : string;
  weight : Q
}.

(** The fields of a tender that the embedded code reads. *)
Record Tender : Type := {
  id : string;
  title : string;
  deadline : option string
}.

Record TenderRecommendation : Type := {
  tender : Tender;
  match_score : Q;
  match_reasons : list MatchReason;
  semantic_similarity : Q;
  days_until_deadline : Z
}.

(** [RecommendationFilters]: every filter is optional. *)
Record RecommendationFilters : Type := {
  limit : option Z;
  min_score : option Z;
  days_ahead : option Z;
  sectors : option (list string);
  regions : option (list string)
}.

Record RecommendationResponse : Type := {
  recommendations : list TenderRecommendation;
  total_count : Z;
  profile_id : string;
  profile_completion : Q;
  filters_applied : option RecommendationFilters;
  generated_at : string
}.

Inductive InteractionType : Type :=
| view
| save
| dismiss
| apply
| rate_positive
| rate_negative.

(** The body of POST /feedback/{tender_id}. *)
Record FeedbackRequest : Type := {
  interaction_type : InteractionType;
  feedback_reason : option string;
  time_spent_seconds : option Z
}.

Record FeedbackResponse : Type := {
  success : bool;
  interaction_id : string;
  message : string
}.

Definition REASON_TYPE_ICONS : list (string * string) :=
  [ ("semantic_match", "🧠");
    ("sector_match", "🏢");
    ("subsector_match", "🎯");
    ("keyword_match", "🔑");
    ("region_match", "📍");
    ("budget_match", "💰");
    ("urgency", "⚡") ].

Definition REASON_TYPE_LABELS : list (string * string) :=
  [ ("semantic_match", "Semantic Match");
    ("sector_match", "Sector Match");
    ("subsector_match", "Specialization");
    ("keyword_match", "Keyword Match");
    ("region_match", "Region Match");
    ("budget_match", "Budget Fit");
    ("urgency", "Urgent Deadline") ].

(** The keys of [MATCH_SCORE_THRESHOLDS] and [MATCH_SCORE_COLORS]. *)
Inductive ScoreKey : Type := EXCELLENT | GOOD | FAIR | POOR.

Definition MATCH_SCORE_THRESHOLDS (k : ScoreKey) : Z :=
  match k with
  | EXCELLENT => 80
  | GOOD => 60
  | FAIR => 40
  | POOR => 20
  end.

Definition MATCH_SCORE_COLORS (k : ScoreKey) : string :=
  match k with
  | EXCELLENT => "text-green-600 bg-green-50 border-green-200"
  | GOOD => "text-blue-600 bg-blue-50 border-blue-200"
  | FAIR => "text-yellow-600 bg-yellow-50 border-yellow-200"
  | POOR => "text-gray-600 bg-gray-50 border-gray-200"
  end.

(** [score >= threshold] on numbers. *)
Definition geThreshold (score : Q) (k : ScoreKey) : bool :=
  Qle_bool (inject_Z (MATCH_SCORE_THRESHOLDS k)) score.

Definition getScoreColor (score : Q) : string :=
  if geThreshold score EXCELLENT then MATCH_SCORE_COLORS EXCELLENT
  else if geThreshold score GOOD then MATCH_SCORE_COLORS GOOD
  else if geThreshold score FAIR then MATCH_SCORE_COLORS FAIR
  else MATCH_SCORE_COLORS POOR.

Definition getScoreLabel (score : Q) : string :=
  if geThreshold score EXCELLENT then "Excellent Match"
  else if geThreshold score GOOD then "Good Match"
  else if geThreshold score FAIR then "Fair Match"
  else "Low Match".

Definition getScoreBadgeClass (score : Q) : string :=
  let baseClasses :=
    "inline-flex items-center px-2.5 py-0.5 rounded-full text-xs font-medium border" in
  let colorClass := getScoreColor score in
  baseClasses +:+ " " +:+ colorClass.

End Recommendation.

(** ** components/recommendations/MatchReasons.tsx *)

Module MatchReasons.
Import JS Recommendation.

(** What one pill of the compact view (one row of the detailed view) shows:
    the icon and the label read from the two tables, and the rounded
    weight when weights are shown.  [None] is a table lookup that gave
    [undefined]. *)
Record Pill : Type := {
  pill_icon : option string;
  pill_label : option string;
  pill_points : option Z
}.

Definition renderPill (showWeights : bool) (r : MatchReason) : Pill :=
  {| pill_icon := objLookup (type r) REASON_TYPE_ICONS;
     pill_label := objLookup (type r) REASON_TYPE_LABELS;
     pill_points := if showWeights then Some (Math_round (weight r)) else None |}.

Definition CompactView (reasons : list MatchReason) (showWeights : bool)
  : list Pill :=
  map (renderPill showWeights) reasons.

End MatchReasons.

(** ** types/profile.ts and components/profile/ProfileSetupWizard.tsx *)

Module Profile.
Import JS.

Record Range : Type := { MIN : nat; MAX : nat }.

Record ValidationTable : Type := {
  ACTIVE_SECTORS : Range;
  KEYWORDS : Range;
  REGIONS : Range
}.

Definition VALIDATION : ValidationTable :=
  {| ACTIVE_SECTORS := {| MIN := 1; MAX := 5 |};
     KEYWORDS := {| MIN := 3; MAX := 10 |};
     REGIONS := {| MIN := 1; MAX := 5 |} |}.

(** [Partial<CompanyProfileCreateStep1>]: every field may be missing. *)
Record Step1Data : Type := {
  primary_sector : option string;
  active_sectors : option (list string);
  sub_sectors : option (list string);
  preferred_regions : option (list string);
  keywords : option (list string)
}.

(** The wizard's [isStep1Valid]: a chain of [&&] coerced to a boolean.
    An array, even an empty one, is truthy; a missing field and the empty
    string are falsy.  The chain stops at its first falsy operand, so a
    length is only read from an array that is there. *)
Definition isStep1Valid (step1Data : Step1Data) : bool :=
  truthyOptString (primary_sector step1Data) &&
  match active_sectors step1Data with
  | None => false
  | Some active =>
      (MIN (ACTIVE_SECTORS VALIDATION) <=? length active)%nat &&
      (length active <=? MAX (ACTIVE_SECTORS VALIDATION))%nat &&
      match sub_sectors step1Data with
      | None => false
      | Some _ =>
          match preferred_regions step1Data with
          | None => false
          | Some regions =>
              (MIN (REGIONS VALIDATION) <=? length regions)%nat &&
              match keywords step1Data with
              | None => false
              | Some kws =>
                  (MIN (KEYWORDS VALIDATION) <=? length kws)%nat &&
                  (length kws <=? MAX (KEYWORDS VALIDATION))%nat
              end
          end
      end
  end.

(** [Array.prototype.includes] on strings. *)
Definition includes (l : list string) (x : string) : bool :=
  existsb (String.eqb x) l.

(** [handleToggleRegion] of the first step: a selected region is removed,
    a new one is added while fewer than [REGIONS.MAX] are selected. *)
Definition handleToggleRegion (preferredRegions : list string) (region : string)
  : list string :=
  if includes preferredRegions region
  then List.filter (fun r => negb (String.eqb r region)) preferredRegions
  else if (length preferredRegions <? MAX (REGIONS VALIDATION))%nat
       then preferredRegions ++ [region]
       else preferredRegions.

(** The Tier-1 bounds the way the specification words them. *)
Definition meetsTier1Bounds (d : Step1Data) : Prop :=
  (exists s, primary_sector d = Some s /\ s <> EmptyString) /\
  (exists a, active_sectors d = Some a /\ (1 <= length a <= 5)%nat) /\
  (exists r, preferred_regions d = Some r /\ (1 <= length r <= 5)%nat) /\
  (exists k, keywords d = Some k /\ (3 <= length k <= 10)%nat) /\
  (exists s, sub_sectors d = Some s).

End Profile.

(** ** components/recommendations/RecommendationCard.tsx *)

Module RecommendationCard.
Import JS Recommendation.

(** The deadline block of the card: the extra classes of its container,
    its text, and whether the urgency marker follows the text. *)
Record DeadlineBlock : Type := {
  className : string;
  text : string;
  urgencyMarker : bool
}.

(** The block is rendered only for a truthy [tender.deadline]. *)
Definition deadlineBlock (recommendation : TenderRecommendation)
  : option DeadlineBlock :=
  let days := days_until_deadline recommendation in
  let isUrgent := days <=? 7 in
  let isExpired := days <? 0 in
  if truthyOptString (deadline (tender recommendation)) then
    Some {| className :=
              if isExpired then "text-red-600"
              else if isUrgent then "text-orange-600 font-medium"
              else "";
            text :=
              if isExpired then "Expired"
              else if days =? 0 then "Due today"
              else if days =? 1 then "Due tomorrow"
              else toString days +:+ " days left";
            urgencyMarker := isUrgent && negb isExpired |}
  else None.

(** Whether the card carries the urgency marker. *)
Definition showsUrgencyMarker (recommendation : TenderRecommendation) : bool :=
  match deadlineBlock recommendation with
  | Some b => urgencyMarker b
  | None => false
  end.

(** The compact variant of the card: no expiry test, the marker follows
    every deadline at most seven days away. *)
Definition compactShowsUrgencyMarker (recommendation : TenderRecommendation)
  : bool :=
  let isUrgent := days_until_deadline recommendation <=? 7 in
  truthyOptString (deadline (tender recommendation)) && isUrgent.

End RecommendationCard.

(** ** The network and the console, as the client code sees them *)

Module Http.
Import JS Recommendation.

Inductive Method : Type := GET | POST.

(** The body of POST /api/v1/interactions ([InteractionCreate]). *)
Record InteractionCreate : Type := {
  ic_tender_id : string;
  ic_interaction_type : InteractionType;
  ic_time_spent_seconds : option Z;
  ic_feedback_reason : option string
}.

(** What a request carries as its body. *)
Inductive Body : Type :=
| NoBody
| FeedbackBody (feedback : FeedbackRequest)
| InteractionBody (interaction : InteractionCreate).

Record Request : Type := {
  method : Method;
  url : string;
  headers : list (string * string);
  body : Body
}.

(** A value that was thrown, or that a promise was rejected with: an
    instance of [Error] or anything else. *)
Inductive Thrown : Type :=
| ErrorInstance (error_message : string)
| NonError (description : string).

Definition instanceofError (t : Thrown) : bool :=
  match t with
  | ErrorInstance _ => true
  | NonError _ => false
  end.

(** The part of the world the code writes to: the requests issued, oldest
    first, and the lines sent to [console.error]. *)
Record World : Type := {
  requests : list Request;
  console : list string
}.

Definition issue (r : Request) (w : World) : World :=
  {| requests := requests w ++ [r]; console := console w |}.

Definition console_error (line : string) (w : World) : World :=
  {| requests := requests w; console := console w ++ [line] |}.

(** An asynchronous computation, run to its settlement: from the world
    before to its completion and the world after. *)
Definition Async (A : Type) : Type := World -> Completion Thrown A * World.

Definition ret {A} (a : A) : Async A := fun w => (Return a, w).

Definition andThen {A B} (m : Async A) (k : A -> Async B) : Async B :=
  fun w =>
    match m w with
    | (Return a, w') => k a w'
    | (Throw t, w') => (Throw t, w')
    end.

(** What axios resolves with. *)
Record AxiosResponse (T : Type) : Type := {
  data : T;
  status : Z
}.
Arguments data {T} _.
Arguments status {T} _.

(** The server behind axios: how each request settles. *)
Definition Server (T : Type) : Type := Request -> Completion Thrown (AxiosResponse T).

Definition axios_get {T} (server : Server T) (u : string)
  (hs : list (string * string)) : Async (AxiosResponse T) :=
  fun w =>
    let r := {| method := GET; url := u; headers := hs; body := NoBody |} in
    (server r, issue r w).

Definition axios_post {T} (server : Server T) (u : string) (b : Body)
  (hs : list (string * string)) : Async (AxiosResponse T) :=
  fun w =>
    let r := {| method := POST; url := u; headers := hs; body := b |} in
    (server r, issue r w).

(** What [fetch] resolves with. *)
Record FetchResponse : Type := {
  ok : bool;
  statusText : string
}.

Definition FetchServer : Type := Request -> Completion Thrown FetchResponse.

Definition fetch (server : FetchServer) (r : Request) : Async FetchResponse :=
  fun w => (server r, issue r w).

End Http.

(** [x ← m; k] reads: await [m], bind its value to [x], go on with [k]. *)
#[global] Instance Async_ret : MRet Http.Async := @Http.ret.
#[global] Instance Async_bind : MBind Http.Async :=
  fun A B k m => Http.andThen m k.

(** ** lib/recommendations.ts *)

Module RecommendationsApi.
Import JS Recommendation Http.

(** What the module reads from its environment: the build-time variable,
    whether it runs in a browser, and the token in local storage. *)
Record Env : Type := {
  NEXT_PUBLIC_API_URL : option string;
  hasWindow : bool;
  access_token : option string
}.

Definition API_URL (env : Env) : string :=
  match NEXT_PUBLIC_API_URL env with
  | Some u => if truthyString u then u else "http://localhost:8000/api/v1"
  | None => "http://localhost:8000/api/v1"
  end.

Definition getAuthHeaders (env : Env) : list (string * string) :=
  if hasWindow env then
    match access_token env with
    | Some token =>
        if truthyString token then [("Authorization", "Bearer " +:+ token)] else []
    | None => []
    end
  else [].

(** [URLSearchParams]: the list of name-value pairs, in the order they were
    appended. *)
Definition URLSearchParams : Type := list (string * string).

Definition append (name value : string) (params : URLSearchParams)
  : URLSearchParams :=
  params ++ [(name, value)].

(** [forEach (x => params.append name x)]. *)
Definition appendEach (name : string) (values : list string)
  (params : URLSearchParams) : URLSearchParams :=
  fold_left (fun ps v => append name v ps) values params.

(** [URLSearchParams.prototype.getAll]. *)
Definition getAll (name : string) (params : URLSearchParams) : list string :=
  map snd (List.filter (fun p => String.eqb (fst p) name) params).

(** The value of [limit] and of [days_ahead] after the destructuring with
    defaults. *)
Definition limitOf (filters : RecommendationFilters) : Z :=
  match limit filters with
  | Some n => n
  | None => 20
  end.

Definition daysAheadOf (filters : RecommendationFilters) : Z :=
  match days_ahead filters with
  | Some n => n
  | None => 7
  end.

(** The query parameters [getRecommendations] builds. *)
Definition buildParams (filters : RecommendationFilters) : URLSearchParams :=
  let params := [] in
  let params := append "limit" (toString (limitOf filters)) params in
  let params :=
    match min_score filters with
    | Some m => append "min_score" (toString m) params
    | None => params
    end in
  let params := append "days_ahead" (toString (daysAheadOf filters)) params in
  let params :=
    match sectors filters with
    | Some ss => if (0 <? length ss)%nat then appendEach "sectors" ss params else params
    | None => params
    end in
  match regions filters with
  | Some rs => if (0 <? length rs)%nat then appendEach "regions" rs params else params
  | None => params
  end.

Section Client.
(** [URLSearchParams.prototype.toString], the form-urlencoded rendering of
    the pairs, is the platform's. *)
Variable serialize : URLSearchParams -> string.
Variable env : Env.

Definition getRecommendations (server : Server RecommendationResponse)
  (filters : RecommendationFilters) : Async RecommendationResponse :=
  let params := buildParams filters in
  response ← axios_get server
               (API_URL env +:+ "/recommendations?" +:+ serialize params)
               (getAuthHeaders env);
  mret (data response).

Definition submitFeedback (server : Server FeedbackResponse)
  (tenderId : string) (feedback : FeedbackRequest) : Async FeedbackResponse :=
  response ← axios_post server
               (API_URL env +:+ "/recommendations/feedback/" +:+ tenderId)
               (FeedbackBody feedback)
               (getAuthHeaders env);
  mret (data response).

End Client.

End RecommendationsApi.

(** ** hooks/useRecommendations.ts: [useFeedback] and [useTenderActions] *)

Module UseRecommendations.
Import JS Recommendation Http.

(** The state of [useFeedback]. *)
Record FeedbackState : Type := {
  loading : bool;
  error : option Thrown
}.

(** The state of [useTenderActions], with the state of the [useFeedback]
    it calls. *)
Record ActionsState : Type := {
  savedTenders : gset string;
  dismissedTenders : gset string;
  feedbackState : FeedbackState
}.

(** A callback of a hook, run to its settlement: it transforms the state of
    the hook and the world, and returns or throws. *)
Definition Callback (S A : Type) : Type :=
  S -> World -> Completion Thrown A * S * World.

Section Hooks.
Variable env : RecommendationsApi.Env.
Variable server : Server FeedbackResponse.

(** [useFeedback().submitFeedback]. *)
Definition submitFeedback (tenderId : string) (interactionType : InteractionType)
  (feedbackReason : option string) (timeSpentSeconds : option Z)
  : Callback FeedbackState FeedbackResponse :=
  fun _ w =>
    (* setLoading(true); setError(null) *)
    let st := {| loading := true; error := None |} in
    let feedback :=
      {| interaction_type := interactionType;
         feedback_reason := feedbackReason;
         time_spent_seconds := timeSpentSeconds |} in
    match RecommendationsApi.submitFeedback env server tenderId feedback w with
    | (Return response, w') =>
        (Return response, {| loading := false; error := error st |}, w')
    | (Throw err, w') =>
        let error := if instanceofError err then err
                     else ErrorInstance "Failed to submit feedback" in
        (Throw error, {| loading := false; error := Some error |}, w')
    end.

Definition setSavedTenders (f : gset string -> gset string) (st : ActionsState)
  : ActionsState :=
  {| savedTenders := f (savedTenders st);
     dismissedTenders := dismissedTenders st;
     feedbackState := feedbackState st |}.

Definition setDismissedTenders (f : gset string -> gset string)
  (st : ActionsState) : ActionsState :=
  {| savedTenders := savedTenders st;
     dismissedTenders := f (dismissedTenders st);
     feedbackState := feedbackState st |}.

Definition setFeedbackState (fb : FeedbackState) (st : ActionsState)
  : ActionsState :=
  {| savedTenders := savedTenders st;
     dismissedTenders := dismissedTenders st;
     feedbackState := fb |}.

(** [new Set(prev).add(tenderId)] and [next.delete(tenderId)]. *)
Definition setAdd (tenderId : string) (prev : gset string) : gset string :=
  {[tenderId]} ∪ prev.

Definition setDelete (tenderId : string) (prev : gset string) : gset string :=
  prev ∖ {[tenderId]}.

Definition saveTender (tenderId : string) : Callback ActionsState unit :=
  fun st w =>
    let st := setSavedTenders (setAdd tenderId) st in
    match submitFeedback tenderId save None None (feedbackState st) w with
    | (Return _, fb, w') => (Return tt, setFeedbackState fb st, w')
    | (Throw error, fb, w') =>
        let st := setFeedbackState fb st in
        (Throw error, setSavedTenders (setDelete tenderId) st, w')
    end.

Definition unsaveTender (tenderId : string) (st : ActionsState) : ActionsState :=
  setSavedTenders (setDelete tenderId) st.

Definition dismissTender (tenderId : string) (reason : option string)
  : Callback ActionsState unit :=
  fun st w =>
    let st := setDismissedTenders (setAdd tenderId) st in
    match submitFeedback tenderId dismiss reason None (feedbackState st) w with
    | (Return _, fb, w') => (Return tt, setFeedbackState fb st, w')
    | (Throw error, fb, w') =>
        let st := setFeedbackState fb st in
        (Throw error, setDismissedTenders (setDelete tenderId) st, w')
    end.

End Hooks.

End UseRecommendations.

(** ** hooks/useTenders.ts: [useInteractionTracking] *)

Module UseInteractionTracking.
Import JS Recommendation Http.

Record Options : Type := {
  tenderId : string;
  enabled : bool
}.

(** The two refs of the hook. *)
Record Refs : Type := {
  startTime : Z;
  tracked : bool
}.

Section Tracking.
Variable server : FetchServer.

(** [trackInteraction]: it never rejects, a failure goes to the console. *)
Definition trackInteraction (opts : Options) (type : InteractionType)
  (timeSpent : option Z) (feedbackReason : option string) : World -> World :=
  fun w =>
    if negb (enabled opts) then w
    else
      let r :=
        {| method := POST;
           url := "/api/v1/interactions";
           headers := [("Content-Type", "application/json")];
           body := InteractionBody
                     {| ic_tender_id := tenderId opts;
                        ic_interaction_type := type;
                        ic_time_spent_seconds := timeSpent;
                        ic_feedback_reason := feedbackReason |} |} in
      match fetch server r w with
      | (Return response, w') =>
          if negb (ok response)
          then console_error "Failed to track interaction:" w'
          else w'
      | (Throw _, w') => console_error "Error tracking interaction:" w'
      end.

(** The body of the effect, run at time [now]: it returns the refs and the
    options its cleanup closes over, when it registers one. *)
Definition effect (opts : Options) (now : Z) (refs : Refs)
  : Refs * option Options :=
  if negb (enabled opts) || tracked refs then (refs, None)
  else ({| startTime := now; tracked := tracked refs |}, Some opts).

(** The cleanup the effect registered, run at time [now]. *)
Definition cleanup (opts : Options) (now : Z) (refs : Refs) (w : World)
  : Refs * World :=
  if negb (tracked refs) then
    let timeSpent := floorDiv (now - startTime refs) 1000 in
    if 5 <=? timeSpent then
      ({| startTime := startTime refs; tracked := true |},
       trackInteraction opts view (Some timeSpent) None w)
    else (refs, w)
  else (refs, w).

(** A mounted component: its refs, the options of the last render, the
    cleanup waiting to run, and the world. *)
Record Mounted : Type := {
  refs : Refs;
  current : Options;
  pending : option Options;
  world : World
}.

Definition runPending (now : Z) (m : Mounted) : Refs * World :=
  match pending m with
  | Some opts => cleanup opts now (refs m) (world m)
  | None => (refs m, world m)
  end.

(** First render at time [rendered], effect at time [now]. *)
Definition mount (opts : Options) (rendered now : Z) (w : World) : Mounted :=
  let refs0 := {| startTime := rendered; tracked := false |} in
  let '(refs1, c) := effect opts now refs0 in
  {| refs := refs1; current := opts; pending := c; world := w |}.



Definition unmount (now : Z) (m : Mounted) : World :=
  snd (runPending now m).


End Tracking.

(** The requests of a log that submit a view. *)
Definition isViewRequest (r : Request) : bool :=
  match body r with
  | InteractionBody i =>
      match ic_interaction_type i with
      | view => true
      | _ => false
      end
  | _ => false
  end.

Definition viewsSubmitted (w : World) : list Request :=
  List.filter isViewRequest (requests w).


Definition emptyWorld : World := {| requests := []; console := [] |}.

End UseInteractionTracking.

(** ** lib/error-utils.ts *)

Module ErrorUtils.
Import JS.

(** The values [getErrorMessage] may be handed ([error: any]).  An object is
    the list of its own properties, the first binding of a key being the one
    that is read. *)
Inductive Value : Type :=
| Undefined
| Null
| Boolean (b : bool)
| Number (n : Z)
| Str (s : string)
| Array (items : list Value)
| Object (props : list (string * Value)).

Inductive TypeError : Type :=
| CannotReadProperties (key : string).

Definition isNullish (v : Value) : bool :=
  match v with
  | Undefined | Null => true
  | _ => false
  end.

Definition truthy (v : Value) : bool :=
  match v with
  | Undefined | Null => false
  | Boolean b => b
  | Number n => negb (n =? 0)
  | Str s => truthyString s
  | Array _ | Object _ => true
  end.

(** [v?.key] for the keys this file reads ([response], [data], [detail],
    [message], [msg]), none of which a string, a number, a boolean or an
    array carries: [undefined] on everything but an object that has the
    key. *)
Definition optGet (v : Value) (key : string) : Value :=
  match v with
  | Object props =>
      match objLookup key props with
      | Some x => x
      | None => Undefined
      end
  | _ => Undefined
  end.

(** [v.key]: as [v?.key], but reading from [null] or [undefined] throws. *)
Definition get (v : Value) (key : string) : Completion TypeError Value :=
  if isNullish v then Throw (CannotReadProperties key)
  else Return (optGet v key).

(** [errors[0]]. *)
Definition first (items : list Value) : Value :=
  match items with
  | [] => Undefined
  | x :: _ => x
  end.

Definition isArray (v : Value) : bool :=
  match v with
  | Array _ => true
  | _ => false
  end.

Definition isString (v : Value) : bool :=
  match v with
  | Str _ => true
  | _ => false
  end.

Definition arrayItems (v : Value) : list Value :=
  match v with
  | Array items => items
  | _ => []
  end.

Definition fallbackMessage : string := "An error occurred. Please try again.".

(** [error.response?.data?.field]. *)
Definition responseData (error : Value) (field : string)
  : Completion TypeError Value :=
  bind (get error "response") (fun response =>
  Return (optGet (optGet response "data") field)).

(** [error.response.data.field], every read a plain one. *)
Definition responseDataStrict (error : Value) (field : string)
  : Completion TypeError Value :=
  bind (get error "response") (fun response =>
  bind (get response "data") (fun data =>
  get data field)).

Definition getErrorMessage (error : Value) : Completion TypeError Value :=
  bind (responseData error "detail") (fun detail =>
  let afterArray :=
    bind (responseData error "detail") (fun detail =>
    if isString detail then responseDataStrict error "detail"
    else
      bind (responseData error "message") (fun message =>
      if truthy message then responseDataStrict error "message"
      else
        bind (get error "message") (fun message =>
        if truthy message then get error "message"
        else Return (Str fallbackMessage)))) in
  if isArray detail then
    bind (responseDataStrict error "detail") (fun errors =>
    if (0 <? length (arrayItems errors))%nat
    then get (first (arrayItems errors)) "msg"
    else afterArray)
  else afterArray).

(** A value the function is meant for: an object whose messages, where it
    has any, are strings, and whose validation errors are objects with a
    string [msg]. *)
Definition stringOrFalsy (v : Value) : bool :=
  isString v || negb (truthy v).

Definition wellFormed (error : Value) : bool :=
  negb (isNullish error) &&
  let detail := optGet (optGet (optGet error "response") "data") "detail" in
  match detail with
  | Array (e :: _) => isString (optGet e "msg") && negb (isNullish e)
  | _ =>
      stringOrFalsy (optGet (optGet (optGet error "response") "data") "message") &&
      stringOrFalsy (optGet error "message")
  end.

End ErrorUtils.

(** ** The Matcher's ranking step

    The server that answers GET /recommendations is not among the sources
    (only its documentation and the client are), so the ranking step is
    modelled from the specification, section 4.4, step 6. *)

Module Matcher.

(** Modelled from the spec: a response row of the Matcher (the server code
    is missing), reduced to the three keys the ranking reads: the integer
    [match_score], the [semantic_similarity] and the tender's id. *)
Record Item : Type := {
  tender_id : string;
  match_score : Z;
  semantic_similarity : Q
}.

(** Modelled from the spec: the tie-breaking order of the missing ranking
    step, "sorted by match_score descending, tied by semantic_similarity
    descending, tied by tender_id ascending": whether [a] may stand before
    [b].  Tender ids ascend in the lexical order of strings. *)
Definition rankedBefore (a b : Item) : bool :=
  match match_score b ?= match_score a with
  | Lt => true
  | Gt => false
  | Eq =>
      match Qcompare (semantic_similarity b) (semantic_similarity a) with
      | Lt => true
      | Gt => false
      | Eq => String.leb (tender_id a) (tender_id b)
      end
  end.

(** Modelled from the spec: the missing ranking step sorts by insertion
    under the tie-breaking order. *)
Fixpoint insertRanked (x : Item) (l : list Item) : list Item :=
  match l with
  | [] => [x]
  | y :: rest => if rankedBefore x y then x :: y :: rest
                 else y :: insertRanked x rest
  end.

(** Modelled from the spec: "apply the tie-breaking order" of the missing
    ranking step. *)
Fixpoint sortRanked (l : list Item) : list Item :=
  match l with
  | [] => []
  | x :: rest => insertRanked x (sortRanked rest)
  end.

(** Modelled from the spec: step 6 of the missing Matcher, "Rank and
    paginate. Apply the tie-breaking order. Return limit items". *)
Definition rankAndPaginate (limit : nat) (items : list Item) : list Item :=
  firstn limit (sortRanked items).

(** The order of two rows of a response, the earlier one first, the way the
    claim words it. *)
Definition inResponseOrder (a b : Item) : Prop :=
  match_score b <= match_score a /\
  (match_score a = match_score b ->
   Qle (semantic_similarity b) (semantic_similarity a)) /\
  (match_score a = match_score b ->
   Qeq (semantic_similarity a) (semantic_similarity b) ->
   String.le (tender_id a) (tender_id b)).

End Matcher.

(** ** Vocabulary of the properties *)

Module Claims.
Import Recommendation.

(** The display category a label names, and the rank of a category, the
    lowest first. *)
Definition labelKey (label : string) : option ScoreKey :=
  if String.eqb label "Excellent Match" then Some EXCELLENT
  else if String.eqb label "Good Match" then Some GOOD
  else if String.eqb label "Fair Match" then Some FAIR
  else if String.eqb label "Low Match" then Some POOR
  else None.

Definition keyRank (k : ScoreKey) : nat :=
  match k with
  | POOR => 0
  | FAIR => 1
  | GOOD => 2
  | EXCELLENT => 3
  end.

(** The rank of the category [getScoreLabel] puts a score in. *)
Definition labelRank (score : Q) : option nat :=
  keyRank <$> labelKey (getScoreLabel score).

Definition isSubstringOf (needle hay : string) : Prop :=
  exists before after, hay = before +:+ needle +:+ after.

(** The eleven tags of a match reason in the specification. *)
Definition SPEC_TAGS : list string :=
  [ "semantic_match"; "sector_match"; "subsector_match"; "keyword_match";
    "region_match"; "budget_match"; "urgency"; "certification_match";
    "language_match"; "deadline_match"; "popularity_boost" ].

(** Both lookups of the rendering branch are defined for a tag. *)
Definition rendersDefined (tag : string) : Prop :=
  is_Some (JS.objLookup tag REASON_TYPE_ICONS) /\
  is_Some (JS.objLookup tag REASON_TYPE_LABELS).

(** The four tags of the specification that the type leaves out. *)
Definition UNTYPED_TAGS : list string :=
  [ "certification_match"; "language_match"; "deadline_match";
    "popularity_boost" ].

(** A reason as a server following the specification may send it. *)
Definition certificationReason : MatchReason :=
  {| type := "certification_match";
     category := "ISO 9001";
     reason := "Holds a required certification";
     weight := 5 # 1 |}.

(** A first-step draft with six preferred regions and every other field
    within its bounds. *)
Definition sixRegionsDraft : Profile.Step1Data :=
  {| Profile.primary_sector := Some "IT";
     Profile.active_sectors := Some ["IT"];
     Profile.sub_sectors := Some [];
     Profile.preferred_regions :=
       Some ["Addis Ababa"; "Oromia"; "Amhara"; "Tigray"; "Sidama"; "Afar"];
     Profile.keywords := Some ["cloud"; "erp"; "network"] |}.

(** A recommendation whose tender closes in [days] days. *)
Definition closingIn (days : Z) : TenderRecommendation :=
  {| tender := {| id := "t-1"; title := "Cloud ERP rollout";
                  deadline := Some "2026-01-15T00:00:00Z" |};
     match_score := 85 # 1;
     match_reasons := [];
     semantic_similarity := 82 # 100;
     days_until_deadline := days |}.

(** The request [submitFeedback] is expected to issue. *)
Definition feedbackRequest (env : RecommendationsApi.Env) (tenderId : string)
  (feedback : FeedbackRequest) : Http.Request :=
  {| Http.method := Http.POST;
     Http.url := RecommendationsApi.API_URL env
                 +:+ "/recommendations/feedback/" +:+ tenderId;
     Http.headers := RecommendationsApi.getAuthHeaders env;
     Http.body := Http.FeedbackBody feedback |}.

(** The request [getRecommendations] is expected to issue. *)
Definition recommendationsRequest (serialize : list (string * string) -> string)
  (env : RecommendationsApi.Env) (filters : RecommendationFilters)
  : Http.Request :=
  {| Http.method := Http.GET;
     Http.url := RecommendationsApi.API_URL env +:+ "/recommendations?"
                 +:+ serialize (RecommendationsApi.buildParams filters);
     Http.headers := RecommendationsApi.getAuthHeaders env;
     Http.body := Http.NoBody |}.

(** The feedback [saveTender] and [dismissTender] submit. *)
Definition saveFeedback : FeedbackRequest :=
  {| interaction_type := save; feedback_reason := None;
     time_spent_seconds := None |}.

Definition dismissFeedback (reason : option string) : FeedbackRequest :=
  {| interaction_type := dismiss; feedback_reason := reason;
     time_spent_seconds := None |}.

(** The error a caller of [useFeedback().submitFeedback] sees for a
    rejection of the request. *)
Definition surfaced (e : Http.Thrown) : Http.Thrown :=
  if Http.instanceofError e then e
  else Http.ErrorInstance "Failed to submit feedback".

(** A browser session with a token, and a server that is down. *)
Definition browserEnv : RecommendationsApi.Env :=
  {| RecommendationsApi.NEXT_PUBLIC_API_URL := None;
     RecommendationsApi.hasWindow := true;
     RecommendationsApi.access_token := Some "abc" |}.

Definition networkError : Http.Thrown := Http.ErrorInstance "Network Error".

Definition serverDown {T} : Http.Server T := fun _ => JS.Throw networkError.

Definition quietWorld : Http.World :=
  {| Http.requests := []; Http.console := [] |}.

(** The state of [useTenderActions] with the given saved and dismissed
    tenders and an idle [useFeedback]. *)
Definition actionsState (saved dismissed : gset string)
  : UseRecommendations.ActionsState :=
  {| UseRecommendations.savedTenders := saved;
     UseRecommendations.dismissedTenders := dismissed;
     UseRecommendations.feedbackState :=
       {| UseRecommendations.loading := false;
          UseRecommendations.error := None |} |}.

(** Filters that ask for five hundred results. *)
Definition fiveHundred : RecommendationFilters :=
  {| limit := Some 500; min_score := None; days_ahead := None;
     sectors := None; regions := None |}.

Definition noFilters : RecommendationFilters :=
  {| limit := None; min_score := None; days_ahead := None;
     sectors := None; regions := None |}.


(** A tracked tender view: the hook's options with tracking enabled. *)
Definition trackedView (tenderId : string) : UseInteractionTracking.Options :=
  {| UseInteractionTracking.tenderId := tenderId;
     UseInteractionTracking.enabled := true |}.

(** A [fetch] that always resolves with a 201. *)
Definition fetchCreated : Http.FetchServer :=
  fun _ => JS.Return {| Http.ok := true; Http.statusText := "Created" |}.



(** The three values [getErrorMessage] chooses among, read without
    throwing. *)
Definition detailOf (error : ErrorUtils.Value) : ErrorUtils.Value :=
  ErrorUtils.optGet
    (ErrorUtils.optGet (ErrorUtils.optGet error "response") "data") "detail".

Definition dataMessageOf (error : ErrorUtils.Value) : ErrorUtils.Value :=
  ErrorUtils.optGet
    (ErrorUtils.optGet (ErrorUtils.optGet error "response") "data") "message".

Definition messageOf (error : ErrorUtils.Value) : ErrorUtils.Value :=
  ErrorUtils.optGet error "message".

(** A validation error of the API: detail is an array of errors. *)
Definition validationError : ErrorUtils.Value :=
  ErrorUtils.Object
    [ ("message", ErrorUtils.Str "Request failed with status code 422");
      ("response",
       ErrorUtils.Object
         [ ("status", ErrorUtils.Number 422);
           ("data",
            ErrorUtils.Object
              [ ("detail",
                 ErrorUtils.Array
                   [ ErrorUtils.Object
                       [ ("type", ErrorUtils.Str "missing");
                         ("loc", ErrorUtils.Array
                                   [ErrorUtils.Str "body";
                                    ErrorUtils.Str "keywords"]);
                         ("msg", ErrorUtils.Str "Field required") ] ]) ]) ]) ].

(** An error whose detail is an array of plain strings. *)
Definition stringListError : ErrorUtils.Value :=
  ErrorUtils.Object
    [ ("message", ErrorUtils.Str "Request failed with status code 400");
      ("response",
       ErrorUtils.Object
         [ ("data",
            ErrorUtils.Object
              [ ("detail", ErrorUtils.Array [ErrorUtils.Str "Bad sector"]) ]) ]) ].

(** An error with an empty detail array. *)
Definition emptyDetailError : ErrorUtils.Value :=
  ErrorUtils.Object
    [ ("message", ErrorUtils.Str "Request failed with status code 400");
      ("response",
       ErrorUtils.Object
         [ ("data", ErrorUtils.Object [ ("detail", ErrorUtils.Array []) ]) ]) ].

(** Three rows: two tie on the score, and of these two tie on the
    similarity. *)
Definition threeRows : list Matcher.Item :=
  [ {| Matcher.tender_id := "t-b"; Matcher.match_score := 70;
       Matcher.semantic_similarity := 1 # 2 |};
    {| Matcher.tender_id := "t-c"; Matcher.match_score := 85;
       Matcher.semantic_similarity := 3 # 10 |};
    {| Matcher.tender_id := "t-a"; Matcher.match_score := 70;
       Matcher.semantic_similarity := 2 # 4 |};
    {| Matcher.tender_id := "t-d"; Matcher.match_score := 70;
       Matcher.semantic_similarity := 9 # 10 |} ].

(** The tie-breaking order as a relation. *)
Definition rankedBeforeP (a b : Matcher.Item) : Prop :=
  Matcher.rankedBefore a b = true.

End Claims.

(** * More of the client: the code around the claims *)

(** ** components/profile/ProfileSetupWizard.tsx: the form of the first step *)

Module Step1Form.
Import JS Profile.

(** The state the wizard starts the first step with:
    [initialData.primary_sector || ''], [initialData.active_sectors || []]
    and so on. *)
Definition initialStep1Data (initialData : Step1Data) : Step1Data :=
  {| primary_sector :=
       Some (match primary_sector initialData with
             | Some s => if truthyString s then s else ""
             | None => ""
             end);
     active_sectors := Some (default [] (active_sectors initialData));
     sub_sectors := Some (default [] (sub_sectors initialData));
     preferred_regions := Some (default [] (preferred_regions initialData));
     keywords := Some (default [] (keywords initialData)) |}.

(** The wizard mounted without [initialData]. *)
Definition noInitialData : Step1Data :=
  {| primary_sector := None; active_sectors := None; sub_sectors := None;
     preferred_regions := None; keywords := None |}.

(** [updateStep1Data]: [{ ...prev, ...data }], a key of [data] that is
    there replacing the one of [prev]. *)
Definition updateStep1Data (prev data : Step1Data) : Step1Data :=
  {| primary_sector :=
       match primary_sector data with Some x => Some x | None => primary_sector prev end;
     active_sectors :=
       match active_sectors data with Some x => Some x | None => active_sectors prev end;
     sub_sectors :=
       match sub_sectors data with Some x => Some x | None => sub_sectors prev end;
     preferred_regions :=
       match preferred_regions data with Some x => Some x | None => preferred_regions prev end;
     keywords :=
       match keywords data with Some x => Some x | None => keywords prev end |}.

(** The objects the handlers pass to [onChange], one key each. *)
Definition onlyPrimarySector (s : string) : Step1Data :=
  {| primary_sector := Some s; active_sectors := None; sub_sectors := None;
     preferred_regions := None; keywords := None |}.

Definition onlyActiveSectors (l : list string) : Step1Data :=
  {| primary_sector := None; active_sectors := Some l; sub_sectors := None;
     preferred_regions := None; keywords := None |}.

Definition onlySubSectors (l : list string) : Step1Data :=
  {| primary_sector := None; active_sectors := None; sub_sectors := Some l;
     preferred_regions := None; keywords := None |}.

Definition onlyPreferredRegions (l : list string) : Step1Data :=
  {| primary_sector := None; active_sectors := None; sub_sectors := None;
     preferred_regions := Some l; keywords := None |}.

Definition onlyKeywords (l : list string) : Step1Data :=
  {| primary_sector := None; active_sectors := None; sub_sectors := None;
     preferred_regions := None; keywords := Some l |}.

(** [handleToggleActiveSector], on the list [data.active_sectors || []]. *)
Definition handleToggleActiveSector (activeSectors : list string)
  (sector : string) : list string :=
  if includes activeSectors sector
  then List.filter (fun s => negb (String.eqb s sector)) activeSectors
  else if (length activeSectors <? MAX (ACTIVE_SECTORS VALIDATION))%nat
       then activeSectors ++ [sector]
       else activeSectors.

(** [handleToggleSubSector]: no upper bound. *)
Definition handleToggleSubSector (subSectors : list string) (sector : string)
  : list string :=
  if includes subSectors sector
  then List.filter (fun s => negb (String.eqb s sector)) subSectors
  else subSectors ++ [sector].

(** [handleRemoveKeyword]. *)
Definition handleRemoveKeyword (keywords : list string) (keyword : string)
  : list string :=
  List.filter (fun k => negb (String.eqb k keyword)) keywords.

(** The form: the draft it edits and the text in the keyword input. *)
Record Form : Type := {
  data : Step1Data;
  keywordInput : string
}.

Section Handlers.
(** [String.prototype.trim] is the platform's. *)
Variable trim : string -> string.

(** [handleAddKeyword]: the trimmed input is added when it is not empty,
    not a keyword yet, and fewer than [KEYWORDS.MAX] keywords are there;
    the input is cleared only when the keyword was added. *)
Definition handleAddKeyword (f : Form) : Form :=
  let kws := default [] (keywords (data f)) in
  if truthyString (trim (keywordInput f))
     && negb (includes kws (trim (keywordInput f)))
  then
    if (MAX (KEYWORDS VALIDATION) <=? length kws)%nat then f
    else
      {| data := updateStep1Data (data f)
                   (onlyKeywords (kws ++ [trim (keywordInput f)]));
         keywordInput := "" |}
  else f.

(** What the user can do on the form. *)
Inductive Event : Type :=
| SelectPrimarySector (sector : string)
| ToggleActiveSector (sector : string)
| EnterSubSector (typed : string)
| ToggleSubSector (sector : string)
| ToggleRegion (region : string)
| ClickSuggestedKeyword (keyword : string)
| TypeKeyword (text : string)
| AddKeyword
| RemoveKeyword (keyword : string).

Definition change (f : Form) (patch : Step1Data) : Form :=
  {| data := updateStep1Data (data f) patch; keywordInput := keywordInput f |}.

(** The handler of each event, as wired in the markup of the step. *)
Definition handle (f : Form) (e : Event) : Form :=
  let activeSectors := default [] (active_sectors (data f)) in
  let kws := default [] (keywords (data f)) in
  let preferredRegions := default [] (preferred_regions (data f)) in
  let subSectors := default [] (sub_sectors (data f)) in
  match e with
  | SelectPrimarySector sector => change f (onlyPrimarySector sector)
  | ToggleActiveSector sector =>
      change f (onlyActiveSectors (handleToggleActiveSector activeSectors sector))
  | EnterSubSector typed =>
      let value := trim typed in
      if truthyString value && negb (includes subSectors value)
      then change f (onlySubSectors (handleToggleSubSector subSectors value))
      else f
  | ToggleSubSector sector =>
      change f (onlySubSectors (handleToggleSubSector subSectors sector))
  | ToggleRegion region =>
      change f (onlyPreferredRegions (handleToggleRegion preferredRegions region))
  | ClickSuggestedKeyword keyword =>
      if negb (includes kws keyword)
         && (length kws <? MAX (KEYWORDS VALIDATION))%nat
      then change f (onlyKeywords (kws ++ [keyword]))
      else f
  | TypeKeyword text => {| data := data f; keywordInput := text |}
  | AddKeyword => handleAddKeyword f
  | RemoveKeyword keyword =>
      change f (onlyKeywords (handleRemoveKeyword kws keyword))
  end.

Definition handleAll (f : Form) (events : list Event) : Form :=
  fold_left handle events f.

End Handlers.

(** The form of a wizard mounted with [initialData]. *)
Definition initialForm (initialData : Step1Data) : Form :=
  {| data := initialStep1Data initialData; keywordInput := "" |}.

(** A selection within its cap and without repetition. *)
Definition selection (cap : option nat) (o : option (list string)) : Prop :=
  exists l, o = Some l /\ NoDup l /\
            match cap with Some n => (length l <= n)%nat | None => True end.

(** What the handlers keep true of the draft. *)
Definition withinCaps (d : Step1Data) : Prop :=
  selection (Some (MAX (ACTIVE_SECTORS VALIDATION))) (active_sectors d) /\
  selection (Some (MAX (REGIONS VALIDATION))) (preferred_regions d) /\
  selection (Some (MAX (KEYWORDS VALIDATION))) (keywords d) /\
  selection None (sub_sectors d).

End Step1Form.

(** ** components/recommendations/MatchReasons.tsx: the whole component *)

Module MatchReasonsViews.
Import JS Recommendation MatchReasons.

(** [Array.prototype.slice(0, end)] for an integer [end]: a negative [end]
    counts from the end of the array. *)
Definition slice0 {A} (l : list A) (end_ : Z) : list A :=
  let len := Z.of_nat (length l) in
  let k := if end_ <? 0 then Z.max (len + end_) 0 else Z.min end_ len in
  firstn (Z.to_nat k) l.

(** Truthiness of an optional number: [undefined] and 0 are falsy. *)
Definition truthyOptNumber (o : option Z) : bool :=
  match o with
  | Some n => negb (n =? 0)
  | None => false
  end.

Definition visibleReasons (reasons : list MatchReason) (maxVisible : option Z)
  : list MatchReason :=
  match maxVisible with
  | Some n => if truthyOptNumber maxVisible then slice0 reasons n else reasons
  | None => reasons
  end.

Definition hiddenCount (reasons : list MatchReason) (maxVisible : option Z) : Z :=
  match maxVisible with
  | Some n =>
      if truthyOptNumber maxVisible && (n <? Z.of_nat (length reasons))
      then Z.of_nat (length reasons) - n
      else 0
  | None => 0
  end.








(** The accumulator of the [reduce] calls: an object keyed by reason type,
    as the list of its entries in the order the keys were first set.  (The
    keys are reason types; none of them is an array index or a name that an
    object inherits.) *)
Fixpoint push (ty : string) (r : MatchReason)
  (acc : list (string * list MatchReason)) : list (string * list MatchReason) :=
  match acc with
  | [] => [(ty, [r])]
  | (k, rs) :: rest =>
      if String.eqb k ty then (k, rs ++ [r]) :: rest
      else (k, rs) :: push ty r rest
  end.

(** [reasons.reduce ((acc, reason) => ..., {})] of [MatchReasonsGrouped]. *)
Definition grouped (reasons : list MatchReason)
  : list (string * list MatchReason) :=
  fold_left (fun acc r => push (type r) r acc) reasons [].

(** [acc[r.type] = (acc[r.type] || 0) + 1]. *)
Fixpoint bump (ty : string) (acc : list (string * Z)) : list (string * Z) :=
  match acc with
  | [] => [(ty, 0 + 1)]
  | (k, n) :: rest =>
      if String.eqb k ty then (k, (if n =? 0 then 0 else n) + 1) :: rest
      else (k, n) :: bump ty rest
  end.

(** The second [reduce] of [MatchReasonsSummary]. *)
Definition typeCounts (reasons : list MatchReason) : list (string * Z) :=
  fold_left (fun acc r => bump (type r) acc) reasons [].

Section Totals.
(** [+] on numbers is the platform's: the sum of two doubles, rounded to a
    double. *)
Variable plus : Q -> Q -> Q.

(** [reasons.reduce ((sum, r) => sum + r.weight, 0)]. *)
Definition totalWeight (reasons : list MatchReason) : Q :=
  fold_left (fun sum r => plus sum (weight r)) reasons (0 # 1)%Q.

(** A card of the grouped view. *)
Record GroupRow : Type := {
  gr_category : option string;
  gr_reason : string;
  gr_points : option Z
}.

Record GroupCard : Type := {
  gc_icon : option string;
  gc_label : option string;
  gc_count : nat;
  gc_total : option Z;
  gc_rows : list GroupRow
}.

Definition groupCard (showWeights : bool) (entry : string * list MatchReason)
  : GroupCard :=
  let '(ty, typeReasons) := entry in
  {| gc_icon := objLookup ty REASON_TYPE_ICONS;
     gc_label := objLookup ty REASON_TYPE_LABELS;
     gc_count := length typeReasons;
     gc_total :=
       if showWeights then Some (Math_round (totalWeight typeReasons)) else None;
     gc_rows :=
       map (fun r =>
              {| gr_category :=
                   if truthyString (category r) then Some (category r) else None;
                 gr_reason := reason r;
                 gr_points :=
                   if showWeights && (1 <? length typeReasons)%nat
                   then Some (Math_round (weight r)) else None |})
           typeReasons |}.

Definition MatchReasonsGrouped (reasons : list MatchReason) (showWeights : bool)
  : list GroupCard :=
  map (groupCard showWeights) (grouped reasons).

(** An entry of the summary: the icon, the title, and the multiplicity,
    which is shown from two on. *)
Record SummaryEntry : Type := {
  se_icon : option string;
  se_title : option string;
  se_times : option Z
}.

Record Summary : Type := {
  entries : list SummaryEntry;
  pointsTotal : Z
}.

Definition MatchReasonsSummary (reasons : list MatchReason) : Summary :=
  {| entries :=
       map (fun '(ty, count) =>
              {| se_icon := objLookup ty REASON_TYPE_ICONS;
                 se_title := objLookup ty REASON_TYPE_LABELS;
                 se_times := if 1 <? count then Some count else None |})
           (typeCounts reasons);
     pointsTotal := Math_round (totalWeight reasons) |}.

End Totals.

(** The reasons of a given type, in their order. *)
Definition ofType (ty : string) (reasons : list MatchReason)
  : list MatchReason :=
  List.filter (fun r => String.eqb (type r) ty) reasons.

End MatchReasonsViews.

(** ** components/recommendations/MatchScore.tsx *)

Module MatchScoreViews.
Import JS Recommendation.

Inductive Size : Type := sm | md | lg.

Definition sizeClasses (size : Size) : string :=
  match size with
  | sm => "text-xs px-2 py-0.5"
  | md => "text-sm px-2.5 py-1"
  | lg => "text-base px-3 py-1.5"
  end.

(** The badge: its classes, the percentage it prints (followed by a
    percent sign), and the label next to it when labels are shown. *)
Record Badge : Type := {
  badge_class : string;
  badge_percent : Z;
  badge_label : option string
}.

Definition MatchScore (score : Q) (size : Size) (showLabel : bool) : Badge :=
  let label := getScoreLabel score in
  let badgeClass := getScoreBadgeClass score in
  {| badge_class := badgeClass +:+ " " +:+ sizeClasses size;
     badge_percent := Math_round score;
     badge_label := if showLabel then Some label else None |}.

(** [getColor] of [MatchScoreCircular]. *)
Definition getColor (score : Q) : string :=
  if Qle_bool (inject_Z 80) score then "#10b981"
  else if Qle_bool (inject_Z 60) score then "#3b82f6"
  else if Qle_bool (inject_Z 40) score then "#eab308"
  else "#6b7280".

End MatchScoreViews.

(** ** lib/auth.ts: the tokens in local storage *)

Module Auth.
Import JS.

(** The browser as the client code sees it: whether there is a [window]
    at all, the local storage, and the address the window shows. *)
Record Browser : Type := {
  hasWindow : bool;
  localStorage : gmap string string;
  href : string
}.

Definition setItem (key value : string) (b : Browser) : Browser :=
  {| hasWindow := hasWindow b;
     localStorage := <[key := value]> (localStorage b);
     href := href b |}.

Definition removeItem (key : string) (b : Browser) : Browser :=
  {| hasWindow := hasWindow b;
     localStorage := delete key (localStorage b);
     href := href b |}.

(** [localStorage.getItem]: [None] is [null]. *)
Definition getItem (key : string) (b : Browser) : option string :=
  localStorage b !! key.

Definition setAuthTokens (accessToken refreshToken : string) (b : Browser)
  : Browser :=
  if hasWindow b
  then setItem "refresh_token" refreshToken (setItem "access_token" accessToken b)
  else b.

Definition clearAuthTokens (b : Browser) : Browser :=
  if hasWindow b
  then removeItem "refresh_token" (removeItem "access_token" b)
  else b.

Definition getAccessToken (b : Browser) : option string :=
  if hasWindow b then getItem "access_token" b else None.

Definition isAuthenticated (b : Browser) : bool :=
  truthyOptString (getAccessToken b).

(** What lib/recommendations.ts reads from this browser. *)
Definition envOf (apiUrl : option string) (b : Browser) : RecommendationsApi.Env :=
  {| RecommendationsApi.NEXT_PUBLIC_API_URL := apiUrl;
     RecommendationsApi.hasWindow := hasWindow b;
     RecommendationsApi.access_token := getItem "access_token" b |}.

End Auth.

(** ** store/authStore.ts *)

Module AuthStore.
Import JS Auth.

Record User : Type := {
  id : string;
  email : string;
  full_name : string;
  company_id : option string;
  role : string;
  is_active : bool;
  created_at : string
}.

Record AuthState : Type := {
  user : option User;
  isAuthenticated : bool;
  isLoading : bool
}.

Definition initialState : AuthState :=
  {| user := None; isAuthenticated := false; isLoading := true |}.

Definition setUser (u : User) (s : AuthState) : AuthState :=
  {| user := Some u; isAuthenticated := true; isLoading := isLoading s |}.

Definition setAuth (u : User) (accessToken refreshToken : string)
  (s : AuthState) (b : Browser) : AuthState * Browser :=
  ({| user := Some u; isAuthenticated := true; isLoading := false |},
   setAuthTokens accessToken refreshToken b).

Definition logout (s : AuthState) (b : Browser) : AuthState * Browser :=
  ({| user := None; isAuthenticated := false; isLoading := false |},
   clearAuthTokens b).

Definition setLoading (loading : bool) (s : AuthState) : AuthState :=
  {| user := user s; isAuthenticated := isAuthenticated s; isLoading := loading |}.

End AuthStore.

(** ** lib/recommendations.ts: the other calls *)

Module RecommendationsApiMore.
Import JS Recommendation Http RecommendationsApi.

Record SimilarTender : Type := {
  st_tender : Tender;
  similarity_score : Q;
  common_keywords : list string
}.

Record SimilarTendersResponse : Type := {
  similar_tenders : list SimilarTender;
  reference_tender : Tender;
  total : Z
}.

Record RecommendationStats : Type := {
  total_recommendations : Z;
  avg_match_score : Z;
  saved_count : Z;
  dismissed_count : Z;
  applied_count : Z;
  stats_profile_completion : Z
}.

(** [getSimilarTenders (tenderId, limit = 10)]. *)
Definition getSimilarTenders (env : Env) (server : Server SimilarTendersResponse)
  (tenderId : string) (limit : option Z) : Async SimilarTendersResponse :=
  let limit := match limit with Some n => n | None => 10 end in
  response ← axios_get server
               (API_URL env +:+ "/recommendations/tenders/" +:+ tenderId
                +:+ "/similar?limit=" +:+ toString limit)
               (getAuthHeaders env);
  mret (data response).

(** [getRecommendationStats]: the mock, no request behind it. *)
Definition getRecommendationStats : Async RecommendationStats :=
  mret {| total_recommendations := 0; avg_match_score := 0; saved_count := 0;
          dismissed_count := 0; applied_count := 0;
          stats_profile_completion := 0 |}.

End RecommendationsApiMore.

(** ** hooks/useRecommendations.ts: the rest of [useTenderActions] *)

Module TenderActions.
Import JS Recommendation Http UseRecommendations.

Section Actions.
Variable env : RecommendationsApi.Env.
Variable server : Server FeedbackResponse.

(** [markAsViewed]: a failure is logged and goes no further. *)
Definition markAsViewed (tenderId : string) (timeSpent : option Z)
  : Callback ActionsState unit :=
  fun st w =>
    match UseRecommendations.submitFeedback env server tenderId view None
            timeSpent (feedbackState st) w with
    | (Return _, fb, w') => (Return tt, setFeedbackState fb st, w')
    | (Throw error, fb, w') =>
        (Return tt, setFeedbackState fb st,
         console_error "Failed to track view:" w')
    end.

(** [markAsApplied]: a failure is logged and thrown again. *)
Definition markAsApplied (tenderId : string) : Callback ActionsState unit :=
  fun st w =>
    match UseRecommendations.submitFeedback env server tenderId apply None
            None (feedbackState st) w with
    | (Return _, fb, w') => (Return tt, setFeedbackState fb st, w')
    | (Throw error, fb, w') =>
        (Throw error, setFeedbackState fb st,
         console_error "Failed to track application:" w')
    end.

End Actions.

(** [savedTenders.has] and [dismissedTenders.has]. *)
Definition isSaved (st : ActionsState) (tenderId : string) : bool :=
  bool_decide (tenderId ∈ savedTenders st).

Definition isDismissed (st : ActionsState) (tenderId : string) : bool :=
  bool_decide (tenderId ∈ dismissedTenders st).

End TenderActions.

(** ** components/recommendations/FeedbackButtons.tsx *)

Module FeedbackButtons.
Import JS Recommendation Http UseRecommendations TenderActions.

(** The [loading] object: a key is missing until it is first set. *)
Record Loading : Type := {
  l_save : option bool;
  l_dismiss : option bool;
  l_apply : option bool
}.

(** The component: the state of its [useTenderActions], its own state, and
    how often it has called each callback of its parent (the callbacks
    themselves are the parent's, and are taken not to throw). *)
Record Buttons : Type := {
  actions : ActionsState;
  loading : Loading;
  showDismissReason : bool;
  onSaveCalls : nat;
  onDismissCalls : nat;
  onApplyCalls : nat
}.

Section Handlers.
Variable env : RecommendationsApi.Env.
Variable server : Server FeedbackResponse.
Variable tenderId : string.

(** [handleSave]: a saved tender is unsaved, locally; any other is saved
    through the server. *)
Definition handleSave : Callback Buttons unit :=
  fun b w =>
    let saved := isSaved (actions b) tenderId in
    (* setLoading({ ...loading, save: true }) is overwritten in finally *)
    let '(c, acts, w1) :=
      if saved then (Return tt, unsaveTender tenderId (actions b), w)
      else saveTender env server tenderId (actions b) w in
    let done :=
      {| l_save := Some false; l_dismiss := l_dismiss (loading b);
         l_apply := l_apply (loading b) |} in
    match c with
    | Return _ =>
        (Return tt,
         {| actions := acts; loading := done;
            showDismissReason := showDismissReason b;
            onSaveCalls := S (onSaveCalls b);
            onDismissCalls := onDismissCalls b;
            onApplyCalls := onApplyCalls b |},
         w1)
    | Throw _ =>
        (Return tt,
         {| actions := acts; loading := done;
            showDismissReason := showDismissReason b;
            onSaveCalls := onSaveCalls b;
            onDismissCalls := onDismissCalls b;
            onApplyCalls := onApplyCalls b |},
         console_error "Failed to save tender:" w1)
    end.

Definition handleDismiss (reason : option string) : Callback Buttons unit :=
  fun b w =>
    let '(c, acts, w1) := dismissTender env server tenderId reason (actions b) w in
    let done :=
      {| l_save := l_save (loading b); l_dismiss := Some false;
         l_apply := l_apply (loading b) |} in
    match c with
    | Return _ =>
        (Return tt,
         {| actions := acts; loading := done;
            showDismissReason := false;
            onSaveCalls := onSaveCalls b;
            onDismissCalls := S (onDismissCalls b);
            onApplyCalls := onApplyCalls b |},
         w1)
    | Throw _ =>
        (Return tt,
         {| actions := acts; loading := done;
            showDismissReason := showDismissReason b;
            onSaveCalls := onSaveCalls b;
            onDismissCalls := onDismissCalls b;
            onApplyCalls := onApplyCalls b |},
         console_error "Failed to dismiss tender:" w1)
    end.

Definition handleApply : Callback Buttons unit :=
  fun b w =>
    let '(c, acts, w1) := markAsApplied env server tenderId (actions b) w in
    let done :=
      {| l_save := l_save (loading b); l_dismiss := l_dismiss (loading b);
         l_apply := Some false |} in
    match c with
    | Return _ =>
        (Return tt,
         {| actions := acts; loading := done;
            showDismissReason := showDismissReason b;
            onSaveCalls := onSaveCalls b;
            onDismissCalls := onDismissCalls b;
            onApplyCalls := S (onApplyCalls b) |},
         w1)
    | Throw _ =>
        (Return tt,
         {| actions := acts; loading := done;
            showDismissReason := showDismissReason b;
            onSaveCalls := onSaveCalls b;
            onDismissCalls := onDismissCalls b;
            onApplyCalls := onApplyCalls b |},
         console_error "Failed to track application:" w1)
    end.

End Handlers.

(** [handleSubmit] of the dismiss modal: the argument it confirms with,
    [finalReason || undefined]. *)
Definition handleSubmit (selectedReason reason : string) : option string :=
  let finalReason :=
    if String.eqb selectedReason "Other" then reason else selectedReason in
  if truthyString finalReason then Some finalReason else None.

(** The component as mounted: nothing saved, nothing dismissed. *)
Definition mounted : Buttons :=
  {| actions := {| savedTenders := ∅; dismissedTenders := ∅;
                   feedbackState := {| UseRecommendations.loading := false;
                                       error := None |} |};
     loading := {| l_save := None; l_dismiss := None; l_apply := None |};
     showDismissReason := false;
     onSaveCalls := 0; onDismissCalls := 0; onApplyCalls := 0 |}.

End FeedbackButtons.

(** ** hooks/useRecommendations.ts: [useRecommendations], and
       components/recommendations/RecommendationList.tsx *)

Module RecommendationList.
Import JS Recommendation Http RecommendationsApi UseRecommendations.

(** A filters object as JavaScript has it: a key is missing, or it is
    present with a value that can be [undefined]. *)
Record FiltersObject : Type := {
  k_limit : option (option Z);
  k_min_score : option (option Z);
  k_days_ahead : option (option Z);
  k_sectors : option (option (list string));
  k_regions : option (option (list string))
}.

(** [{}]. *)
Definition emptyObject : FiltersObject :=
  {| k_limit := None; k_min_score := None; k_days_ahead := None;
     k_sectors := None; k_regions := None |}.

(** Reading a key: [undefined] when it is missing. *)
Definition readKey {A : Type} (k : option (option A)) : option A :=
  match k with
  | Some v => v
  | None => None
  end.

(** What a reader of the object's properties sees. *)
Definition read (o : FiltersObject) : RecommendationFilters :=
  {| limit := readKey (k_limit o);
     min_score := readKey (k_min_score o);
     days_ahead := readKey (k_days_ahead o);
     sectors := readKey (k_sectors o);
     regions := readKey (k_regions o) |}.

Definition spreadKey {A : Type} (prev newValue : option (option A))
  : option (option A) :=
  match newValue with
  | Some v => Some v
  | None => prev
  end.

(** [{ ...prev, ...newFilters }]: the keys of [newFilters] win, also when
    their value is [undefined]. *)
Definition spread (prev newFilters : FiltersObject) : FiltersObject :=
  {| k_limit := spreadKey (k_limit prev) (k_limit newFilters);
     k_min_score := spreadKey (k_min_score prev) (k_min_score newFilters);
     k_days_ahead := spreadKey (k_days_ahead prev) (k_days_ahead newFilters);
     k_sectors := spreadKey (k_sectors prev) (k_sectors newFilters);
     k_regions := spreadKey (k_regions prev) (k_regions newFilters) |}.

(** The state of [useRecommendations]. *)
Record Hook : Type := {
  data : option RecommendationResponse;
  loading : bool;
  error : option Thrown;
  filters : FiltersObject
}.

(** The component: its [useRecommendations] and its own [localFilters]. *)
Record Component : Type := {
  hook : Hook;
  localFilters : FiltersObject
}.

Definition useRecommendations (initialFilters : FiltersObject) : Hook :=
  {| data := None; loading := false; error := None;
     filters := initialFilters |}.

(** [setLoading(true); setError(null)]. *)
Definition begin (h : Hook) : Hook :=
  {| data := data h; loading := true; error := None; filters := filters h |}.

(** The [try], [catch] and [finally] blocks, for each way the request can
    settle. *)
Definition settle (c : Completion Thrown RecommendationResponse) (h : Hook)
  : Hook :=
  match c with
  | Return response =>
      {| data := Some response; loading := false; error := error h;
         filters := filters h |}
  | Throw err =>
      {| data := data h; loading := false;
         error := Some (if instanceofError err then err
                        else ErrorInstance "Failed to fetch recommendations");
         filters := filters h |}
  end.

(** [updateFilters]. *)
Definition updateFilters (newFilters : FiltersObject) (h : Hook) : Hook :=
  {| data := data h; loading := loading h; error := error h;
     filters := spread (filters h) newFilters |}.

Section Component.
Variable serialize : URLSearchParams -> string.
Variable env : Env.
Variable server : Server RecommendationResponse.

(** [fetchRecommendations], run to the settlement of its request. *)
Definition fetchRecommendations (newFilters : option FiltersObject)
  : Callback Hook unit :=
  fun h w =>
    let filtersToUse :=
      match newFilters with
      | Some f => f
      | None => filters h
      end in
    let '(c, w') := getRecommendations serialize env server (read filtersToUse) w in
    (Return tt, settle c (begin h), w').

(** The effect: it runs after the first render, and again whenever
    [fetchRecommendations] changes, which it does with [filters]. *)
Definition effect (autoFetch : bool) : Callback Hook unit :=
  fun h w =>
    if autoFetch then fetchRecommendations None h w else (Return tt, h, w).

(** [refetch]. *)
Definition refetch : Callback Hook unit :=
  fun h w => fetchRecommendations (Some (filters h)) h w.

Definition inComponent (f : Callback Hook unit) : Callback Component unit :=
  fun c w =>
    let '(r, h, w') := f (hook c) w in
    (r, {| hook := h; localFilters := localFilters c |}, w').

(** The first render of the list and the effect after it; the list leaves
    [autoFetch] at its default. *)
Definition mount (initialFilters : FiltersObject) : World -> Component * World :=
  fun w =>
    let c := {| hook := useRecommendations initialFilters;
                localFilters := initialFilters |} in
    let '(_, c', w') := inComponent (effect true) c w in
    (c', w').

(** [handleFilterChange], and the effect that follows the new [filters]. *)
Definition handleFilterChange (newFilters : FiltersObject)
  : Callback Component unit :=
  fun c w =>
    let updated := spread (localFilters c) newFilters in
    let c := {| hook := updateFilters updated (hook c);
                localFilters := updated |} in
    inComponent (effect true) c w.

(** [handleRefresh]. *)
Definition handleRefresh : Callback Component unit := inComponent refetch.

(** The options of the three selects of the filters bar. *)
Inductive MinScoreOption : Type := All | AtLeast40 | AtLeast60 | AtLeast80.
Inductive DaysAheadOption : Type := Next7 | Next14 | Next30 | Next60 | Next90.
Inductive LimitOption : Type := Show10 | Show20 | Show50 | Show100.

Definition minScoreValue (o : MinScoreOption) : Z :=
  match o with
  | All => 0 | AtLeast40 => 40 | AtLeast60 => 60 | AtLeast80 => 80
  end.

Definition daysAheadValue (o : DaysAheadOption) : Z :=
  match o with
  | Next7 => 7 | Next14 => 14 | Next30 => 30 | Next60 => 60 | Next90 => 90
  end.

Definition limitValue (o : LimitOption) : Z :=
  match o with
  | Show10 => 10 | Show20 => 20 | Show50 => 50 | Show100 => 100
  end.

(** The one-key objects the bar and the empty state hand to
    [onFilterChange]. *)
Definition onlyMinScore (n : Z) : FiltersObject :=
  {| k_limit := None; k_min_score := Some (Some n); k_days_ahead := None;
     k_sectors := None; k_regions := None |}.

Definition onlyDaysAhead (n : Z) : FiltersObject :=
  {| k_limit := None; k_min_score := None; k_days_ahead := Some (Some n);
     k_sectors := None; k_regions := None |}.

Definition onlyLimit (n : Z) : FiltersObject :=
  {| k_limit := Some (Some n); k_min_score := None; k_days_ahead := None;
     k_sectors := None; k_regions := None |}.

(** What the user can do with the list: choose an option of a select,
    press the refresh button or "Try again" (or act on a card, which calls
    [handleRefresh] too), press "Clear filters". *)
Inductive Event : Type :=
| SelectMinScore (o : MinScoreOption)
| SelectDaysAhead (o : DaysAheadOption)
| SelectLimit (o : LimitOption)
| Refresh
| ClearFilters.

Definition handle (e : Event) : Callback Component unit :=
  match e with
  | SelectMinScore o => handleFilterChange (onlyMinScore (minScoreValue o))
  | SelectDaysAhead o => handleFilterChange (onlyDaysAhead (daysAheadValue o))
  | SelectLimit o => handleFilterChange (onlyLimit (limitValue o))
  | Refresh => handleRefresh
  | ClearFilters => handleFilterChange (onlyMinScore 0)
  end.

(** The events one after the other, each handled to the settlement of the
    request it causes, and whether or not its control is on the page at the
    time ("Clear filters" is there in the empty state only). *)
Definition handleAll (cw : Component * World) (events : list Event)
  : Component * World :=
  fold_left (fun cw e => let '(_, c, w) := handle e (fst cw) (snd cw) in (c, w))
            events cw.

End Component.

(** What the hook returns beside its state. *)
Definition recommendationsOf (h : Hook) : list TenderRecommendation :=
  match data h with
  | Some d => recommendations d
  | None => []
  end.

Definition totalOf (h : Hook) : Z :=
  match data h with
  | Some d => total_count d
  | None => 0
  end.

Definition profileCompletionOf (h : Hook) : Q :=
  match data h with
  | Some d => profile_completion d
  | None => (0 # 1)%Q
  end.

(** The options of each select, in the order of the markup. *)
Definition minScoreOptions : list MinScoreOption :=
  [All; AtLeast40; AtLeast60; AtLeast80].

Definition daysAheadOptions : list DaysAheadOption :=
  [Next7; Next14; Next30; Next60; Next90].

Definition limitOptions : list LimitOption :=
  [Show10; Show20; Show50; Show100].

(** [v || fallback] on numbers. *)
Definition orElse (v : option Z) (fallback : Z) : Z :=
  match v with
  | Some n => if n =? 0 then fallback else n
  | None => fallback
  end.

(** The [value] props the bar hands to its selects, for [localFilters]:
    [filters.min_score || 0], [filters.days_ahead || 7] and
    [filters.limit || 20]. *)
Definition minScoreProp (c : Component) : Z :=
  orElse (min_score (read (localFilters c))) 0.

Definition daysAheadProp (c : Component) : Z :=
  orElse (days_ahead (read (localFilters c))) 7.

Definition limitProp (c : Component) : Z :=
  orElse (limit (read (localFilters c))) 20.

(** The option a select shows for its [value] prop: the option that has
    this value; when none has, no option is selected and the browser shows
    the first one. *)
Definition shownOption {O : Type} (valueOf : O -> Z) (options : list O)
  (prop : Z) : option O :=
  match List.find (fun o => valueOf o =? prop) options with
  | Some o => Some o
  | None => head options
  end.

Definition shownMinScore (c : Component) : option MinScoreOption :=
  shownOption minScoreValue minScoreOptions (minScoreProp c).

Definition shownDaysAhead (c : Component) : option DaysAheadOption :=
  shownOption daysAheadValue daysAheadOptions (daysAheadProp c).

Definition shownLimit (c : Component) : option LimitOption :=
  shownOption limitValue limitOptions (limitProp c).

(** [error.message]. *)
Definition message (e : Thrown) : option string :=
  match e with
  | ErrorInstance m => Some m
  | NonError _ => None
  end.

(** The blocks under the filters bar, in the order of the JSX. *)
Inductive Panel : Type :=
| ErrorPanel (text : option string)
| Skeletons
| EmptyState (completeProfile : bool)
| Cards (shown : list TenderRecommendation) (total : Z).

Definition isEmpty {A : Type} (l : list A) : bool :=
  match l with
  | [] => true
  | _ => false
  end.

Definition isSome {A : Type} (o : option A) : bool :=
  match o with
  | Some _ => true
  | None => false
  end.

Definition panels (h : Hook) : list Panel :=
  let recommendations := recommendationsOf h in
  (match error h with
   | Some e => [ErrorPanel (message e)]
   | None => []
   end) ++
  (if loading h && isEmpty recommendations then [Skeletons] else []) ++
  (if negb (loading h) && negb (isSome (error h)) && isEmpty recommendations
   then [EmptyState (if Qlt_le_dec (profileCompletionOf h) (50 # 1) then true
                     else false)]
   else []) ++
  (if negb (loading h) && negb (isSome (error h)) && negb (isEmpty recommendations)
   then [Cards recommendations (totalOf h)]
   else []).

(** The alert above the bar: shown while the profile is not complete. *)
Definition showsProfileAlert (h : Hook) : bool :=
  if Qlt_le_dec (profileCompletionOf h) (100 # 1) then true else false.

End RecommendationList.

(** ** components/profile/ProfileSetupWizard.tsx: the wizard around the
       form *)

Module Wizard.
Import JS Profile Step1Form ErrorUtils.



(** The one key the wizard reads of the profile the server answers with. *)
Record CompanyTenderProfile : Type := {
  id : string
}.

(** [companyProfileApi] as it stands when a button is pressed: how the
    creation of a draft settles, and how the completion of the second step
    does.  What is thrown is any value ([err: any]). *)
Record Api : Type := {
  createProfileStep1 : Step1Data -> Completion Value CompanyTenderProfile;
  completeProfileStep2 : Completion Value CompanyTenderProfile
}.

(** The wizard: its state, the form of the first step while that is
    mounted, and what it has sent out: the drafts posted to
    [createProfileStep1], oldest first, and the ids it has called
    [onComplete] with (the parent's callback is taken not to throw). *)
Record Wizard : Type := {
  currentStep : Z;
  form : Form;
  loading : bool;
  error : option Value;
  profileId : option string;
  posted : list Step1Data;
  completed : list string
}.

Definition mounted (initialData : Step1Data) : Wizard :=
  {| currentStep := 1; form := initialForm initialData; loading := false;
     error := None; profileId := None; posted := []; completed := [] |}.

Definition setCurrentStep (n : Z) (wz : Wizard) : Wizard :=
  {| currentStep := n; form := form wz; loading := loading wz;
     error := error wz; profileId := profileId wz; posted := posted wz;
     completed := completed wz |}.

Definition setForm (f : Form) (wz : Wizard) : Wizard :=
  {| currentStep := currentStep wz; form := f; loading := loading wz;
     error := error wz; profileId := profileId wz; posted := posted wz;
     completed := completed wz |}.

Definition setLoading (b : bool) (wz : Wizard) : Wizard :=
  {| currentStep := currentStep wz; form := form wz; loading := b;
     error := error wz; profileId := profileId wz; posted := posted wz;
     completed := completed wz |}.

Definition setError (e : option Value) (wz : Wizard) : Wizard :=
  {| currentStep := currentStep wz; form := form wz; loading := loading wz;
     error := e; profileId := profileId wz; posted := posted wz;
     completed := completed wz |}.

Definition setProfileId (p : option string) (wz : Wizard) : Wizard :=
  {| currentStep := currentStep wz; form := form wz; loading := loading wz;
     error := error wz; profileId := p; posted := posted wz;
     completed := completed wz |}.

Definition post (d : Step1Data) (wz : Wizard) : Wizard :=
  {| currentStep := currentStep wz; form := form wz; loading := loading wz;
     error := error wz; profileId := profileId wz;
     posted := posted wz ++ [d]; completed := completed wz |}.

Definition onComplete (p : string) (wz : Wizard) : Wizard :=
  {| currentStep := currentStep wz; form := form wz; loading := loading wz;
     error := error wz; profileId := profileId wz; posted := posted wz;
     completed := completed wz ++ [p] |}.

(** [err.response?.data?.detail || err.message || fallback]. *)
Definition errorMessage (err : Value) (fallback : string)
  : Completion TypeError Value :=
  bind (get err "response") (fun response =>
  let detail := optGet (optGet response "data") "detail" in
  if truthy detail then Return detail
  else
    bind (get err "message") (fun message =>
    if truthy message then Return message else Return (Str fallback))).

(** [handleStep1Complete], run to the settlement of the request. *)
Definition handleStep1Complete (api : Api) (wz : Wizard)
  : Completion TypeError unit * Wizard :=
  if negb (isStep1Valid (data (form wz))) then
    (Return tt, setError (Some (Str "Please complete all required fields")) wz)
  else
    let wz := setError None (setLoading true wz) in
    let wz := post (data (form wz)) wz in
    match createProfileStep1 api (data (form wz)) with
    | Return profile =>
        (Return tt,
         setLoading false
           (setCurrentStep 2 (setProfileId (Some (id profile)) wz)))
    | Throw err =>
        match errorMessage err "Failed to save profile" with
        | Return errorMessage =>
            (Return tt, setLoading false (setError (Some errorMessage) wz))
        | Throw typeError => (Throw typeError, setLoading false wz)
        end
    end.

(** [handleStep2Complete]. *)
Definition handleStep2Complete (api : Api) (wz : Wizard)
  : Completion TypeError unit * Wizard :=
  let wz := setError None (setLoading true wz) in
  match completeProfileStep2 api with
  | Return profile => (Return tt, setLoading false (onComplete (id profile) wz))
  | Throw err =>
      match errorMessage err "Failed to update profile" with
      | Return errorMessage =>
          (Return tt, setLoading false (setError (Some errorMessage) wz))
      | Throw typeError => (Throw typeError, setLoading false wz)
      end
  end.

(** [handleSkipStep2]. *)
Definition handleSkipStep2 (wz : Wizard) : Wizard :=
  match profileId wz with
  | Some p => if truthyString p then onComplete p wz else wz
  | None => wz
  end.

(** [handleBack]; the form of the first step is mounted anew, its keyword
    input empty. *)
Definition handleBack (wz : Wizard) : Wizard :=
  if 1 <? currentStep wz then
    setForm {| data := data (form wz); keywordInput := "" |}
      (setCurrentStep (currentStep wz - 1) wz)
  else wz.

(** [disabled] of the main button. *)
Definition mainButtonDisabled (wz : Wizard) : bool :=
  if currentStep wz =? 1
  then negb (isStep1Valid (data (form wz))) || loading wz
  else loading wz.

(** What the user can do with the wizard: act on the form of the first
    step, press the main button ("Continue" or "Complete Profile"), "Back",
    "Skip this step", or the cross of the error message. *)
Inductive Event : Type :=
| OnForm (e : Step1Form.Event)
| ClickMain (api : Api)
| ClickBack
| ClickSkipStep2
| DismissError.

(** The handler of each event as the markup wires it: the form is there on
    step 1 only, "Back" and "Skip this step" past it only, and a disabled
    button is not pressed.  A TypeError thrown by a handler is lost with
    its promise. *)
Definition handle (trim : string -> string) (wz : Wizard) (e : Event) : Wizard :=
  match e with
  | OnForm e =>
      if currentStep wz =? 1
      then setForm (Step1Form.handle trim (form wz) e) wz
      else wz
  | ClickMain api =>
      if mainButtonDisabled wz then wz
      else if currentStep wz =? 1 then snd (handleStep1Complete api wz)
           else snd (handleStep2Complete api wz)
  | ClickBack =>
      if (1 <? currentStep wz) && negb (loading wz) then handleBack wz else wz
  | ClickSkipStep2 =>
      if (currentStep wz =? 2) && negb (loading wz) then handleSkipStep2 wz
      else wz
  | DismissError => setError None wz
  end.

Definition handleAll (trim : string -> string) (wz : Wizard)
  (events : list Event) : Wizard :=
  fold_left (handle trim) events wz.


(** The progress line of the first step: how many of the four required
    fields are done. *)
Definition requiredFieldsDone (d : Step1Data) : nat :=
  let activeSectors := default [] (active_sectors d) in
  let preferredRegions := default [] (preferred_regions d) in
  let kws := default [] (keywords d) in
  length (List.filter (fun b : bool => b)
    [ truthyOptString (primary_sector d);
      (MIN (ACTIVE_SECTORS VALIDATION) <=? length activeSectors)%nat;
      (MIN (REGIONS VALIDATION) <=? length preferredRegions)%nat;
      (MIN (KEYWORDS VALIDATION) <=? length kws)%nat ]).

(** What React makes of a child that is a value: a string or a number is
    text, [null], [undefined] and the booleans are nothing, an array is its
    items one after the other, and a plain object is refused ("Objects are
    not valid as a React child"). *)
Inductive RenderError : Type :=
| ObjectsAreNotValidAsAReactChild.

Fixpoint renderChild (v : Value) : Completion RenderError string :=
  match v with
  | Undefined | Null | Boolean _ => Return ""
  | Number n => Return (toString n)
  | Str s => Return s
  | Array items =>
      (fix renderItems (l : list Value) : Completion RenderError string :=
         match l with
         | [] => Return ""
         | x :: rest =>
             match renderChild x with
             | Return a =>
                 match renderItems rest with
                 | Return b => Return (a +:+ b)
                 | Throw e => Throw e
                 end
             | Throw e => Throw e
             end
         end) items
  | Object _ => Throw ObjectsAreNotValidAsAReactChild
  end.

(** The error message of the markup,
    [{error && (<div> ... <p>{error}</p> ... </div>)}]: the panel with its
    text when [error] is truthy; a falsy [error] is itself the child. *)
Inductive ErrorBlock : Type :=
| NoBlock
| StrayText (text : string)
| Panel (text : string).

Definition errorBlock (wz : Wizard) : Completion RenderError ErrorBlock :=
  match error wz with
  | None => Return NoBlock
  | Some v =>
      match renderChild v with
      | Return text =>
          if truthy v then Return (Panel text)
          else if truthyString text then Return (StrayText text)
               else Return NoBlock
      | Throw e => Throw e
      end
  end.


End Wizard.

(** ** components/profile/ProfileSetupWizard.tsx: the [disabled] attributes
       of the first step *)

Module Step1Controls.
Import JS Profile Step1Form.

(** The [disabled] attribute of the control an event comes from; the
    primary sector, the sub-sectors and the remove buttons have none. *)
Definition disabled (f : Form) (e : Event) : bool :=
  let activeSectors := default [] (active_sectors (data f)) in
  let kws := default [] (keywords (data f)) in
  let preferredRegions := default [] (preferred_regions (data f)) in
  match e with
  | ToggleActiveSector sector =>
      (MAX (ACTIVE_SECTORS VALIDATION) <=? length activeSectors)%nat
      && negb (includes activeSectors sector)
  | ToggleRegion region =>
      (MAX (REGIONS VALIDATION) <=? length preferredRegions)%nat
      && negb (includes preferredRegions region)
  | ClickSuggestedKeyword keyword =>
      includes kws keyword || (MAX (KEYWORDS VALIDATION) <=? length kws)%nat
  | TypeKeyword _ | AddKeyword =>
      (MAX (KEYWORDS VALIDATION) <=? length kws)%nat
  | SelectPrimarySector _ | EnterSubSector _ | ToggleSubSector _
  | RemoveKeyword _ => false
  end.

End Step1Controls.

(** ** components/profile/CompanyProfileSettings.tsx: the two toggles *)

Module CompanyProfileSettings.
Import JS Profile.

(** [CompanyProfileUpdate]: every key may be missing. *)
Record CompanyProfileUpdate : Type := {
  primary_sector : option string;
  active_sectors : option (list string);
  sub_sectors : option (list string);
  preferred_regions : option (list string);
  keywords : option (list string);
  company_size : option string;
  years_in_operation : option string;
  certifications : option (list string);
  budget_min : option Q;
  budget_max : option Q
}.

Definition handleToggleActiveSector (sector : string)
  (formData : CompanyProfileUpdate) : CompanyProfileUpdate :=
  let current := default [] (active_sectors formData) in
  let updated :=
    if includes current sector
    then List.filter (fun s => negb (String.eqb s sector)) current
    else if (length current <? MAX (ACTIVE_SECTORS VALIDATION))%nat
         then current ++ [sector]
         else current in
  {| primary_sector := primary_sector formData;
     active_sectors := Some updated;
     sub_sectors := sub_sectors formData;
     preferred_regions := preferred_regions formData;
     keywords := keywords formData;
     company_size := company_size formData;
     years_in_operation := years_in_operation formData;
     certifications := certifications formData;
     budget_min := budget_min formData;
     budget_max := budget_max formData |}.

Definition handleToggleRegion (region : string)
  (formData : CompanyProfileUpdate) : CompanyProfileUpdate :=
  let current := default [] (preferred_regions formData) in
  let updated :=
    if includes current region
    then List.filter (fun r => negb (String.eqb r region)) current
    else if (length current <? MAX (REGIONS VALIDATION))%nat
         then current ++ [region]
         else current in
  {| primary_sector := primary_sector formData;
     active_sectors := active_sectors formData;
     sub_sectors := sub_sectors formData;
     preferred_regions := Some updated;
     keywords := keywords formData;
     company_size := company_size formData;
     years_in_operation := years_in_operation formData;
     certifications := certifications formData;
     budget_min := budget_min formData;
     budget_max := budget_max formData |}.

(** [o?.length || 0] and [!o?.includes(x)]. *)
Definition lengthOrZero (o : option (list string)) : nat :=
  match o with
  | Some l => length l
  | None => 0
  end.

Definition notIncluded (o : option (list string)) (x : string) : bool :=
  match o with
  | Some l => negb (includes l x)
  | None => true
  end.

(** The [disabled] attributes of the two groups of checkboxes. *)
Definition activeSectorDisabled (formData : CompanyProfileUpdate)
  (sector : string) : bool :=
  (MAX (ACTIVE_SECTORS VALIDATION) <=? lengthOrZero (active_sectors formData))%nat
  && notIncluded (active_sectors formData) sector.

Definition regionDisabled (formData : CompanyProfileUpdate) (region : string)
  : bool :=
  (MAX (REGIONS VALIDATION) <=? lengthOrZero (preferred_regions formData))%nat
  && notIncluded (preferred_regions formData) region.

End CompanyProfileSettings.

(** ** Vocabulary of the properties of the code around the claims *)

Module Samples.

(** A browser with nobody signed in, and a user. *)
Definition signedOut : Auth.Browser :=
  {| Auth.hasWindow := true;
     Auth.localStorage := {["theme" := "dark"]};
     Auth.href := "/login" |}.

Definition someUser : AuthStore.User :=
  {| AuthStore.id := "u-1"; AuthStore.email := "a@b.et";
     AuthStore.full_name := "Abebe"; AuthStore.company_id := None;
     AuthStore.role := "user"; AuthStore.is_active := true;
     AuthStore.created_at := "2026-01-01T00:00:00Z" |}.

(** A server that fails every request for recommendations. *)
Definition noRecommendations : Http.Server Recommendation.RecommendationResponse :=
  fun _ => JS.Throw (Http.NonError "timeout").

(** A profile API that creates every draft and completes every profile. *)
Definition obligingApi : Wizard.Api :=
  {| Wizard.createProfileStep1 := fun _ => JS.Return {| Wizard.id := "p-1" |};
     Wizard.completeProfileStep2 := JS.Return {| Wizard.id := "p-1" |} |}.

(** A profile API that answers every draft with the validation error of
    the API. *)
Definition validatingApi : Wizard.Api :=
  {| Wizard.createProfileStep1 := fun _ => JS.Throw Claims.validationError;
     Wizard.completeProfileStep2 := JS.Throw Claims.validationError |}.

(** A server error that names its cause in the detail of its response. *)
Definition conflictError : ErrorUtils.Value :=
  ErrorUtils.Object
    [ ("message", ErrorUtils.Str "Request failed with status code 409");
      ("response",
       ErrorUtils.Object
         [ ("data",
            ErrorUtils.Object
              [ ("detail", ErrorUtils.Str "Profile already exists") ]) ]) ].

End Samples.

(** * Properties *)

Import JS Recommendation Claims.

(** ** Score display *)

Lemma geThreshold_spec (score : Q) (k : ScoreKey) :
  geThreshold score k = true <-> Qle (inject_Z (MATCH_SCORE_THRESHOLDS k)) score.
Proof. unfold geThreshold. apply Qle_bool_iff. Qed.

Lemma geThreshold_false (score : Q) (k : ScoreKey) :
  geThreshold score k = false <-> Qlt score (inject_Z (MATCH_SCORE_THRESHOLDS k)).
Proof.
  rewrite <- not_true_iff_false, geThreshold_spec. split.
  - apply Qnot_le_lt.
  - apply Qlt_not_le.
Qed.

(** The four cases of [getScoreLabel], each with the interval of scores
    that reaches it. *)
Lemma getScoreLabel_cases (score : Q) :
  (Qle (inject_Z 80) score /\ getScoreLabel score = "Excellent Match") \/
  (Qle (inject_Z 60) score /\ Qlt score (inject_Z 80) /\
   getScoreLabel score = "Good Match") \/
  (Qle (inject_Z 40) score /\ Qlt score (inject_Z 60) /\
   getScoreLabel score = "Fair Match") \/
  (Qlt score (inject_Z 40) /\ getScoreLabel score = "Low Match").
Proof.
  unfold getScoreLabel.
  destruct (geThreshold score EXCELLENT) eqn:He.
  { left. apply geThreshold_spec in He. auto. }
  apply geThreshold_false in He.
  destruct (geThreshold score GOOD) eqn:Hg.
  { right; left. apply geThreshold_spec in Hg. auto. }
  apply geThreshold_false in Hg.
  destruct (geThreshold score FAIR) eqn:Hf.
  { right; right; left. apply geThreshold_spec in Hf. auto. }
  apply geThreshold_false in Hf. right; right; right. auto.
Qed.

Lemma labelRank_cases (score : Q) :
  (Qle (inject_Z 80) score /\ labelRank score = Some 3%nat) \/
  (Qle (inject_Z 60) score /\ Qlt score (inject_Z 80) /\
   labelRank score = Some 2%nat) \/
  (Qle (inject_Z 40) score /\ Qlt score (inject_Z 60) /\
   labelRank score = Some 1%nat) \/
  (Qlt score (inject_Z 40) /\ labelRank score = Some 0%nat).
Proof.
  unfold labelRank.
  destruct (getScoreLabel_cases score) as [[H ->]|[(H1 & H2 & ->)|[(H1 & H2 & ->)|[H ->]]]];
    [left|right; left|right; right; left|right; right; right]; auto.
Qed.

Lemma labelRank_monotone (s1 s2 : Q) :
  Qle s1 s2 ->
  exists r1 r2, labelRank s1 = Some r1 /\ labelRank s2 = Some r2 /\ (r1 <= r2)%nat.
Proof.
  intros Hle.
  destruct (labelRank_cases s1) as [[A ->]|[(A & B & ->)|[(A & B & ->)|[A ->]]]];
  destruct (labelRank_cases s2) as [[C ->]|[(C & D & ->)|[(C & D & ->)|[C ->]]]];
    eexists _, _; (split; [reflexivity|split; [reflexivity|]]);
    first [ apply Nat.leb_le; reflexivity
          | exfalso; unfold inject_Z in *; lra ].
Qed.

Lemma getScoreColor_agrees (score : Q) :
  exists k, labelKey (getScoreLabel score) = Some k /\
            getScoreColor score = MATCH_SCORE_COLORS k.
Proof.
  unfold getScoreLabel, getScoreColor.
  destruct (geThreshold score EXCELLENT); [exists EXCELLENT; split; reflexivity|].
  destruct (geThreshold score GOOD); [exists GOOD; split; reflexivity|].
  destruct (geThreshold score FAIR); [exists FAIR; split; reflexivity|].
  exists POOR; split; reflexivity.
Qed.

Lemma append_nil_r (s : string) : s +:+ "" = s.
Proof.
  induction s as [|c s IH]; [reflexivity|].
  change (String c (s +:+ "") = String c s). now rewrite IH.
Qed.

Lemma getScoreBadgeClass_contains_color (score : Q) :
  isSubstringOf (getScoreColor score) (getScoreBadgeClass score).
Proof.
  unfold isSubstringOf, getScoreBadgeClass.
  exists "inline-flex items-center px-2.5 py-0.5 rounded-full text-xs font-medium border ", "".
  cbv zeta. rewrite append_nil_r. reflexivity.
Qed.

(** C10. The score helpers are total and monotone: [getScoreLabel] returns
    one of the four labels, with the boundaries at 80, 60 and 40 going to
    the higher category; a lower score never gets a higher category;
    [getScoreColor] gives the colour of the category of the label; and the
    badge class contains that colour. *)
Theorem score_helpers_total_monotone :
  (forall score : Q,
     (Qle (inject_Z 80) score /\ getScoreLabel score = "Excellent Match") \/
     (Qle (inject_Z 60) score /\ Qlt score (inject_Z 80) /\
      getScoreLabel score = "Good Match") \/
     (Qle (inject_Z 40) score /\ Qlt score (inject_Z 60) /\
      getScoreLabel score = "Fair Match") \/
     (Qlt score (inject_Z 40) /\ getScoreLabel score = "Low Match")) /\
  (forall s1 s2 : Q,
     Qle s1 s2 ->
     exists r1 r2,
       labelRank s1 = Some r1 /\ labelRank s2 = Some r2 /\ (r1 <= r2)%nat) /\
  (forall score : Q,
     exists k, labelKey (getScoreLabel score) = Some k /\
               getScoreColor score = MATCH_SCORE_COLORS k) /\
  (forall score : Q,
     isSubstringOf (getScoreColor score) (getScoreBadgeClass score)).
Proof.
  split; [exact getScoreLabel_cases|].
  split; [exact labelRank_monotone|].
  split; [exact getScoreColor_agrees|exact getScoreBadgeClass_contains_color].
Qed.

(** The boundary values go to the higher category. *)
Example score_boundaries :
  getScoreLabel (inject_Z 80) = "Excellent Match" /\
  getScoreLabel (inject_Z 60) = "Good Match" /\
  getScoreLabel (inject_Z 40) = "Fair Match" /\
  getScoreLabel (399 # 10) = "Low Match" /\
  getScoreLabel (799 # 10) = "Good Match".
Proof. repeat split; reflexivity. Qed.

(** ** Match reasons *)

Import MatchReasons.

Lemma typeName_in_spec (t : MatchReasonType) : In (typeName t) SPEC_TAGS.
Proof. destruct t; simpl; tauto. Qed.

Lemma typeName_renders (t : MatchReasonType) : rendersDefined (typeName t).
Proof. destruct t; split; eexists; reflexivity. Qed.

Lemma untyped_not_admitted (tag : string) :
  In tag UNTYPED_TAGS -> ~ admits tag.
Proof.
  intros Hin [t Ht]. subst tag.
  destruct t; simpl in Hin; intuition discriminate.
Qed.

Lemma untyped_lookups_undefined (tag : string) :
  In tag UNTYPED_TAGS ->
  objLookup tag REASON_TYPE_ICONS = None /\
  objLookup tag REASON_TYPE_LABELS = None.
Proof.
  simpl. intros [<-|[<-|[<-|[<-|[]]]]]; split; reflexivity.
Qed.

(** C5, as the code has it.  Each of the seven tags of the [MatchReason]
    type is one of the specification's eleven and both tables are defined on
    it, so a pill rendered for a reason of the type shows an icon and a
    label; the four remaining tags of the specification are not admitted by
    the type and both lookups are undefined on them. *)
Theorem typed_tags_render_defined :
  (forall t : MatchReasonType,
     In (typeName t) SPEC_TAGS /\ rendersDefined (typeName t)) /\
  (forall (r : MatchReason) (showWeights : bool),
     admits (type r) ->
     forall p, In p (CompactView [r] showWeights) ->
               is_Some (pill_icon p) /\ is_Some (pill_label p)) /\
  (forall tag,
     In tag SPEC_TAGS ->
     admits tag \/ In tag UNTYPED_TAGS) /\
  (forall tag,
     In tag UNTYPED_TAGS ->
     ~ admits tag /\
     objLookup tag REASON_TYPE_ICONS = None /\
     objLookup tag REASON_TYPE_LABELS = None).
Proof.
  split; [|split; [|split]].
  - intros t. split; [apply typeName_in_spec|apply typeName_renders].
  - intros r showWeights [t Ht] p [<-|[]]. simpl. rewrite <- Ht.
    apply typeName_renders.
  - unfold SPEC_TAGS, UNTYPED_TAGS. simpl.
    intros tag H.
    repeat (destruct H as [<-|H];
            [first [ left; first [ exists semantic_match; reflexivity
                                 | exists sector_match; reflexivity
                                 | exists subsector_match; reflexivity
                                 | exists keyword_match; reflexivity
                                 | exists region_match; reflexivity
                                 | exists budget_match; reflexivity
                                 | exists urgency; reflexivity ]
                   | right; tauto ] |]).
    destruct H.
  - intros tag Hin. split; [now apply untyped_not_admitted|].
    now apply untyped_lookups_undefined.
Qed.

(** C5 as stated fails: [certification_match] is one of the eleven tags of
    the specification, the type has no such member, both lookups of the
    rendering branch are undefined on it, and the compact view renders such
    a reason with neither icon nor label. *)
Lemma certification_match_renders_undefined :
  In "certification_match" SPEC_TAGS /\
  (forall t, typeName t <> "certification_match") /\
  objLookup "certification_match" REASON_TYPE_ICONS = None /\
  objLookup "certification_match" REASON_TYPE_LABELS = None /\
  CompactView [certificationReason] true =
    [ {| pill_icon := None; pill_label := None; pill_points := Some 5 |} ].
Proof.
  split; [simpl; tauto|].
  split; [intros t; destruct t; discriminate|].
  repeat split; reflexivity.
Qed.

(** The instance of the claim at a typed tag and at an untyped one. *)
Lemma typed_tags_render_defined_witness :
  rendersDefined "urgency" /\ ~ admits "popularity_boost".
Proof.
  destruct typed_tags_render_defined as (Htyped & _ & _ & Huntyped).
  split.
  - exact (proj2 (Htyped urgency)).
  - apply Huntyped. simpl. tauto.
Defined.

(** ** The first step of the wizard *)

Import Profile.

(** What [isStep1Valid] checks: the claimed bounds but for the upper bound
    on the regions. *)
Lemma isStep1Valid_iff (d : Step1Data) :
  isStep1Valid d = true <->
  (exists s, primary_sector d = Some s /\ s <> EmptyString) /\
  (exists a, active_sectors d = Some a /\ (1 <= length a <= 5)%nat) /\
  (exists r, preferred_regions d = Some r /\ (1 <= length r)%nat) /\
  (exists k, keywords d = Some k /\ (3 <= length k <= 10)%nat) /\
  (exists s, sub_sectors d = Some s).
Proof.
  unfold isStep1Valid. destruct d as [ps act sub reg kws].
  cbn [primary_sector active_sectors sub_sectors preferred_regions keywords].
  split.
  - intros H.
    apply andb_true_iff in H as [Hps H].
    destruct ps as [s|]; [|discriminate].
    destruct act as [a|]; [|discriminate].
    apply andb_true_iff in H as [H Hrest].
    apply andb_true_iff in H as [Ha1 Ha2].
    destruct sub as [sb|]; [|discriminate].
    destruct reg as [r|]; [|discriminate].
    apply andb_true_iff in Hrest as [Hr Hrest].
    destruct kws as [k|]; [|discriminate].
    apply andb_true_iff in Hrest as [Hk1 Hk2].
    apply Nat.leb_le in Ha1, Ha2, Hr, Hk1, Hk2. cbn in Ha1, Ha2, Hr, Hk1, Hk2.
    repeat split.
    + exists s. split; [reflexivity|]. intros ->. discriminate.
    + exists a. auto.
    + exists r. auto.
    + exists k. auto.
    + exists sb. reflexivity.
  - intros ((s & Hs & Hne) & (a & Ha & Ha1 & Ha2) & (r & Hr & Hr1)
            & (k & Hk & Hk1 & Hk2) & (sb & Hsb)).
    simplify_eq.
    apply andb_true_iff. split.
    { destruct s; [congruence|reflexivity]. }
    apply andb_true_iff. split.
    { apply andb_true_iff. split; apply Nat.leb_le; assumption. }
    apply andb_true_iff. split; [apply Nat.leb_le; assumption|].
    apply andb_true_iff. split; apply Nat.leb_le; assumption.
Qed.

(** Every draft within the Tier-1 bounds is accepted. *)
Lemma meetsTier1Bounds_accepted (d : Step1Data) :
  meetsTier1Bounds d -> isStep1Valid d = true.
Proof.
  intros (Hs & Ha & (r & Hr & Hr1 & _) & Hk & Hsb).
  apply isStep1Valid_iff. repeat split; eauto.
Qed.

(** The toggle of the form never selects more than [REGIONS.MAX] regions
    when it starts from at most that many. *)
Lemma handleToggleRegion_capped (regions : list string) (region : string) :
  (length regions <= MAX (REGIONS VALIDATION))%nat ->
  (length (handleToggleRegion regions region) <= MAX (REGIONS VALIDATION))%nat.
Proof.
  intros Hle. unfold handleToggleRegion.
  destruct (includes regions region).
  - etransitivity; [apply List.filter_length_le|exact Hle].
  - destruct (Nat.ltb_spec (length regions) (MAX (REGIONS VALIDATION))).
    + rewrite List.length_app. cbn in *. lia.
    + exact Hle.
Qed.

(** C2, the code at the failing input: a draft with six preferred regions
    does not meet the Tier-1 bounds (at most five regions), yet
    [isStep1Valid] accepts it: the check compares the number of regions
    with [REGIONS.MIN] only. *)
Theorem isStep1Valid_accepts_six_regions :
  isStep1Valid sixRegionsDraft = true /\ ~ meetsTier1Bounds sixRegionsDraft.
Proof.
  split; [reflexivity|].
  intros (_ & _ & (r & Hr & _ & Hmax) & _).
  simpl in Hr. injection Hr as <-. simpl in Hmax. lia.
Qed.

(** ** The deadline block of the recommendation card *)

Import RecommendationCard.

Lemma showsUrgencyMarker_iff (r : TenderRecommendation) :
  showsUrgencyMarker r = true <->
  truthyOptString (deadline (tender r)) = true /\
  0 <= days_until_deadline r <= 7.
Proof.
  unfold showsUrgencyMarker, deadlineBlock.
  destruct (truthyOptString (deadline (tender r))); simpl.
  - rewrite andb_true_iff, negb_true_iff, Z.leb_le, Z.ltb_ge. intuition lia.
  - intuition discriminate.
Qed.

(** C6, as the code has it.  On the card of a recommendation with a
    deadline the urgency marker is shown exactly when days_until_deadline
    is in the interval [0,7]: a tender due today carries it, a tender whose
    deadline has passed or is more than seven days away does not. *)
Theorem urgency_marker_iff_within_week (r : TenderRecommendation) :
  truthyOptString (deadline (tender r)) = true ->
  (showsUrgencyMarker r = true <-> 0 <= days_until_deadline r <= 7).
Proof.
  intros Hd. rewrite showsUrgencyMarker_iff. intuition.
Qed.

Lemma urgency_marker_iff_within_week_witness :
  truthyOptString (deadline (tender (closingIn 3))) = true /\
  (showsUrgencyMarker (closingIn 3) = true <->
   0 <= days_until_deadline (closingIn 3) <= 7).
Proof.
  split; [reflexivity|].
  apply (urgency_marker_iff_within_week (closingIn 3)). reflexivity.
Defined.

(** C6 as stated fails: a recommendation due today has days_until_deadline
    0, outside the interval [1,7], and its card carries the urgency marker
    next to "Due today". *)
Lemma urgency_marker_shown_when_due_today :
  days_until_deadline (closingIn 0) = 0 /\
  showsUrgencyMarker (closingIn 0) = true /\
  deadlineBlock (closingIn 0) =
    Some {| className := "text-orange-600 font-medium";
            text := "Due today";
            urgencyMarker := true |}.
Proof. repeat split; reflexivity. Qed.

(** The compact card has no expiry test: the marker stays on a tender whose
    deadline has passed. *)
Lemma compact_marker_iff (r : TenderRecommendation) :
  compactShowsUrgencyMarker r = true <->
  truthyOptString (deadline (tender r)) = true /\ days_until_deadline r <= 7.
Proof.
  unfold compactShowsUrgencyMarker. cbv zeta.
  rewrite andb_true_iff, Z.leb_le. reflexivity.
Qed.

Example deadline_texts :
  text <$> deadlineBlock (closingIn (-1)) = Some "Expired" /\
  text <$> deadlineBlock (closingIn 1) = Some "Due tomorrow" /\
  text <$> deadlineBlock (closingIn 12) = Some "12 days left" /\
  showsUrgencyMarker (closingIn (-1)) = false /\
  showsUrgencyMarker (closingIn 8) = false.
Proof. repeat split; vm_compute; reflexivity. Qed.

(** ** The recommendations client *)

Import Http RecommendationsApi.

Lemma getAll_app (name : string) (a b : URLSearchParams) :
  getAll name (a ++ b) = getAll name a ++ getAll name b.
Proof. unfold getAll. now rewrite List.filter_app, List.map_app. Qed.

Lemma appendEach_app (name : string) (values : list string)
  (params : URLSearchParams) :
  appendEach name values params = params ++ map (pair name) values.
Proof.
  unfold appendEach. revert params.
  induction values as [|v values IH]; intros params; simpl.
  - now rewrite List.app_nil_r.
  - rewrite IH. unfold append. now rewrite <- List.app_assoc.
Qed.

Lemma getAll_repeated (name key : string) (values : list string) :
  getAll name (map (pair key) values) =
  if String.eqb key name then values else [].
Proof.
  unfold getAll.
  induction values as [|v values IH]; simpl.
  - now destruct (String.eqb key name).
  - destruct (String.eqb key name) eqn:E; simpl; [now rewrite IH|exact IH].
Qed.

(** The parameters, as one list: limit, then min_score when it was
    supplied, then days_ahead, then the sectors, then the regions. *)
Lemma buildParams_shape (filters : RecommendationFilters) :
  buildParams filters =
  [("limit", toString (limitOf filters))]
  ++ match min_score filters with
     | Some m => [("min_score", toString m)]
     | None => []
     end
  ++ [("days_ahead", toString (daysAheadOf filters))]
  ++ map (pair "sectors") (default [] (sectors filters))
  ++ map (pair "regions") (default [] (regions filters)).
Proof.
  unfold buildParams.
  assert (Hcond : forall name (vs : list string) (ps : URLSearchParams),
             (if (0 <? length vs)%nat then appendEach name vs ps else ps)
             = ps ++ map (pair name) vs).
  { intros name vs ps. destruct vs as [|v vs]; simpl.
    - now rewrite List.app_nil_r.
    - apply (appendEach_app name (v :: vs)). }
  destruct (sectors filters) as [ss|], (regions filters) as [rs|];
    destruct (min_score filters) as [m|]; cbn [default];
    rewrite ?Hcond; unfold append; simpl;
    rewrite ?List.app_nil_r, <- ?List.app_assoc; reflexivity.
Qed.

Lemma getAll_buildParams (filters : RecommendationFilters) :
  getAll "limit" (buildParams filters) = [toString (limitOf filters)] /\
  getAll "min_score" (buildParams filters) =
    match min_score filters with Some m => [toString m] | None => [] end /\
  getAll "days_ahead" (buildParams filters) = [toString (daysAheadOf filters)] /\
  getAll "sectors" (buildParams filters) = default [] (sectors filters) /\
  getAll "regions" (buildParams filters) = default [] (regions filters).
Proof.
  rewrite buildParams_shape.
  repeat split; rewrite !getAll_app, !getAll_repeated;
    destruct (min_score filters); cbn; rewrite ?List.app_nil_r; reflexivity.
Qed.

(** C1, as the code has it.  Every call of getRecommendations issues one
    GET to /recommendations whose query carries: limit, equal to 20 when
    filters.limit is absent and to the caller's limit, unchanged, when it is
    supplied; days_ahead, equal to 7 when absent; min_score if and only if
    the caller supplied it; and every element of filters.sectors and of
    filters.regions as a repeated parameter, in order. *)
Theorem getRecommendations_query
  (serialize : URLSearchParams -> string) (env : Env)
  (server : Server RecommendationResponse) (filters : RecommendationFilters)
  (w : World) :
  let params := buildParams filters in
  let request := recommendationsRequest serialize env filters in
  snd (getRecommendations serialize env server filters w) = issue request w /\
  fst (getRecommendations serialize env server filters w) =
    bind (server request) (fun response => Return (data response)) /\
  getAll "limit" params =
    [toString (match limit filters with Some n => n | None => 20 end)] /\
  getAll "days_ahead" params =
    [toString (match days_ahead filters with Some d => d | None => 7 end)] /\
  (getAll "min_score" params = [] <-> min_score filters = None) /\
  getAll "min_score" params =
    match min_score filters with Some m => [toString m] | None => [] end /\
  getAll "sectors" params = default [] (sectors filters) /\
  getAll "regions" params = default [] (regions filters).
Proof.
  cbv zeta.
  destruct (getAll_buildParams filters) as (Hl & Hm & Hd & Hs & Hr).
  split; [|split].
  - unfold getRecommendations, mbind, Async_bind, andThen, axios_get.
    cbn. destruct (server _); reflexivity.
  - unfold getRecommendations, mbind, Async_bind, andThen, axios_get.
    cbn. unfold recommendationsRequest. destruct (server _); reflexivity.
  - repeat split; try assumption.
    + intros H. rewrite Hm in H.
      destruct (min_score filters); [discriminate|reflexivity].
    + intros Hn. rewrite Hm, Hn. reflexivity.
Qed.

(** Without filters the query is limit=20, days_ahead=7. *)
Example getRecommendations_defaults :
  buildParams noFilters = [("limit", "20"); ("days_ahead", "7")].
Proof. vm_compute. reflexivity. Qed.

(** C1 as stated fails: the client does not cap the limit.  With
    filters.limit = 500 the query parameter is limit=500, above 100. *)
Lemma limit_above_hundred_forwarded :
  limit fiveHundred = Some 500 /\
  getAll "limit" (buildParams fiveHundred) = [toString 500] /\
  toString 500 = "500" /\
  100 < limitOf fiveHundred.
Proof. repeat split; vm_compute; reflexivity. Qed.

(** C7. [submitFeedback tenderId feedback] issues exactly one request, a
    POST to /recommendations/feedback/{tender_id} whose body is the
    feedback (its interaction_type, and feedback_reason and
    time_spent_seconds as supplied), and it returns the data of the
    response unchanged (a rejection is passed on). *)
Theorem submitFeedback_posts_once
  (env : Env) (server : Server FeedbackResponse) (tenderId : string)
  (feedback : FeedbackRequest) (w : World) :
  exists request,
    requests (snd (submitFeedback env server tenderId feedback w))
      = requests w ++ [request] /\
    method request = POST /\
    url request = API_URL env +:+ "/recommendations/feedback/" +:+ tenderId /\
    (exists b, body request = FeedbackBody b /\
               interaction_type b = interaction_type feedback /\
               feedback_reason b = feedback_reason feedback /\
               time_spent_seconds b = time_spent_seconds feedback) /\
    (forall response, server request = Return response ->
       fst (submitFeedback env server tenderId feedback w)
         = Return (data response)) /\
    (forall e, server request = Throw e ->
       fst (submitFeedback env server tenderId feedback w) = Throw e).
Proof.
  exists (feedbackRequest env tenderId feedback).
  unfold submitFeedback, mbind, Async_bind, andThen, axios_post, feedbackRequest.
  cbn.
  split; [destruct (server _); reflexivity|].
  split; [reflexivity|]. split; [reflexivity|].
  split; [exists feedback; auto|].
  split; intros x Hx; rewrite Hx; reflexivity.
Qed.

Lemma submitFeedback_settles
  (env : Env) (server : Server FeedbackResponse) (tenderId : string)
  (feedback : FeedbackRequest) (w : World) :
  submitFeedback env server tenderId feedback w =
  (bind (server (feedbackRequest env tenderId feedback))
        (fun response => Return (data response)),
   issue (feedbackRequest env tenderId feedback) w).
Proof.
  unfold submitFeedback, mbind, Async_bind, andThen, axios_post, feedbackRequest.
  cbn. destruct (server _); reflexivity.
Qed.

(** ** Optimistic save and dismiss *)

Import UseRecommendations.

(** What the hook's [submitFeedback] does when the request is rejected: it
    throws the surfaced error and records it. *)
Lemma hook_submitFeedback_rejected
  (env : Env) (server : Server FeedbackResponse) (tenderId : string)
  (type : InteractionType) (reason : option string) (spent : option Z)
  (fb : FeedbackState) (w : World) (e : Thrown) :
  server (feedbackRequest env tenderId
            {| interaction_type := type; feedback_reason := reason;
               time_spent_seconds := spent |}) = Throw e ->
  UseRecommendations.submitFeedback env server tenderId type reason spent fb w =
  (Throw (surfaced e),
   {| loading := false; error := Some (surfaced e) |},
   issue (feedbackRequest env tenderId
            {| interaction_type := type; feedback_reason := reason;
               time_spent_seconds := spent |}) w).
Proof.
  intros Hrej. unfold UseRecommendations.submitFeedback.
  rewrite submitFeedback_settles, Hrej. reflexivity.
Qed.

Lemma setDelete_setAdd (tenderId : string) (s : gset string) :
  setDelete tenderId (setAdd tenderId s) = s ∖ {[tenderId]}.
Proof. unfold setDelete, setAdd. set_solver. Qed.

Lemma setDelete_setAdd_fresh (tenderId : string) (s : gset string) :
  tenderId ∉ s -> setDelete tenderId (setAdd tenderId s) = s.
Proof. unfold setDelete, setAdd. set_solver. Qed.

(** C8, as the code has it.  When the feedback request is rejected,
    saveTender (respectively dismissTender) throws the error surfaced by
    the feedback hook, and the savedTenders set (respectively the
    dismissedTenders set) ends as its value before the call without the
    tender id: it equals the value before the call whenever the id was not
    in the set already.  The other set is untouched. *)
Theorem optimistic_update_rolled_back
  (env : Env) (server : Server FeedbackResponse) (tenderId : string)
  (reason : option string) (st : ActionsState) (w : World) (e : Thrown) :
  (server (feedbackRequest env tenderId saveFeedback) = Throw e ->
   let '(c, st', _) := saveTender env server tenderId st w in
   c = Throw (surfaced e) /\
   savedTenders st' = savedTenders st ∖ {[tenderId]} /\
   (tenderId ∉ savedTenders st -> savedTenders st' = savedTenders st) /\
   dismissedTenders st' = dismissedTenders st) /\
  (server (feedbackRequest env tenderId (dismissFeedback reason)) = Throw e ->
   let '(c, st', _) := dismissTender env server tenderId reason st w in
   c = Throw (surfaced e) /\
   dismissedTenders st' = dismissedTenders st ∖ {[tenderId]} /\
   (tenderId ∉ dismissedTenders st ->
    dismissedTenders st' = dismissedTenders st) /\
   savedTenders st' = savedTenders st).
Proof.
  split; intros Hrej.
  - unfold saveTender.
    rewrite (hook_submitFeedback_rejected env server tenderId save None None
               _ w e Hrej).
    cbn. split; [reflexivity|]. split; [apply setDelete_setAdd|].
    split; [apply setDelete_setAdd_fresh|reflexivity].
  - unfold dismissTender.
    rewrite (hook_submitFeedback_rejected env server tenderId dismiss reason
               None _ w e Hrej).
    cbn. split; [reflexivity|]. split; [apply setDelete_setAdd|].
    split; [apply setDelete_setAdd_fresh|reflexivity].
Qed.

(** The rollback at a concrete failure: saving t-2 next to a saved t-1
    while the server is down. *)
Lemma optimistic_update_rolled_back_witness :
  let st := actionsState {["t-1"]} ∅ in
  let '(c, st', _) := saveTender browserEnv serverDown "t-2" st quietWorld in
  c = Throw networkError /\ savedTenders st' = savedTenders st.
Proof.
  cbv zeta.
  pose proof (proj1 (optimistic_update_rolled_back browserEnv serverDown "t-2"
                       None (actionsState {["t-1"]} ∅) quietWorld networkError)
                eq_refl) as H.
  destruct (saveTender browserEnv serverDown "t-2"
              (actionsState {["t-1"]} ∅) quietWorld) as [[c st'] w'].
  destruct H as (Hc & _ & Hfresh & _).
  split; [exact Hc|]. apply Hfresh. cbn. set_solver.
Defined.

(** C8 as stated fails: when the id is in the set before the call, the
    rollback removes it.  Dismissing the already dismissed t-1 while the
    server is down leaves the dismissed set empty, not equal to its value
    before the call. *)
Lemma rollback_drops_existing_id :
  let st := actionsState ∅ {["t-1"]} in
  let '(c, st', _) := dismissTender browserEnv serverDown "t-1" None st quietWorld in
  c = Throw networkError /\
  dismissedTenders st = {["t-1"]} /\
  dismissedTenders st' = ∅ /\
  dismissedTenders st' <> dismissedTenders st.
Proof.
  cbv zeta. unfold dismissTender.
  rewrite (hook_submitFeedback_rejected browserEnv serverDown "t-1" dismiss
             None None _ quietWorld networkError eq_refl).
  cbn. rewrite setDelete_setAdd.
  split; [reflexivity|]. split; [reflexivity|].
  split; set_solver.
Qed.

(** ** View tracking *)

Import UseInteractionTracking.

Section ViewTracking.
Variable server : FetchServer.


















End ViewTracking.




Example short_view_not_tracked :
  viewsSubmitted
    (unmount fetchCreated 5999 (mount (trackedView "t-1") 990 1000 emptyWorld))
  = [].
Proof. reflexivity. Qed.

(** ** Error messages *)

Import ErrorUtils.

Lemma get_object (v : Value) (key : string) :
  isNullish v = false -> get v key = Return (optGet v key).
Proof. intros H. unfold get. now rewrite H. Qed.

(** Only an object has a property that is not [undefined]. *)
Lemma optGet_defined (v : Value) (key : string) :
  optGet v key <> Undefined -> isNullish v = false.
Proof. destruct v; cbn; congruence. Qed.

Lemma responseData_object (error : Value) (field : string) :
  isNullish error = false ->
  responseData error field =
  Return (optGet (optGet (optGet error "response") "data") field).
Proof. intros H. unfold responseData. now rewrite (get_object _ _ H). Qed.

(** The plain reads succeed once the optional ones found something. *)
Lemma responseDataStrict_defined (error : Value) (field : string) :
  isNullish error = false ->
  optGet (optGet (optGet error "response") "data") field <> Undefined ->
  responseDataStrict error field =
  Return (optGet (optGet (optGet error "response") "data") field).
Proof.
  intros H Hdef. unfold responseDataStrict.
  assert (Hdata : isNullish (optGet (optGet error "response") "data") = false)
    by exact (optGet_defined _ _ Hdef).
  assert (Hresp : isNullish (optGet error "response") = false).
  { apply (optGet_defined _ "data"). intros E. rewrite E in Hdata. discriminate. }
  rewrite (get_object _ _ H). cbn [bind].
  rewrite (get_object _ _ Hresp). cbn [bind].
  now rewrite (get_object _ _ Hdata).
Qed.

Lemma truthy_defined (v : Value) : truthy v = true -> v <> Undefined.
Proof. intros H ->. discriminate. Qed.

(** The cases after the array test. *)
Lemma getErrorMessage_after_array (error : Value) :
  isNullish error = false ->
  (detailOf error = Array [] \/ isArray (detailOf error) = false) ->
  getErrorMessage error =
  match detailOf error with
  | Str s => Return (Str s)
  | _ =>
      if truthy (dataMessageOf error) then Return (dataMessageOf error)
      else if truthy (messageOf error) then Return (messageOf error)
      else Return (Str fallbackMessage)
  end.
Proof.
  intros H Hd. unfold getErrorMessage, detailOf, dataMessageOf, messageOf in *.
  rewrite !(responseData_object _ _ H). cbn [bind].
  set (detail := optGet (optGet (optGet error "response") "data") "detail") in *.
  set (message := optGet (optGet (optGet error "response") "data") "message").
  assert (Hrest :
    (if isString detail then responseDataStrict error "detail"
     else if truthy message then responseDataStrict error "message"
     else bind (get error "message") (fun m =>
          if truthy m then get error "message"
          else Return (Str fallbackMessage)))
    = match detail with
      | Str s => Return (Str s)
      | _ => if truthy message then Return message
             else if truthy (optGet error "message")
                  then Return (optGet error "message")
                  else Return (Str fallbackMessage)
      end).
  { assert (Hnostr : isString detail = false ->
       (if truthy message then responseDataStrict error "message"
        else bind (get error "message") (fun m =>
             if truthy m then get error "message"
             else Return (Str fallbackMessage)))
       = if truthy message then Return message
         else if truthy (optGet error "message")
              then Return (optGet error "message")
              else Return (Str fallbackMessage)).
    { intros _. destruct (truthy message) eqn:Hm.
      - apply responseDataStrict_defined; [exact H|].
        now apply truthy_defined.
      - rewrite (get_object _ _ H). cbn [bind].
        now destruct (truthy (optGet error "message")). }
    destruct detail eqn:Ed; cbn [isString]; try (apply Hnostr; reflexivity).
    subst detail. rewrite <- Ed.
    apply responseDataStrict_defined; [exact H|]. rewrite Ed. discriminate. }
  destruct Hd as [Hd|Hd].
  - rewrite Hd. cbn [isArray isString].
    rewrite responseDataStrict_defined; [|exact H|fold detail; rewrite Hd; discriminate].
    fold detail. rewrite Hd. cbn [bind arrayItems length Nat.ltb Nat.leb].
    rewrite Hd in Hrest. cbn [isString] in Hrest. exact Hrest.
  - rewrite Hd. exact Hrest.
Qed.

Lemma getErrorMessage_first_error (error e : Value) (rest : list Value) :
  isNullish error = false ->
  detailOf error = Array (e :: rest) ->
  getErrorMessage error = get e "msg".
Proof.
  intros H Hd. unfold getErrorMessage, detailOf in *.
  rewrite !(responseData_object _ _ H). cbn [bind].
  rewrite Hd. cbn [isArray].
  rewrite responseDataStrict_defined; [|exact H|rewrite Hd; discriminate].
  rewrite Hd. reflexivity.
Qed.

Lemma wellFormed_returns_string (error : Value) :
  wellFormed error = true -> exists s, getErrorMessage error = Return (Str s).
Proof.
  unfold wellFormed. intros Hwf.
  apply andb_true_iff in Hwf as [Hnn Hwf]. apply negb_true_iff in Hnn.
  fold (detailOf error) in Hwf. fold (dataMessageOf error) in Hwf.
  fold (messageOf error) in Hwf.
  assert (Hafter :
    (detailOf error = Array [] \/ isArray (detailOf error) = false) ->
    stringOrFalsy (dataMessageOf error) && stringOrFalsy (messageOf error) = true ->
    exists s, getErrorMessage error = Return (Str s)).
  { intros Hd Hs. rewrite (getErrorMessage_after_array _ Hnn Hd).
    apply andb_true_iff in Hs as [Hm He].
    destruct (detailOf error); try (now eexists);
      (destruct (truthy (dataMessageOf error)) eqn:Tm;
       [unfold stringOrFalsy in Hm; rewrite Tm, orb_false_r in Hm;
        destruct (dataMessageOf error); try discriminate; now eexists|]);
      (destruct (truthy (messageOf error)) eqn:Te;
       [unfold stringOrFalsy in He; rewrite Te, orb_false_r in He;
        destruct (messageOf error); try discriminate; now eexists|]);
      now eexists. }
  destruct (detailOf error) as [| | | | |items|] eqn:Ed;
    try (apply Hafter; [right; reflexivity|exact Hwf]).
  destruct items as [|e rest]; [apply Hafter; [left; reflexivity|exact Hwf]|].
  apply andb_true_iff in Hwf as [Hmsg He]. apply negb_true_iff in He.
  rewrite (getErrorMessage_first_error error e rest Hnn Ed).
  rewrite (get_object _ _ He).
  destruct (optGet e "msg"); try discriminate. now eexists.
Qed.

(** C9, as the code has it.  For every error other than null and
    undefined, getErrorMessage follows a fixed precedence: if
    error.response.data.detail is a non-empty array it returns the msg of
    its first element (reading it throws when that element is null or
    undefined); otherwise, an empty array falling through, if detail is a
    string it returns it; otherwise if error.response.data.message is
    truthy it returns it; otherwise if error.message is truthy it returns
    it; otherwise it returns the fallback.  The result is a string whenever
    the messages of the error are strings. *)
Theorem getErrorMessage_precedence (error : Value) :
  isNullish error = false ->
  (forall e rest, detailOf error = Array (e :: rest) ->
     getErrorMessage error = get e "msg") /\
  ((detailOf error = Array [] \/ isArray (detailOf error) = false) ->
     (forall s, detailOf error = Str s ->
        getErrorMessage error = Return (Str s)) /\
     (isString (detailOf error) = false ->
        (truthy (dataMessageOf error) = true ->
           getErrorMessage error = Return (dataMessageOf error)) /\
        (truthy (dataMessageOf error) = false ->
           (truthy (messageOf error) = true ->
              getErrorMessage error = Return (messageOf error)) /\
           (truthy (messageOf error) = false ->
              getErrorMessage error = Return (Str fallbackMessage))))) /\
  (wellFormed error = true ->
     exists s, getErrorMessage error = Return (Str s)).
Proof.
  intros H. split; [|split].
  - intros e rest Hd. exact (getErrorMessage_first_error error e rest H Hd).
  - intros Hd. rewrite (getErrorMessage_after_array _ H Hd). split.
    + intros s ->. reflexivity.
    + intros Hns. destruct (detailOf error); try discriminate;
        (split; [intros ->; reflexivity|intros ->; split; intros ->; reflexivity]).
  - apply wellFormed_returns_string.
Qed.

(** A validation error of the API gives the msg of its first error. *)
Lemma getErrorMessage_precedence_witness :
  isNullish validationError = false /\
  getErrorMessage validationError = Return (Str "Field required").
Proof.
  split; [reflexivity|].
  destruct (getErrorMessage_precedence validationError eq_refl) as (Hfirst & _).
  rewrite (Hfirst _ _ eq_refl). reflexivity.
Defined.

(** C9 as stated fails: the function is not total, and its result need not
    be a string.  On null it throws reading [response]; on an error whose
    detail is an array of strings it returns [undefined]. *)
Lemma getErrorMessage_not_total :
  getErrorMessage Null = Throw (CannotReadProperties "response") /\
  getErrorMessage Undefined = Throw (CannotReadProperties "response") /\
  getErrorMessage stringListError = Return Undefined.
Proof. repeat split; reflexivity. Qed.

(** An empty detail array falls through to the later cases. *)
Example getErrorMessage_empty_detail :
  getErrorMessage emptyDetailError =
  Return (Str "Request failed with status code 400").
Proof. reflexivity. Qed.

(** ** The order of a response *)

Import Matcher.

(** The tie-breaking order, spelled out. *)
Lemma rankedBefore_spec (a b : Item) :
  rankedBefore a b = true <->
  match_score b < match_score a \/
  (match_score a = match_score b /\
   (Qlt (semantic_similarity b) (semantic_similarity a) \/
    (Qeq (semantic_similarity a) (semantic_similarity b) /\
     String.le (tender_id a) (tender_id b)))).
Proof.
  unfold rankedBefore, String.le.
  destruct (Z.compare_spec (match_score b) (match_score a)) as [Hs|Hs|Hs].
  - destruct (Qcompare (semantic_similarity b) (semantic_similarity a)) eqn:Hq.
    + apply Qeq_alt in Hq. split.
      * intros Hid. right. split; [auto|]. right. split; [lra|].
        now apply Is_true_true.
      * intros [?|[_ [Hlt|[_ Hid]]]]; [lia|exfalso; lra|].
        now apply Is_true_true.
    + apply Qlt_alt in Hq. split; [|reflexivity].
      intros _. right. split; [auto|]. now left.
    + apply Qgt_alt in Hq. split; [discriminate|].
      intros [?|[_ [Hlt|[Heq _]]]]; [lia| |]; exfalso; lra.
  - split; [now left|reflexivity].
  - split; [discriminate|]. intros [?|[? _]]; lia.
Qed.

Lemma rankedBefore_total (a b : Item) :
  rankedBefore a b = false -> rankedBefore b a = true.
Proof.
  intros Hab. apply rankedBefore_spec.
  apply not_true_iff_false in Hab. rewrite rankedBefore_spec in Hab.
  destruct (Z.lt_total (match_score a) (match_score b)) as [Hs|[Hs|Hs]];
    [now left| |exfalso; apply Hab; now left].
  right. split; [auto|].
  destruct (Q_dec (semantic_similarity a) (semantic_similarity b))
    as [[Hq|Hq]|Hq].
  - now left.
  - exfalso. apply Hab. right. split; [exact Hs|]. now left.
  - right. split; [lra|].
    destruct (total String.le (tender_id a) (tender_id b)) as [Hid|Hid];
      [|exact Hid].
    exfalso. apply Hab. right. split; [exact Hs|]. right. now split.
Qed.

Lemma rankedBefore_trans (a b c : Item) :
  rankedBefore a b = true -> rankedBefore b c = true -> rankedBefore a c = true.
Proof.
  rewrite !rankedBefore_spec.
  intros [Hab|[Hab Hab']] [Hbc|[Hbc Hbc']]; try (left; lia).
  right. split; [lia|].
  destruct Hab' as [Hab'|[Hab' Hida]], Hbc' as [Hbc'|[Hbc' Hidb]];
    try (left; lra).
  right. split; [lra|]. now transitivity (tender_id b).
Qed.

Lemma rankedBefore_inResponseOrder (a b : Item) :
  rankedBefore a b = true -> inResponseOrder a b.
Proof.
  rewrite rankedBefore_spec. unfold inResponseOrder.
  intros [Hs|[Hs [Hq|[Hq Hid]]]].
  - split; [lia|]. split; intros; lia.
  - split; [lia|]. split; [intros _; lra|].
    intros _ Heq. exfalso. lra.
  - split; [lia|]. split; [intros _; lra|].
    intros _ _. exact Hid.
Qed.

Lemma insertRanked_perm (x : Item) (l : list Item) :
  Permutation (insertRanked x l) (x :: l).
Proof.
  induction l as [|y l IH]; cbn [insertRanked]; [reflexivity|].
  destruct (rankedBefore x y); [reflexivity|].
  rewrite IH. apply perm_swap.
Qed.

Lemma sortRanked_perm (l : list Item) : Permutation (sortRanked l) l.
Proof.
  induction l as [|x l IH]; cbn [sortRanked]; [reflexivity|].
  rewrite insertRanked_perm. now constructor.
Qed.

Lemma insertRanked_sorted (x : Item) (l : list Item) :
  StronglySorted rankedBeforeP l -> StronglySorted rankedBeforeP (insertRanked x l).
Proof.
  induction 1 as [|y l Hsorted IH Hall]; cbn [insertRanked].
  - repeat constructor.
  - destruct (rankedBefore x y) eqn:Hxy.
    + constructor; [now constructor|].
      constructor; [exact Hxy|].
      eapply List.Forall_impl; [|exact Hall].
      intros z Hyz. exact (rankedBefore_trans x y z Hxy Hyz).
    + constructor; [exact IH|].
      apply (Permutation_Forall (Permutation_sym (insertRanked_perm x l))).
      constructor; [now apply rankedBefore_total|exact Hall].
Qed.

Lemma sortRanked_sorted (l : list Item) :
  StronglySorted rankedBeforeP (sortRanked l).
Proof.
  induction l as [|x l IH]; cbn [sortRanked]; [constructor|].
  now apply insertRanked_sorted.
Qed.

Lemma firstn_sorted {A} (R : A -> A -> Prop) (n : nat) (l : list A) :
  StronglySorted R l -> StronglySorted R (firstn n l).
Proof.
  intros H. revert n.
  induction H as [|x l Hsorted IH Hall]; intros [|n]; cbn [firstn];
    try constructor.
  - apply IH.
  - rewrite List.Forall_forall in *. intros y Hy.
    apply Hall. rewrite <- (List.firstn_skipn n l).
    apply in_or_app. now left.
Qed.

Lemma StronglySorted_weaken {A} (R S : A -> A -> Prop) (l : list A) :
  (forall a b, R a b -> S a b) -> StronglySorted R l -> StronglySorted S l.
Proof.
  intros Himp. induction 1 as [|x l Hsorted IH Hall]; constructor; [exact IH|].
  eapply List.Forall_impl; [|exact Hall]. intros y. apply Himp.
Qed.

(** C3. The items of a recommendation response are non-increasing in
    match_score; any two items with equal match_score are in descending
    order of semantic_similarity; any two with equal match_score and equal
    semantic_similarity are in ascending order of tender_id.  The response
    holds the first [limit] of the ranked items. *)
Theorem response_items_ordered (limit : nat) (items : list Item) :
  StronglySorted inResponseOrder (rankAndPaginate limit items) /\
  (exists rest, Permutation (rankAndPaginate limit items ++ rest) items) /\
  length (rankAndPaginate limit items) = Nat.min limit (length items).
Proof.
  unfold rankAndPaginate. split; [|split].
  - apply firstn_sorted.
    apply (StronglySorted_weaken rankedBeforeP); [|apply sortRanked_sorted].
    exact rankedBefore_inResponseOrder.
  - exists (skipn limit (sortRanked items)).
    rewrite List.firstn_skipn. apply sortRanked_perm.
  - rewrite List.length_firstn.
    now rewrite (Permutation_length (sortRanked_perm items)).
Qed.

(** Ties on the score go to the higher similarity, ties on both to the
    smaller id. *)
Example ranking_of_three_rows :
  map tender_id (rankAndPaginate 3 threeRows) = ["t-c"; "t-d"; "t-a"].
Proof. vm_compute. reflexivity. Qed.

(** * Properties of the code around the claims *)

(** ** The form of the first step *)

Import Step1Form.

Lemma includes_In (l : list string) (x : string) :
  includes l x = true <-> In x l.
Proof.
  unfold includes. rewrite existsb_exists. split.
  - intros (y & Hy & Heq). apply String.eqb_eq in Heq. now subst.
  - intros Hin. exists x. split; [exact Hin|apply String.eqb_refl].
Qed.

Lemma includes_false (l : list string) (x : string) :
  includes l x = false <-> ~ In x l.
Proof. rewrite <- includes_In. symmetry. apply not_true_iff_false. Qed.

Lemma NoDup_snoc_fresh (l : list string) (x : string) :
  NoDup l -> ~ In x l -> NoDup (l ++ [x]).
Proof.
  intros Hl Hx. apply NoDup_app. split; [exact Hl|]. split.
  - intros y Hy Hyx. apply list_elem_of_singleton in Hyx. subst y.
    apply Hx. now apply list_elem_of_In.
  - apply NoDup_singleton.
Qed.

Lemma NoDup_without (l : list string) (x : string) :
  NoDup l -> NoDup (List.filter (fun y => negb (String.eqb y x)) l).
Proof.
  intros Hl. apply NoDup_ListNoDup, List.NoDup_filter, NoDup_ListNoDup, Hl.
Qed.

(** A capped toggle, the shape of [handleToggleRegion] and
    [handleToggleActiveSector]. *)
Lemma capped_toggle_selection (cap : nat) (l : list string) (x : string) :
  NoDup l -> (length l <= cap)%nat ->
  let l' := if includes l x
            then List.filter (fun y => negb (String.eqb y x)) l
            else if (length l <? cap)%nat then l ++ [x] else l in
  NoDup l' /\ (length l' <= cap)%nat.
Proof.
  intros Hl Hlen. cbv zeta.
  destruct (includes l x) eqn:Hin.
  - split; [now apply NoDup_without|].
    etransitivity; [apply List.filter_length_le|exact Hlen].
  - destruct (Nat.ltb_spec (length l) cap) as [Hlt|Hge].
    + split; [apply NoDup_snoc_fresh; [exact Hl|now apply includes_false]|].
      rewrite List.length_app. cbn. lia.
    + split; assumption.
Qed.

Lemma selection_default (cap : option nat) (o : option (list string)) :
  selection cap o ->
  NoDup (default [] o) /\
  match cap with Some n => (length (default [] o) <= n)%nat | None => True end.
Proof. intros (l & -> & Hnd & Hlen). split; assumption. Qed.

Lemma handle_withinCaps (trim : string -> string) (f : Form) (e : Event) :
  withinCaps (data f) -> withinCaps (data (handle trim f e)).
Proof.
  intros (Ha & Hr & Hk & Hs).
  pose proof (selection_default _ _ Ha) as [Hand Halen].
  pose proof (selection_default _ _ Hr) as [Hrnd Hrlen].
  pose proof (selection_default _ _ Hk) as [Hknd Hklen].
  pose proof (selection_default _ _ Hs) as [Hsnd _].
  assert (Htoggle_sub : forall x,
            NoDup (handleToggleSubSector (default [] (sub_sectors (data f))) x)).
  { intros x. unfold handleToggleSubSector.
    destruct (includes _ x) eqn:Hin; [now apply NoDup_without|].
    apply NoDup_snoc_fresh; [exact Hsnd|now apply includes_false]. }
  destruct e; cbn [handle].
  - (* primary sector *) repeat split; assumption.
  - (* active sector *)
    destruct (capped_toggle_selection _ _ sector Hand Halen) as [Hnd Hlen].
    split; [|repeat split; assumption].
    eexists. split; [reflexivity|]. split; [exact Hnd|exact Hlen].
  - (* sub-sector typed *)
    destruct (truthyString (trim typed) && negb (includes _ (trim typed)));
      [|repeat split; assumption].
    split; [exact Ha|]. split; [exact Hr|]. split; [exact Hk|].
    eexists. split; [reflexivity|]. split; [apply Htoggle_sub|exact I].
  - (* sub-sector toggled *)
    split; [exact Ha|]. split; [exact Hr|]. split; [exact Hk|].
    eexists. split; [reflexivity|]. split; [apply Htoggle_sub|exact I].
  - (* region *)
    destruct (capped_toggle_selection _ _ region Hrnd Hrlen) as [Hnd Hlen].
    split; [exact Ha|]. split; [|split; assumption].
    eexists. split; [reflexivity|]. split; [exact Hnd|exact Hlen].
  - (* suggested keyword *)
    destruct (includes _ keyword) eqn:Hin; cbn [negb andb];
      [repeat split; assumption|].
    destruct (Nat.ltb_spec (length (default [] (keywords (data f))))
                (MAX (KEYWORDS VALIDATION))) as [Hlt|Hge];
      [|repeat split; assumption].
    split; [exact Ha|]. split; [exact Hr|]. split; [|exact Hs].
    eexists. split; [reflexivity|]. split.
    + apply NoDup_snoc_fresh; [exact Hknd|now apply includes_false].
    + rewrite List.length_app. cbn in *. lia.
  - (* typing *) repeat split; assumption.
  - (* add keyword *)
    unfold handleAddKeyword.
    destruct (truthyString (trim (keywordInput f))); cbn [andb];
      [|repeat split; assumption].
    destruct (includes _ (trim (keywordInput f))) eqn:Hin; cbn [negb];
      [repeat split; assumption|].
    destruct (Nat.leb_spec (MAX (KEYWORDS VALIDATION))
                (length (default [] (keywords (data f))))) as [Hge|Hlt];
      [repeat split; assumption|].
    split; [exact Ha|]. split; [exact Hr|]. split; [|exact Hs].
    eexists. split; [reflexivity|]. split.
    + apply NoDup_snoc_fresh; [exact Hknd|now apply includes_false].
    + rewrite List.length_app. cbn in *. lia.
  - (* remove keyword *)
    split; [exact Ha|]. split; [exact Hr|]. split; [|exact Hs].
    eexists. split; [reflexivity|]. split; [now apply NoDup_without|].
    unfold handleRemoveKeyword.
    etransitivity; [apply List.filter_length_le|exact Hklen].
Qed.

Lemma handleAll_withinCaps (trim : string -> string) (events : list Event)
  (f : Form) :
  withinCaps (data f) -> withinCaps (data (handleAll trim f events)).
Proof.
  revert f. induction events as [|e events IH]; intros f Hf; [exact Hf|].
  apply IH. now apply handle_withinCaps.
Qed.

Lemma noInitialData_withinCaps : withinCaps (data (initialForm noInitialData)).
Proof.
  repeat split; eexists; (split; [reflexivity|]);
    (split; [apply NoDup_nil_2|cbn; lia || exact I]).
Qed.

(** Within the caps the check of the first step is the Tier-1 check. *)
Lemma withinCaps_valid_iff (d : Step1Data) :
  withinCaps d -> (isStep1Valid d = true <-> meetsTier1Bounds d).
Proof.
  intros (_ & (r & Hr & _ & Hrlen) & _). split.
  - intros Hv. apply isStep1Valid_iff in Hv
      as (Hs & Ha & (r' & Hr' & Hr1) & Hk & Hsub).
    rewrite Hr in Hr'. injection Hr' as <-.
    repeat split; try assumption. exists r. cbn in Hrlen. auto.
  - apply meetsTier1Bounds_accepted.
Qed.

(** X1.  The handlers of the first step keep every selection within its
    cap and free of repetition: from a draft that is so (the empty form in
    particular), after any sequence of form events there are at most 5
    active sectors, at most 5 regions and at most 10 keywords, and no
    sector, sub-sector, region or keyword is held twice. *)
Theorem form_events_keep_caps (trim : string -> string)
  (initialData : Step1Data) (events : list Event) :
  withinCaps (initialStep1Data initialData) ->
  withinCaps (data (handleAll trim (initialForm initialData) events)).
Proof. intros H. now apply handleAll_withinCaps. Qed.

Lemma form_events_keep_caps_witness :
  withinCaps
    (data (handleAll (fun s => s) (initialForm noInitialData)
             [ToggleRegion "Oromia"; ToggleRegion "Afar"; ToggleRegion "Oromia";
              TypeKeyword "cloud"; AddKeyword; AddKeyword])).
Proof.
  apply (form_events_keep_caps (fun s => s) noInitialData).
  exact noInitialData_withinCaps.
Defined.

(** X2.  On every draft the form can reach from the empty wizard,
    [isStep1Valid] accepts exactly the drafts within the Tier-1 bounds:
    the missing upper bound on the regions is made up for by the toggle. *)
Theorem reachable_valid_iff_tier1 (trim : string -> string)
  (events : list Event) :
  let d := data (handleAll trim (initialForm noInitialData) events) in
  isStep1Valid d = true <-> meetsTier1Bounds d.
Proof.
  cbv zeta. apply withinCaps_valid_iff, handleAll_withinCaps.
  exact noInitialData_withinCaps.
Qed.

(** A selected region is deselected by its toggle; an unselected one is
    added at the end while there is room. *)
Lemma handleToggleRegion_selected (regions : list string) (region : string) :
  In region regions -> ~ In region (handleToggleRegion regions region).
Proof.
  intros Hin. unfold handleToggleRegion.
  rewrite (proj2 (includes_In _ _) Hin).
  rewrite List.filter_In, negb_true_iff, String.eqb_neq. tauto.
Qed.

Lemma filter_out_fresh (l : list string) (x : string) :
  ~ In x l -> List.filter (fun y => negb (String.eqb y x)) l = l.
Proof.
  induction l as [|y l IH]; intros Hx; [reflexivity|]. cbn.
  destruct (String.eqb_spec y x) as [->|Hne]; cbn.
  - exfalso. apply Hx. now left.
  - f_equal. apply IH. intros Hin. apply Hx. now right.
Qed.

(** X3.  Toggling a region that is not selected and toggling it again
    gives the selection back, whether or not there was room for it. *)
Theorem toggle_region_twice (regions : list string) (region : string) :
  ~ In region regions ->
  handleToggleRegion (handleToggleRegion regions region) region = regions.
Proof.
  intros Hfresh. unfold handleToggleRegion at 2.
  rewrite (proj2 (includes_false _ _) Hfresh).
  destruct (Nat.ltb_spec (length regions) (MAX (REGIONS VALIDATION))) as [Hlt|Hge].
  - unfold handleToggleRegion.
    assert (Hin : includes (regions ++ [region]) region = true).
    { apply includes_In, in_or_app. right. now left. }
    rewrite Hin, List.filter_app, (filter_out_fresh _ _ Hfresh). cbn.
    rewrite String.eqb_refl. cbn. apply List.app_nil_r.
  - unfold handleToggleRegion.
    rewrite (proj2 (includes_false _ _) Hfresh).
    destruct (Nat.ltb_spec (length regions) (MAX (REGIONS VALIDATION)));
      [lia|reflexivity].
Qed.

Lemma toggle_region_twice_witness :
  handleToggleRegion (handleToggleRegion ["Oromia"; "Afar"] "Amhara") "Amhara"
  = ["Oromia"; "Afar"].
Proof.
  apply toggle_region_twice. cbn. intros [H|[H|[]]]; discriminate H.
Defined.

(** ** The views of the match reasons *)

Import MatchReasonsViews.





(** A negative [maxVisible] is sliced from the end, and the note counts
    more reasons than there are. *)
Example negative_maxVisible :
  length (visibleReasons
            [certificationReason; certificationReason; certificationReason]
            (Some (-1))) = 2%nat /\
  hiddenCount [certificationReason; certificationReason; certificationReason]
              (Some (-1)) = 4.
Proof. split; reflexivity. Qed.

(** *** Grouping *)

Lemma grouped_snoc (l : list MatchReason) (r : MatchReason) :
  grouped (l ++ [r]) = push (type r) r (grouped l).
Proof. unfold grouped. now rewrite List.fold_left_app. Qed.

Lemma typeCounts_snoc (l : list MatchReason) (r : MatchReason) :
  typeCounts (l ++ [r]) = bump (type r) (typeCounts l).
Proof. unfold typeCounts. now rewrite List.fold_left_app. Qed.

(** Reading the accumulator after a push. *)
Lemma objLookup_push (k ty : string) (r : MatchReason)
  (acc : list (string * list MatchReason)) :
  objLookup k (push ty r acc) =
  if String.eqb ty k then Some (default [] (objLookup ty acc) ++ [r])
  else objLookup k acc.
Proof.
  induction acc as [|[k0 rs] acc IH]; cbn [push objLookup].
  - destruct (String.eqb ty k); reflexivity.
  - destruct (String.eqb_spec k0 ty) as [->|Hne]; cbn [objLookup].
    + destruct (String.eqb_spec ty k) as [->|Hne']; [reflexivity|reflexivity].
    + rewrite IH. destruct (String.eqb_spec k0 k) as [->|Hk].
      * destruct (String.eqb_spec ty k) as [->|_]; [congruence|reflexivity].
      * reflexivity.
Qed.

Lemma keys_push (ty : string) (r : MatchReason)
  (acc : list (string * list MatchReason)) :
  map fst (push ty r acc) =
  if existsb (String.eqb ty) (map fst acc) then map fst acc
  else map fst acc ++ [ty].
Proof.
  induction acc as [|[k0 rs] acc IH]; cbn [push map fst existsb]; [reflexivity|].
  rewrite (String.eqb_sym ty k0).
  destruct (String.eqb k0 ty); cbn [map fst orb]; [reflexivity|].
  rewrite IH. now destruct (existsb (String.eqb ty) (map fst acc)).
Qed.

Lemma existsb_eqb_In (x : string) (l : list string) :
  existsb (String.eqb x) l = true <-> In x l.
Proof.
  rewrite existsb_exists. split.
  - intros (y & Hy & Heq). apply String.eqb_eq in Heq. now subst.
  - intros Hin. exists x. split; [exact Hin|apply String.eqb_refl].
Qed.

Lemma grouped_keys_NoDup (l : list MatchReason) : NoDup (map fst (grouped l)).
Proof.
  induction l as [|r l IH] using rev_ind; [apply NoDup_nil_2|].
  rewrite grouped_snoc, keys_push.
  destruct (existsb (String.eqb (type r)) (map fst (grouped l))) eqn:E;
    [exact IH|].
  apply NoDup_snoc_fresh; [exact IH|].
  rewrite <- existsb_eqb_In, E. discriminate.
Qed.

(** The group of a type is the list of the reasons of that type, in their
    order; a type without reasons has no group. *)
Lemma objLookup_grouped (k : string) (l : list MatchReason) :
  objLookup k (grouped l) =
  match ofType k l with
  | [] => None
  | rs => Some rs
  end.
Proof.
  induction l as [|r l IH] using rev_ind; [reflexivity|].
  rewrite grouped_snoc, objLookup_push. unfold ofType in *.
  rewrite List.filter_app. cbn [List.filter].
  destruct (String.eqb_spec (type r) k) as [->|Hne].
  - rewrite IH. destruct (List.filter _ l); reflexivity.
  - rewrite List.app_nil_r. exact IH.
Qed.

Lemma In_objLookup {V} (k : string) (v : V) (l : list (string * V)) :
  NoDup (map fst l) -> In (k, v) l -> objLookup k l = Some v.
Proof.
  induction l as [|[k0 v0] l IH]; intros Hnd Hin; [destruct Hin|].
  cbn [map fst] in Hnd. apply NoDup_cons in Hnd as [Hfresh Hnd].
  cbn [objLookup]. destruct Hin as [[= -> ->]|Hin].
  - now rewrite String.eqb_refl.
  - destruct (String.eqb_spec k0 k) as [->|Hne]; [|now apply IH].
    exfalso. apply Hfresh, list_elem_of_In, in_map_iff.
    exists (k, v). split; [reflexivity|exact Hin].
Qed.

Lemma objLookup_In {V} (k : string) (v : V) (l : list (string * V)) :
  objLookup k l = Some v -> In (k, v) l.
Proof.
  induction l as [|[k0 v0] l IH]; cbn [objLookup]; [discriminate|].
  destruct (String.eqb_spec k0 k) as [->|Hne].
  - intros [= ->]. now left.
  - intros H. right. now apply IH.
Qed.

Lemma map_length_push (ty : string) (r : MatchReason)
  (acc : list (string * list MatchReason)) :
  Forall (fun e => snd e <> []) acc ->
  map (fun e => (fst e, Z.of_nat (length (snd e)))) (push ty r acc) =
  bump ty (map (fun e => (fst e, Z.of_nat (length (snd e)))) acc).
Proof.
  induction acc as [|[k0 rs] acc IH]; intros Hne; cbn [push bump map fst snd].
  - reflexivity.
  - apply Forall_cons in Hne as [Hrs Hne]. cbn [snd] in Hrs.
    destruct (String.eqb k0 ty); cbn [map fst snd].
    + f_equal. f_equal. rewrite List.length_app. cbn [length].
      destruct rs; [congruence|].
      destruct (Z.eqb_spec (Z.of_nat (length (m :: rs))) 0) as [H0|_];
        [cbn in H0; lia|lia].
    + f_equal. now apply IH.
Qed.

Lemma push_nonempty (ty : string) (r : MatchReason)
  (acc : list (string * list MatchReason)) :
  Forall (fun e => snd e <> []) acc ->
  Forall (fun e => snd e <> []) (push ty r acc).
Proof.
  induction acc as [|[k0 rs] acc IH]; intros Hne; cbn [push].
  - constructor; [discriminate|constructor].
  - apply Forall_cons in Hne as [Hrs Hne].
    destruct (String.eqb k0 ty); constructor; try assumption.
    + cbn [snd]. destruct rs; discriminate.
    + now apply IH.
Qed.

Lemma grouped_nonempty (l : list MatchReason) :
  Forall (fun e => snd e <> []) (grouped l).
Proof.
  induction l as [|r l IH] using rev_ind; [constructor|].
  rewrite grouped_snoc. now apply push_nonempty.
Qed.

Lemma typeCounts_grouped (l : list MatchReason) :
  typeCounts l =
  map (fun e => (fst e, Z.of_nat (length (snd e)))) (grouped l).
Proof.
  induction l as [|r l IH] using rev_ind; [reflexivity|].
  rewrite typeCounts_snoc, grouped_snoc, IH.
  symmetry. apply map_length_push, grouped_nonempty.
Qed.

(** X5.  [MatchReasonsGrouped] partitions reasons of the declared types:
    there is one card per type that occurs, the types of the cards are
    distinct, the card of a type holds exactly the reasons of that type in
    their order, and every card has an icon and a label. *)
Theorem grouped_partitions_reasons (reasons : list MatchReason) :
  Forall (fun r => admits (type r)) reasons ->
  NoDup (map fst (grouped reasons)) /\
  (forall ty rs,
     In (ty, rs) (grouped reasons) <->
     rs = ofType ty reasons /\ rs <> []) /\
  (forall r, In r reasons -> In (type r, ofType (type r) reasons) (grouped reasons)) /\
  (forall plus showWeights card,
     In card (MatchReasonsGrouped plus reasons showWeights) ->
     is_Some (gc_icon card) /\ is_Some (gc_label card) /\ (0 < gc_count card)%nat).
Proof.
  intros Htyped.
  pose proof (grouped_keys_NoDup reasons) as Hnd.
  assert (Hentry : forall ty rs,
            In (ty, rs) (grouped reasons) <-> rs = ofType ty reasons /\ rs <> []).
  { intros ty rs. split.
    - intros Hin. apply (In_objLookup _ _ _ Hnd) in Hin.
      rewrite objLookup_grouped in Hin.
      destruct (ofType ty reasons); [discriminate|].
      injection Hin as <-. split; [reflexivity|discriminate].
    - intros [-> Hne]. apply objLookup_In. rewrite objLookup_grouped.
      destruct (ofType ty reasons); [congruence|reflexivity]. }
  split; [exact Hnd|]. split; [exact Hentry|]. split.
  - intros r Hin. apply Hentry. split; [reflexivity|].
    intros Hempty.
    assert (Hr : In r (ofType (type r) reasons)).
    { unfold ofType. apply List.filter_In. split; [exact Hin|apply String.eqb_refl]. }
    rewrite Hempty in Hr. destruct Hr.
  - intros plus showWeights card Hcard. unfold MatchReasonsGrouped in Hcard.
    apply in_map_iff in Hcard as ([ty rs] & <- & Hin).
    apply Hentry in Hin as [-> Hne]. cbn [groupCard gc_icon gc_label gc_count].
    destruct (ofType ty reasons) as [|r0 rs0] eqn:E; [congruence|].
    assert (Hr0 : In r0 (ofType ty reasons)) by (rewrite E; now left).
    unfold ofType in Hr0. apply List.filter_In in Hr0 as [Hr0 Hty].
    apply String.eqb_eq in Hty. subst ty.
    rewrite List.Forall_forall in Htyped.
    destruct (Htyped r0 Hr0) as [t Ht]. rewrite <- Ht.
    split; [apply typeName_renders|]. split; [apply typeName_renders|].
    cbn. lia.
Qed.

Lemma grouped_partitions_reasons_witness :
  NoDup (map fst (grouped
    [ {| type := "urgency"; category := ""; reason := "a"; weight := 5 # 1 |};
      {| type := "sector_match"; category := "IT"; reason := "b"; weight := 20 # 1 |};
      {| type := "urgency"; category := ""; reason := "c"; weight := 1 # 2 |} ])).
Proof.
  apply grouped_partitions_reasons.
  repeat constructor;
    [exists urgency|exists sector_match|exists urgency]; reflexivity.
Defined.

Lemma sum_counts_length (l : list (string * list MatchReason)) :
  fold_right Z.add 0 (map (fun e => Z.of_nat (length (snd e))) l) =
  Z.of_nat (length (concat (map snd l))).
Proof.
  induction l as [|[k rs] l IH]; [reflexivity|].
  cbn [map fold_right concat snd]. rewrite IH, List.length_app. lia.
Qed.

Lemma ofType_length_sum (keys : list string) (l : list MatchReason) :
  NoDup keys -> (forall r, In r l -> In (type r) keys) ->
  fold_right Z.add 0 (map (fun k => Z.of_nat (length (ofType k l))) keys)
  = Z.of_nat (length l).
Proof.
  intros Hnd Hcover. induction l as [|r l IH]; cbn [length].
  - clear Hnd Hcover. induction keys as [|k keys IHk]; [reflexivity|].
    cbn [map fold_right]. rewrite IHk. reflexivity.
  - assert (Hstep : forall ks, NoDup ks ->
        fold_right Z.add 0 (map (fun k => Z.of_nat (length (ofType k (r :: l)))) ks)
        = fold_right Z.add 0 (map (fun k => Z.of_nat (length (ofType k l))) ks)
          + (if existsb (String.eqb (type r)) ks then 1 else 0)).
    { induction ks as [|k ks IHks]; intros Hks; [reflexivity|].
      apply NoDup_cons in Hks as [Hk Hks]. cbn [map fold_right existsb].
      rewrite (IHks Hks). unfold ofType at 1. cbn [List.filter].
      destruct (String.eqb_spec (type r) k) as [->|Hne].
      - cbn [orb length].
        destruct (existsb (String.eqb k) ks) eqn:E.
        + exfalso. apply Hk, list_elem_of_In, existsb_eqb_In, E.
        + unfold ofType. lia.
      - cbn [orb]. unfold ofType. lia. }
    rewrite (Hstep keys Hnd), IH.
    + assert (Hin : existsb (String.eqb (type r)) keys = true).
      { apply existsb_eqb_In, Hcover. now left. }
      rewrite Hin. lia.
    + intros r' Hr'. apply Hcover. now right.
Qed.

(** X6.  On reasons of the declared types the summary counts what the
    grouped view groups: its entries come in the order of the cards, the
    count of each is the size of the card's group, that is the number of
    reasons of the type, and the counts add up to the number of reasons. *)
Theorem summary_counts_match_groups (reasons : list MatchReason) :
  Forall (fun r => admits (type r)) reasons ->
  typeCounts reasons =
    map (fun e => (fst e, Z.of_nat (length (snd e)))) (grouped reasons) /\
  (forall ty n, In (ty, n) (typeCounts reasons) ->
                n = Z.of_nat (length (ofType ty reasons)) /\ 0 < n) /\
  fold_right Z.add 0 (map snd (typeCounts reasons)) = Z.of_nat (length reasons).
Proof.
  intros _.
  pose proof (typeCounts_grouped reasons) as Heq.
  pose proof (grouped_keys_NoDup reasons) as Hnd.
  split; [exact Heq|]. split.
  - intros ty n Hin. rewrite Heq in Hin.
    apply in_map_iff in Hin as ([k rs] & [= <- <-] & Hin).
    apply (In_objLookup _ _ _ Hnd) in Hin. rewrite objLookup_grouped in Hin.
    destruct (ofType k reasons) eqn:E; [discriminate|].
    injection Hin as <-. split; [reflexivity|cbn; lia].
  - rewrite Heq, List.map_map. cbn [snd].
    assert (Hgroups : map (fun e : string * list MatchReason =>
                             Z.of_nat (length (snd e))) (grouped reasons)
                      = map (fun k => Z.of_nat (length (ofType k reasons)))
                            (map fst (grouped reasons))).
    { rewrite List.map_map. apply List.map_ext_in. intros [k rs] Hin.
      apply (In_objLookup _ _ _ Hnd) in Hin. rewrite objLookup_grouped in Hin.
      cbn [fst snd]. destruct (ofType k reasons); [discriminate|].
      now injection Hin as <-. }
    rewrite Hgroups. apply ofType_length_sum; [exact Hnd|].
    intros r Hr. apply in_map_iff. exists (type r, ofType (type r) reasons).
    split; [reflexivity|]. apply objLookup_In. rewrite objLookup_grouped.
    destruct (ofType (type r) reasons) eqn:E; [|reflexivity].
    assert (Hin : In r (ofType (type r) reasons)).
    { unfold ofType. apply List.filter_In. split; [exact Hr|apply String.eqb_refl]. }
    rewrite E in Hin. destruct Hin.
Qed.

Lemma summary_counts_match_groups_witness :
  typeCounts
    [ {| type := "urgency"; category := ""; reason := "a"; weight := 5 # 1 |};
      {| type := "sector_match"; category := "IT"; reason := "b"; weight := 20 # 1 |};
      {| type := "urgency"; category := ""; reason := "c"; weight := 1 # 2 |} ]
  = [("urgency", 2); ("sector_match", 1)].
Proof.
  destruct (summary_counts_match_groups
    [ {| type := "urgency"; category := ""; reason := "a"; weight := 5 # 1 |};
      {| type := "sector_match"; category := "IT"; reason := "b"; weight := 20 # 1 |};
      {| type := "urgency"; category := ""; reason := "c"; weight := 1 # 2 |} ])
    as [Heq _].
  { repeat constructor;
      [exists urgency|exists sector_match|exists urgency]; reflexivity. }
  rewrite Heq. reflexivity.
Defined.

(** ** The score badge *)

Import MatchScoreViews.

Lemma Math_round_ge (n : Z) (score : Q) :
  Qle (inject_Z n) score -> n <= Math_round score.
Proof.
  intros Hle. unfold Math_round.
  rewrite <- (Qfloor_Z n). apply Qfloor_resp_le.
  apply Qle_trans with score; [exact Hle|].
  rewrite <- (Qplus_0_r score) at 1. apply Qplus_le_r. discriminate.
Qed.

Lemma Math_round_le (n : Z) (score : Q) :
  Qlt score (inject_Z n) -> Math_round score <= n.
Proof.
  intros Hlt. unfold Math_round.
  assert (H : Qlt (inject_Z (Qfloor (Qplus score (1 # 2)))) (inject_Z (n + 1))).
  { apply Qle_lt_trans with (Qplus score (1 # 2)); [apply Qfloor_le|].
    rewrite inject_Z_plus. apply Qplus_lt_le_compat; [exact Hlt|]. discriminate. }
  rewrite <- Zlt_Qlt in H. lia.
Qed.

(** X7.  The percentage printed on the badge never contradicts its label
    by more than the rounding: an "Excellent Match" badge prints at least
    80, a "Good Match" badge between 60 and 80, a "Fair Match" badge
    between 40 and 60, and a "Low Match" badge at most 40. *)
Theorem badge_percent_within_label (score : Q) (size : Size) :
  let b := MatchScore score size true in
  (badge_label b = Some "Excellent Match" /\ 80 <= badge_percent b) \/
  (badge_label b = Some "Good Match" /\ 60 <= badge_percent b <= 80) \/
  (badge_label b = Some "Fair Match" /\ 40 <= badge_percent b <= 60) \/
  (badge_label b = Some "Low Match" /\ badge_percent b <= 40).
Proof.
  cbv zeta. unfold MatchScore. cbn [badge_label badge_percent].
  destruct (getScoreLabel_cases score)
    as [[H ->]|[(H1 & H2 & ->)|[(H1 & H2 & ->)|[H ->]]]].
  - left. split; [reflexivity|]. now apply Math_round_ge.
  - right; left. split; [reflexivity|].
    split; [now apply Math_round_ge|now apply Math_round_le].
  - right; right; left. split; [reflexivity|].
    split; [now apply Math_round_ge|now apply Math_round_le].
  - right; right; right. split; [reflexivity|]. now apply Math_round_le.
Qed.

(** A score just under a boundary prints the boundary with the lower
    label. *)
Example badge_rounds_up_to_boundary :
  MatchScore (159 # 2) md true =
  {| badge_class :=
       "inline-flex items-center px-2.5 py-0.5 rounded-full text-xs font-medium border text-blue-600 bg-blue-50 border-blue-200 text-sm px-2.5 py-1";
     badge_percent := 80;
     badge_label := Some "Good Match" |}.
Proof. reflexivity. Qed.

(** X8.  The circular score and the badge agree on the category of every
    score: the circle is green exactly when the label is "Excellent
    Match", blue exactly for "Good Match", yellow exactly for "Fair Match"
    and gray exactly for "Low Match". *)
Theorem circular_color_agrees_with_label (score : Q) :
  (getColor score = "#10b981" <-> getScoreLabel score = "Excellent Match") /\
  (getColor score = "#3b82f6" <-> getScoreLabel score = "Good Match") /\
  (getColor score = "#eab308" <-> getScoreLabel score = "Fair Match") /\
  (getColor score = "#6b7280" <-> getScoreLabel score = "Low Match").
Proof.
  unfold getColor, getScoreLabel, geThreshold. cbn [MATCH_SCORE_THRESHOLDS].
  destruct (Qle_bool (inject_Z 80) score);
    [repeat split; intros H; first [reflexivity|discriminate H]|].
  destruct (Qle_bool (inject_Z 60) score);
    [repeat split; intros H; first [reflexivity|discriminate H]|].
  destruct (Qle_bool (inject_Z 40) score);
    repeat split; intros H; first [reflexivity|discriminate H].
Qed.

(** ** The two cards *)

(** X9.  The full card and the compact card show the urgency marker on the
    same recommendations except the expired ones: whenever the full card
    shows it so does the compact card, and the compact card alone shows it
    exactly on a recommendation with a deadline that has passed. *)
Theorem cards_disagree_on_expired (r : TenderRecommendation) :
  (showsUrgencyMarker r = true -> compactShowsUrgencyMarker r = true) /\
  (compactShowsUrgencyMarker r = true /\ showsUrgencyMarker r = false <->
   truthyOptString (deadline (tender r)) = true /\ days_until_deadline r < 0).
Proof.
  pose proof (showsUrgencyMarker_iff r) as Hfull.
  pose proof (compact_marker_iff r) as Hcompact.
  split.
  - intros H. apply Hcompact. apply Hfull in H. intuition lia.
  - split.
    + intros [Hc Hf]. apply Hcompact in Hc as [Hd Hle]. split; [exact Hd|].
      destruct (Z.lt_ge_cases (days_until_deadline r) 0) as [Hneg|Hpos];
        [exact Hneg|].
      assert (showsUrgencyMarker r = true) by (apply Hfull; intuition lia).
      congruence.
    + intros [Hd Hneg]. split; [apply Hcompact; intuition lia|].
      apply not_true_iff_false. intros H. apply Hfull in H. lia.
Qed.

Example expired_on_both_cards :
  showsUrgencyMarker (closingIn (-3)) = false /\
  compactShowsUrgencyMarker (closingIn (-3)) = true.
Proof. split; reflexivity. Qed.

(** ** Tokens and the headers of the client *)

Import Auth RecommendationsApiMore Samples.

Lemma getRecommendations_world (serialize : URLSearchParams -> string)
  (env : Env) (server : Server RecommendationResponse)
  (filters : RecommendationFilters) (w : World) :
  snd (getRecommendations serialize env server filters w)
  = issue (recommendationsRequest serialize env filters) w.
Proof.
  unfold getRecommendations, mbind, Async_bind, andThen, axios_get.
  cbn. unfold recommendationsRequest. destruct (server _); reflexivity.
Qed.

Lemma getSimilarTenders_world (env : Env) (server : Server SimilarTendersResponse)
  (tenderId : string) (limit : option Z) (w : World) :
  snd (getSimilarTenders env server tenderId limit w)
  = issue {| method := GET;
             url := API_URL env +:+ "/recommendations/tenders/" +:+ tenderId
                    +:+ "/similar?limit="
                    +:+ toString (match limit with Some n => n | None => 10 end);
             headers := getAuthHeaders env;
             body := NoBody |} w.
Proof.
  unfold getSimilarTenders, mbind, Async_bind, andThen, axios_get.
  cbn. destruct (server _); reflexivity.
Qed.

(** X10.  Each network call of lib/recommendations.ts issues exactly one
    request, and the headers of that request are the bearer token alone:
    one Authorization header, "Bearer " followed by the token, when the
    code runs in a browser whose stored access token is not empty, and no
    header at all otherwise.  [getRecommendationStats] issues no request. *)
Theorem client_requests_carry_bearer_only
  (serialize : URLSearchParams -> string) (env : Env) (w : World) :
  let expected :=
    if RecommendationsApi.hasWindow env && truthyOptString (access_token env)
    then [("Authorization", "Bearer " +:+ default "" (access_token env))]
    else [] in
  (forall server filters,
     exists r, requests (snd (getRecommendations serialize env server filters w))
               = requests w ++ [r] /\ headers r = expected) /\
  (forall server tenderId limit,
     exists r, requests (snd (getSimilarTenders env server tenderId limit w))
               = requests w ++ [r] /\ headers r = expected) /\
  (forall server tenderId feedback,
     exists r, requests (snd (RecommendationsApi.submitFeedback env server
                                tenderId feedback w))
               = requests w ++ [r] /\ headers r = expected) /\
  snd (getRecommendationStats w) = w.
Proof.
  cbv zeta.
  assert (Hh : getAuthHeaders env =
               if RecommendationsApi.hasWindow env && truthyOptString (access_token env)
               then [("Authorization", "Bearer " +:+ default "" (access_token env))]
               else []).
  { unfold getAuthHeaders. destruct (RecommendationsApi.hasWindow env); [|reflexivity].
    destruct (access_token env) as [[|c t]|]; reflexivity. }
  split; [|split; [|split]].
  - intros server filters. eexists. rewrite getRecommendations_world.
    split; [reflexivity|exact Hh].
  - intros server tenderId limit. eexists. rewrite getSimilarTenders_world.
    split; [reflexivity|exact Hh].
  - intros server tenderId feedback. eexists. rewrite submitFeedback_settles.
    split; [reflexivity|exact Hh].
  - reflexivity.
Qed.

Lemma lookup_after_set (accessToken refreshToken key : string) (b : Browser) :
  key <> "access_token" -> key <> "refresh_token" ->
  getItem key
    (setItem "refresh_token" refreshToken (setItem "access_token" accessToken b))
  = getItem key b.
Proof.
  intros H1 H2. unfold getItem, setItem. cbn [localStorage].
  rewrite !lookup_insert_ne by congruence. reflexivity.
Qed.

(** X11.  Signing in round-trips through local storage: in a browser,
    after [setAuth user accessToken refreshToken] the store holds the user
    as authenticated, [getAccessToken] returns the access token, the
    refresh token is stored, every other key of the storage is as before,
    and the recommendations client sends "Bearer accessToken" from then
    on; [isAuthenticated ()] of lib/auth.ts is true exactly when the access
    token is not empty. *)
Theorem sign_in_round_trip (u : AuthStore.User) (accessToken refreshToken : string)
  (s : AuthStore.AuthState) (b : Browser) (apiUrl : option string) :
  Auth.hasWindow b = true ->
  let '(s', b') := AuthStore.setAuth u accessToken refreshToken s b in
  AuthStore.user s' = Some u /\ AuthStore.isAuthenticated s' = true /\
  getAccessToken b' = Some accessToken /\
  getItem "refresh_token" b' = Some refreshToken /\
  (forall key, key <> "access_token" -> key <> "refresh_token" ->
               getItem key b' = getItem key b) /\
  (Auth.isAuthenticated b' = true <-> accessToken <> EmptyString) /\
  (accessToken <> EmptyString ->
   getAuthHeaders (envOf apiUrl b')
   = [("Authorization", "Bearer " +:+ accessToken)]).
Proof.
  intros Hw. unfold AuthStore.setAuth, setAuthTokens. rewrite Hw.
  assert (Htok : getItem "access_token"
                   (setItem "refresh_token" refreshToken
                      (setItem "access_token" accessToken b))
                 = Some accessToken).
  { unfold getItem, setItem. cbn [localStorage].
    rewrite lookup_insert_ne by discriminate. apply lookup_insert_eq. }
  split; [reflexivity|]. split; [reflexivity|]. split.
  { unfold getAccessToken. cbn [Auth.hasWindow setItem]. rewrite Hw. exact Htok. }
  split.
  { unfold getItem, setItem. cbn [localStorage]. apply lookup_insert_eq. }
  split; [intros key; apply lookup_after_set|].
  split.
  - unfold Auth.isAuthenticated, getAccessToken.
    cbn [Auth.hasWindow setItem]. rewrite Hw, Htok.
    destruct accessToken; cbn; split; congruence.
  - intros Hne. unfold getAuthHeaders, envOf.
    cbn [RecommendationsApi.hasWindow RecommendationsApi.access_token
         Auth.hasWindow setItem].
    rewrite Hw, Htok. destruct accessToken; [congruence|reflexivity].
Qed.

Lemma sign_in_round_trip_witness :
  getAccessToken
    (snd (AuthStore.setAuth someUser "abc" "xyz" AuthStore.initialState signedOut))
  = Some "abc".
Proof.
  pose proof (sign_in_round_trip someUser "abc" "xyz" AuthStore.initialState
                signedOut None eq_refl) as H.
  destruct (AuthStore.setAuth someUser "abc" "xyz" AuthStore.initialState signedOut)
    as [s' b'].
  destruct H as (_ & _ & H & _). exact H.
Defined.

(** X12.  Signing out leaves no token behind: after [logout], in or out
    of a browser, the store holds no user and is not authenticated,
    [getAccessToken] returns null, [isAuthenticated ()] is false, every
    key of the storage but the two tokens is as before, and the
    recommendations client sends no header. *)
Theorem sign_out_clears_tokens (s : AuthStore.AuthState) (b : Browser)
  (apiUrl : option string) :
  let '(s', b') := AuthStore.logout s b in
  AuthStore.user s' = None /\ AuthStore.isAuthenticated s' = false /\
  getAccessToken b' = None /\
  Auth.isAuthenticated b' = false /\
  (forall key, key <> "access_token" -> key <> "refresh_token" ->
               getItem key b' = getItem key b) /\
  getAuthHeaders (envOf apiUrl b') = [].
Proof.
  unfold AuthStore.logout, clearAuthTokens.
  split; [reflexivity|]. split; [reflexivity|].
  destruct (Auth.hasWindow b) eqn:Hw.
  - assert (Htok : getItem "access_token"
                     (removeItem "refresh_token" (removeItem "access_token" b))
                   = None).
    { unfold getItem, removeItem. cbn [localStorage].
      rewrite lookup_delete_ne by discriminate. apply lookup_delete_eq. }
    split.
    { unfold getAccessToken. cbn [Auth.hasWindow removeItem]. now rewrite Hw. }
    split.
    { unfold Auth.isAuthenticated, getAccessToken.
      cbn [Auth.hasWindow removeItem]. now rewrite Hw, Htok. }
    split.
    { intros key H1 H2. unfold getItem, removeItem. cbn [localStorage].
      rewrite !lookup_delete_ne by congruence. reflexivity. }
    unfold getAuthHeaders, envOf.
    cbn [RecommendationsApi.hasWindow RecommendationsApi.access_token
         Auth.hasWindow removeItem].
    now rewrite Hw, Htok.
  - split; [unfold getAccessToken; now rewrite Hw|].
    split; [unfold Auth.isAuthenticated, getAccessToken; now rewrite Hw|].
    split; [reflexivity|].
    unfold getAuthHeaders, envOf. cbn [RecommendationsApi.hasWindow].
    now rewrite Hw.
Qed.

(** ** Saving, dismissing and applying from the buttons *)

Import TenderActions FeedbackButtons.

Lemma hook_submitFeedback_accepted
  (env : Env) (server : Server FeedbackResponse) (tenderId : string)
  (type : InteractionType) (reason : option string) (spent : option Z)
  (fb : FeedbackState) (w : World) (response : AxiosResponse FeedbackResponse) :
  server (feedbackRequest env tenderId
            {| interaction_type := type; feedback_reason := reason;
               time_spent_seconds := spent |}) = Return response ->
  UseRecommendations.submitFeedback env server tenderId type reason spent fb w =
  (Return (Http.data response),
   {| UseRecommendations.loading := false; error := None |},
   issue (feedbackRequest env tenderId
            {| interaction_type := type; feedback_reason := reason;
               time_spent_seconds := spent |}) w).
Proof.
  intros Hok. unfold UseRecommendations.submitFeedback.
  rewrite submitFeedback_settles, Hok. reflexivity.
Qed.

Ltac settle_outcomes :=
  repeat match goal with |- _ /\ _ => split end;
  try reflexivity;
  try (let x := fresh in let H := fresh in
       intros x H; inversion H; subst; split; reflexivity).

Lemma isSaved_true (st : ActionsState) (tenderId : string) :
  isSaved st tenderId = true <-> tenderId ∈ savedTenders st.
Proof. unfold isSaved. apply bool_decide_eq_true. Qed.

Lemma isSaved_false (st : ActionsState) (tenderId : string) :
  isSaved st tenderId = false <-> tenderId ∉ savedTenders st.
Proof. unfold isSaved. apply bool_decide_eq_false. Qed.

(** X13.  The save button is a toggle that follows the server.  It never
    throws.  On a saved tender it unsaves locally and sends nothing.  On a
    tender that is not saved it posts one save feedback; if the server
    accepts, the tender is saved and the parent is notified; if the server
    rejects, the saved set is exactly what it was, the parent is not
    notified, and one line goes to the console.  The dismissed set is never
    touched. *)
Theorem handleSave_toggles_with_server
  (env : Env) (server : Server FeedbackResponse) (tenderId : string)
  (b : Buttons) (w : World) :
  let '(c, b', w') := handleSave env server tenderId b w in
  let request := feedbackRequest env tenderId saveFeedback in
  c = Return tt /\
  dismissedTenders (actions b') = dismissedTenders (actions b) /\
  l_save (loading b') = Some false /\
  (isSaved (actions b) tenderId = true ->
   requests w' = requests w /\
   isSaved (actions b') tenderId = false /\
   savedTenders (actions b') = savedTenders (actions b) ∖ {[tenderId]} /\
   onSaveCalls b' = S (onSaveCalls b)) /\
  (isSaved (actions b) tenderId = false ->
   requests w' = requests w ++ [request] /\
   (forall response, server request = Return response ->
      isSaved (actions b') tenderId = true /\
      savedTenders (actions b') = {[tenderId]} ∪ savedTenders (actions b) /\
      onSaveCalls b' = S (onSaveCalls b) /\
      console w' = console w) /\
   (forall e, server request = Throw e ->
      savedTenders (actions b') = savedTenders (actions b) /\
      onSaveCalls b' = onSaveCalls b /\
      console w' = console w ++ ["Failed to save tender:"])).
Proof.
  unfold handleSave. cbv zeta.
  destruct (isSaved (actions b) tenderId) eqn:Hsaved.
  - (* unsave *)
    cbn. split; [reflexivity|]. split; [reflexivity|]. split; [reflexivity|].
    split; [|discriminate]. intros _.
    split; [reflexivity|]. split; [|split; reflexivity].
    apply isSaved_false. cbn. unfold setDelete. set_solver.
  - (* save *)
    apply isSaved_false in Hsaved.
    unfold saveTender.
    destruct (server (feedbackRequest env tenderId saveFeedback))
      as [response|e] eqn:Hs.
    + rewrite (hook_submitFeedback_accepted env server tenderId save None None
                 _ w response Hs).
      cbn. split; [reflexivity|]. split; [reflexivity|]. split; [reflexivity|].
      split; [discriminate|]. intros _. split; [reflexivity|]. split.
      * intros response' [= <-].
        split; [apply isSaved_true; cbn; unfold setAdd; set_solver|].
        repeat split; reflexivity.
      * intros e [=].
    + rewrite (hook_submitFeedback_rejected env server tenderId save None None
                 _ w e Hs).
      cbn. split; [reflexivity|]. split; [reflexivity|]. split; [reflexivity|].
      split; [discriminate|]. intros _. split; [reflexivity|]. split.
      * intros response [=].
      * intros e' _. split; [now apply setDelete_setAdd_fresh|].
        split; reflexivity.
Qed.

(** Saving with the server down, then looking at the saved set. *)
Example handleSave_server_down :
  let '(c, b', w') := handleSave browserEnv serverDown "t-1" mounted quietWorld in
  c = Return tt /\ isSaved (actions b') "t-1" = false /\ onSaveCalls b' = 0%nat /\
  length (requests w') = 1%nat /\ console w' = ["Failed to save tender:"].
Proof.
  unfold handleSave, saveTender. cbv zeta.
  assert (Hs : isSaved (actions mounted) "t-1" = false)
    by (apply isSaved_false; cbn; set_solver).
  rewrite Hs.
  rewrite (hook_submitFeedback_rejected browserEnv serverDown "t-1" save None
             None _ quietWorld networkError eq_refl).
  cbn. split; [reflexivity|]. split; [|repeat split; reflexivity].
  apply isSaved_false. cbn. unfold setDelete, setAdd. set_solver.
Qed.

(** X14.  Views are tracked quietly, applications loudly.  [markAsViewed]
    posts one view feedback with the time spent and never throws: a
    rejection only leaves a line on the console and the surfaced error in
    the state of the feedback hook.  [markAsApplied] posts one apply
    feedback and throws the surfaced error again after logging it.  Neither
    touches the saved or the dismissed set. *)
Theorem views_swallow_failures_applications_rethrow
  (env : Env) (server : Server FeedbackResponse) (tenderId : string)
  (timeSpent : option Z) (st : ActionsState) (w : World) :
  (let request := feedbackRequest env tenderId
                    {| interaction_type := Recommendation.view; feedback_reason := None;
                       time_spent_seconds := timeSpent |} in
   let '(c, st', w') := markAsViewed env server tenderId timeSpent st w in
   c = Return tt /\
   requests w' = requests w ++ [request] /\
   savedTenders st' = savedTenders st /\
   dismissedTenders st' = dismissedTenders st /\
   (forall e, server request = Throw e ->
      console w' = console w ++ ["Failed to track view:"] /\
      error (feedbackState st') = Some (surfaced e)) /\
   (forall response, server request = Return response ->
      console w' = console w /\ error (feedbackState st') = None)) /\
  (let request := feedbackRequest env tenderId
                    {| interaction_type := apply; feedback_reason := None;
                       time_spent_seconds := None |} in
   let '(c, st', w') := markAsApplied env server tenderId st w in
   requests w' = requests w ++ [request] /\
   savedTenders st' = savedTenders st /\
   dismissedTenders st' = dismissedTenders st /\
   (forall e, server request = Throw e ->
      c = Throw (surfaced e) /\
      console w' = console w ++ ["Failed to track application:"]) /\
   (forall response, server request = Return response ->
      c = Return tt /\ console w' = console w)).
Proof.
  split; cbv zeta.
  - unfold markAsViewed.
    destruct (server (feedbackRequest env tenderId
                {| interaction_type := Recommendation.view; feedback_reason := None;
                   time_spent_seconds := timeSpent |})) as [response|e] eqn:Hs.
    + rewrite (hook_submitFeedback_accepted env server tenderId Recommendation.view None
                 timeSpent _ w response Hs).
      cbn. settle_outcomes.
    + rewrite (hook_submitFeedback_rejected env server tenderId Recommendation.view None
                 timeSpent _ w e Hs).
      cbn. settle_outcomes.
  - unfold markAsApplied.
    destruct (server (feedbackRequest env tenderId
                {| interaction_type := apply; feedback_reason := None;
                   time_spent_seconds := None |})) as [response|e] eqn:Hs.
    + rewrite (hook_submitFeedback_accepted env server tenderId apply None
                 None _ w response Hs).
      cbn. settle_outcomes.
    + rewrite (hook_submitFeedback_rejected env server tenderId apply None
                 None _ w e Hs).
      cbn. settle_outcomes.
Qed.

Lemma dismissTender_requests
  (env : Env) (server : Server FeedbackResponse) (tenderId : string)
  (reason : option string) (st : ActionsState) (w : World) :
  requests (snd (dismissTender env server tenderId reason st w))
  = requests w ++ [feedbackRequest env tenderId (dismissFeedback reason)].
Proof.
  unfold dismissTender.
  destruct (server (feedbackRequest env tenderId (dismissFeedback reason)))
    as [response|e] eqn:Hs.
  - rewrite (hook_submitFeedback_accepted env server tenderId dismiss reason
               None _ w response Hs). reflexivity.
  - rewrite (hook_submitFeedback_rejected env server tenderId dismiss reason
               None _ w e Hs). reflexivity.
Qed.

(** X15.  The reason of a dismissal is never the empty string.  The modal
    confirms with the chosen reason, with the typed text for "Other", and
    with no reason when that would be empty; the dismiss button then posts
    one dismiss feedback whose feedback_reason is exactly that. *)
Theorem dismiss_reason_never_empty
  (env : Env) (server : Server FeedbackResponse) (tenderId : string)
  (selectedReason reason : string) (b : Buttons) (w : World) :
  let confirmed := handleSubmit selectedReason reason in
  confirmed <> Some EmptyString /\
  (confirmed = None <->
   (if String.eqb selectedReason "Other" then reason else selectedReason)
   = EmptyString) /\
  (forall r, confirmed = Some r ->
     r = if String.eqb selectedReason "Other" then reason else selectedReason) /\
  let '(_, _, w') := handleDismiss env server tenderId confirmed b w in
  exists request,
    requests w' = requests w ++ [request] /\
    method request = POST /\
    body request =
      FeedbackBody {| interaction_type := dismiss;
                      feedback_reason := confirmed;
                      time_spent_seconds := None |}.
Proof.
  cbv zeta. unfold handleSubmit. cbv zeta.
  set (final := if String.eqb selectedReason "Other" then reason else selectedReason).
  split; [destruct final; cbn; congruence|].
  split; [destruct final; cbn; split; congruence|].
  split; [destruct final; cbn; congruence|].
  set (confirmed := if truthyString final then Some final else None).
  pose proof (dismissTender_requests env server tenderId confirmed (actions b) w)
    as Hreq.
  unfold handleDismiss.
  destruct (dismissTender env server tenderId confirmed (actions b) w)
    as [[c acts] w1]. cbn [snd] in Hreq.
  destruct c; cbn; (eexists; split; [rewrite Hreq; reflexivity|split; reflexivity]).
Qed.

(** ** The list of recommendations and its filters *)

Import RecommendationList.

(** The component a handler leaves behind, read off its result. *)
Ltac pick_component :=
  lazymatch goal with
  | |- exists c', (_, ?x, _) = _ /\ _ => exists x
  | |- exists c', (?x, _) = _ /\ _ => exists x
  end.

Section ListProperties.
Variable serialize : URLSearchParams -> string.
Variable env : Env.
Variable server : Server RecommendationResponse.

Lemma fetchRecommendations_shape (newFilters : option FiltersObject)
  (h : Hook) (w : World) :
  let filtersToUse := match newFilters with Some f => f | None => filters h end in
  let request := recommendationsRequest serialize env (read filtersToUse) in
  fetchRecommendations serialize env server newFilters h w =
  (Return tt,
   settle (match server request with
           | Return response => Return (Http.data response)
           | Throw e => Throw e
           end) (begin h),
   issue request w).
Proof.
  cbv zeta. unfold fetchRecommendations, getRecommendations, mbind, Async_bind,
    andThen, axios_get, recommendationsRequest. cbn.
  destruct (server _); reflexivity.
Qed.

Lemma filters_settle (c : Completion Thrown RecommendationResponse) (h : Hook) :
  filters (settle c (begin h)) = filters h.
Proof. destruct c; reflexivity. Qed.

Lemma spreadKey_twice {A : Type} (l p : option (option A)) :
  spreadKey l (spreadKey l p) = spreadKey l p.
Proof. destruct p, l; reflexivity. Qed.

Lemma spread_twice (l p : FiltersObject) : spread l (spread l p) = spread l p.
Proof. unfold spread. cbn. now rewrite !spreadKey_twice. Qed.

Lemma spread_emptyObject (l : FiltersObject) : spread l emptyObject = l.
Proof. destruct l; reflexivity. Qed.

(** One event: one request, for the filters the component holds after it,
    which stay the same in the hook and in the component. *)
Lemma handle_step (e : Event) (c : Component) (w : World) :
  localFilters c = filters (hook c) ->
  exists c',
    handle serialize env server e c w
    = (Return tt, c',
       issue (recommendationsRequest serialize env (read (filters (hook c')))) w) /\
    localFilters c' = filters (hook c') /\
    (filters (hook c') = filters (hook c) \/
     (exists o, filters (hook c')
                = spread (filters (hook c)) (onlyMinScore (minScoreValue o))) \/
     (exists o, filters (hook c')
                = spread (filters (hook c)) (onlyDaysAhead (daysAheadValue o))) \/
     (exists o, filters (hook c')
                = spread (filters (hook c)) (onlyLimit (limitValue o)))).
Proof.
  intros Hsync.
  assert (Hchange : forall p,
    exists c',
      handleFilterChange serialize env server p c w
      = (Return tt, c',
         issue (recommendationsRequest serialize env (read (filters (hook c')))) w) /\
      localFilters c' = filters (hook c') /\
      filters (hook c') = spread (filters (hook c)) p).
  { intros p. unfold handleFilterChange, inComponent, effect. cbv zeta.
    cbn [hook localFilters].
    rewrite fetchRecommendations_shape. cbv zeta.
    pick_component. split; [|split].
    - cbn [hook]. rewrite filters_settle. reflexivity.
    - cbn [hook localFilters]. rewrite filters_settle. cbn [filters updateFilters].
      rewrite Hsync. now rewrite spread_twice.
    - cbn [hook]. rewrite filters_settle. cbn [filters updateFilters].
      rewrite Hsync. now rewrite spread_twice. }
  destruct e as [o|o|o| |]; cbn [handle].
  - destruct (Hchange (onlyMinScore (minScoreValue o))) as (c' & H1 & H2 & H3).
    exists c'. split; [exact H1|]. split; [exact H2|]. right; left. now exists o.
  - destruct (Hchange (onlyDaysAhead (daysAheadValue o))) as (c' & H1 & H2 & H3).
    exists c'. split; [exact H1|]. split; [exact H2|]. right; right; left.
    now exists o.
  - destruct (Hchange (onlyLimit (limitValue o))) as (c' & H1 & H2 & H3).
    exists c'. split; [exact H1|]. split; [exact H2|]. right; right; right.
    now exists o.
  - unfold handleRefresh, inComponent, refetch.
    rewrite fetchRecommendations_shape. cbv zeta.
    pick_component. split; [|split].
    + cbn [hook]. rewrite filters_settle. reflexivity.
    + cbn [hook localFilters]. now rewrite filters_settle.
    + left. cbn [hook]. now rewrite filters_settle.
  - destruct (Hchange (onlyMinScore 0)) as (c' & H1 & H2 & H3).
    exists c'. split; [exact H1|]. split; [exact H2|]. right; left. now exists All.
Qed.

Lemma mount_shape (initialFilters : FiltersObject) (w : World) :
  exists c,
    mount serialize env server initialFilters w
    = (c, issue (recommendationsRequest serialize env (read initialFilters)) w) /\
    localFilters c = initialFilters /\ filters (hook c) = initialFilters.
Proof.
  unfold mount, inComponent, effect. cbv zeta. cbn [hook localFilters].
  rewrite fetchRecommendations_shape. cbv zeta.
  pick_component. split; [reflexivity|]. split; [reflexivity|].
  cbn [hook]. now rewrite filters_settle.
Qed.

Lemma handleAll_cons (e : Event) (events : list Event) (c : Component) (w : World) :
  handleAll serialize env server (c, w) (e :: events)
  = handleAll serialize env server
      (let '(_, c', w') := handle serialize env server e c w in (c', w')) events.
Proof. reflexivity. Qed.

(** What the three selects can make of a filters object. *)
Lemma handleAll_invariant (P : FiltersObject -> Prop) (events : list Event) :
  (forall f o, P f -> P (spread f (onlyMinScore (minScoreValue o)))) ->
  (forall f o, P f -> P (spread f (onlyDaysAhead (daysAheadValue o)))) ->
  (forall f o, P f -> P (spread f (onlyLimit (limitValue o)))) ->
  forall c w,
    localFilters c = filters (hook c) -> P (filters (hook c)) ->
    exists c' issued,
      handleAll serialize env server (c, w) events
      = (c', {| requests := requests w ++ issued; console := console w |}) /\
      localFilters c' = filters (hook c') /\ P (filters (hook c')) /\
      length issued = length events /\
      Forall (fun r => exists f, P f /\
                r = recommendationsRequest serialize env (read f)) issued /\
      (issued = [] /\ c' = c \/
       last issued
       = Some (recommendationsRequest serialize env (read (filters (hook c'))))).
Proof.
  intros Hm Hd Hl. induction events as [|e events IH]; intros c w Hsync HP.
  - exists c, []. cbn. rewrite List.app_nil_r. destruct w.
    repeat split; auto.
  - rewrite handleAll_cons.
    destruct (handle_step e c w Hsync) as (c1 & Hstep & Hsync1 & Hcase).
    rewrite Hstep.
    assert (HP1 : P (filters (hook c1))).
    { destruct Hcase as [->|[[o ->]|[[o ->]|[o ->]]]]; auto. }
    destruct (IH c1 (issue (recommendationsRequest serialize env
                              (read (filters (hook c1)))) w) Hsync1 HP1)
      as (c' & issued & Hrun & Hsync' & HP' & Hlen & Hall & Hlast).
    exists c', (recommendationsRequest serialize env (read (filters (hook c1)))
                :: issued).
    rewrite Hrun. cbn [issue requests console].
    split; [now rewrite <- List.app_assoc|].
    split; [exact Hsync'|]. split; [exact HP'|].
    split; [cbn; now rewrite Hlen|].
    split; [constructor; [now exists (filters (hook c1))|exact Hall]|].
    right. destruct Hlast as [[-> ->]|Hlast]; [reflexivity|].
    destruct issued as [|r issued]; [discriminate Hlast|exact Hlast].
Qed.

End ListProperties.

(** A filter that is absent or one of the options of its select is shown
    by that select as it is sent: the absent one as the default of
    [getRecommendations]. *)
Lemma shown_limit_is_sent (c : Component) :
  In (limit (read (localFilters c))) [None; Some 10; Some 20; Some 50; Some 100] ->
  exists l, shownLimit c = Some l /\
            limitValue l = limitOf (read (localFilters c)).
Proof.
  unfold shownLimit, limitProp, limitOf.
  intros [<-|[<-|[<-|[<-|[<-|[]]]]]]; eexists; split; reflexivity.
Qed.

Lemma shown_days_ahead_is_sent (c : Component) :
  In (days_ahead (read (localFilters c)))
     [None; Some 7; Some 14; Some 30; Some 60; Some 90] ->
  exists d, shownDaysAhead c = Some d /\
            daysAheadValue d = daysAheadOf (read (localFilters c)).
Proof.
  unfold shownDaysAhead, daysAheadProp, daysAheadOf.
  intros [<-|[<-|[<-|[<-|[<-|[<-|[]]]]]]]; eexists; split; reflexivity.
Qed.

Lemma shown_min_score_is_sent (c : Component) :
  In (min_score (read (localFilters c)))
     [None; Some 0; Some 40; Some 60; Some 80] ->
  exists s, shownMinScore c = Some s /\
            (min_score (read (localFilters c)) = Some (minScoreValue s) \/
             min_score (read (localFilters c)) = None /\ s = All).
Proof.
  unfold shownMinScore, minScoreProp.
  intros [<-|[<-|[<-|[<-|[<-|[]]]]]]; eexists;
    (split; [reflexivity|]); first [left; reflexivity|right; split; reflexivity].
Qed.

(** X16.  What the selects of the filters bar show is what the last request
    asked for.  Start the list with filters whose limit, days_ahead and
    min_score are each absent or the value of an option of its select, and
    let the user choose options, refresh and clear in any order: the
    component's filters and the hook's stay equal, and the last request
    issued carries the limit and the days_ahead of the options the selects
    show, and the min_score of the option its select shows, or no min_score
    when that select shows "All" and min_score was never set. *)
Theorem selects_show_what_was_requested
  (serialize : URLSearchParams -> string) (env : Env)
  (server : Server RecommendationResponse)
  (initialFilters : FiltersObject) (events : list Event) (w : World) :
  In (limit (read initialFilters)) [None; Some 10; Some 20; Some 50; Some 100] ->
  In (days_ahead (read initialFilters))
     [None; Some 7; Some 14; Some 30; Some 60; Some 90] ->
  In (min_score (read initialFilters)) [None; Some 0; Some 40; Some 60; Some 80] ->
  let '(c, w') :=
    handleAll serialize env server
      (mount serialize env server initialFilters w) events in
  localFilters c = filters (hook c) /\
  exists params l d s,
    last (requests w')
    = Some {| method := GET;
              url := API_URL env +:+ "/recommendations?" +:+ serialize params;
              headers := getAuthHeaders env;
              body := NoBody |} /\
    shownLimit c = Some l /\
    getAll "limit" params = [toString (limitValue l)] /\
    shownDaysAhead c = Some d /\
    getAll "days_ahead" params = [toString (daysAheadValue d)] /\
    shownMinScore c = Some s /\
    (getAll "min_score" params = [toString (minScoreValue s)] \/
     getAll "min_score" params = [] /\ s = All).
Proof.
  intros Hlimit Hdays Hmin.
  destruct (mount_shape serialize env server initialFilters w)
    as (c0 & -> & Hlocal0 & Hhook0).
  destruct (handleAll_invariant serialize env server
              (fun f =>
                 In (limit (read f)) [None; Some 10; Some 20; Some 50; Some 100] /\
                 In (days_ahead (read f))
                    [None; Some 7; Some 14; Some 30; Some 60; Some 90] /\
                 In (min_score (read f))
                    [None; Some 0; Some 40; Some 60; Some 80])
              events) with (c := c0)
    (w := issue (recommendationsRequest serialize env (read initialFilters)) w)
    as (c & issued & -> & Hsync & (Hl & Hd & Hm) & _ & _ & Hlast).
  - intros f o (H1 & H2 & H3). split; [exact H1|]. split; [exact H2|].
    destruct o; cbn; tauto.
  - intros f o (H1 & H2 & H3). split; [exact H1|]. split; [|exact H3].
    destruct o; cbn; tauto.
  - intros f o (H1 & H2 & H3). split; [|split; [exact H2|exact H3]].
    destruct o; cbn; tauto.
  - congruence.
  - rewrite Hhook0. repeat split; assumption.
  - split; [exact Hsync|].
    rewrite <- Hsync in Hl, Hd, Hm.
    destruct (shown_limit_is_sent c Hl) as (l & Hshown_l & Hval_l).
    destruct (shown_days_ahead_is_sent c Hd) as (d & Hshown_d & Hval_d).
    destruct (shown_min_score_is_sent c Hm) as (s & Hshown_s & Hval_s).
    exists (buildParams (read (filters (hook c)))), l, d, s.
    destruct (getAll_buildParams (read (filters (hook c))))
      as (Gl & Gm & Gd & _ & _).
    rewrite <- Hsync in Gl, Gm, Gd.
    split.
    { cbn [requests issue].
      destruct Hlast as [[-> ->]|Hlast].
      - rewrite List.app_nil_r, last_snoc. now rewrite Hhook0.
      - destruct issued as [|r issued] using rev_ind; [discriminate Hlast|].
        rewrite List.app_assoc, last_snoc. rewrite last_snoc in Hlast.
        exact Hlast. }
    rewrite <- Hsync.
    split; [exact Hshown_l|]. split; [now rewrite Gl, Hval_l|].
    split; [exact Hshown_d|]. split; [now rewrite Gd, Hval_d|].
    split; [exact Hshown_s|].
    rewrite Gm. destruct Hval_s as [-> | [-> ->]]; [left|right; split];
      reflexivity.
Qed.

Lemma selects_show_what_was_requested_witness :
  let '(c, w') :=
    handleAll (fun _ => "q") browserEnv Samples.noRecommendations
      (mount (fun _ => "q") browserEnv Samples.noRecommendations
         (onlyMinScore 40) quietWorld)
      [SelectDaysAhead Next30; SelectLimit Show50; Refresh] in
  localFilters c = filters (hook c) /\
  exists params l d s,
    last (requests w')
    = Some {| method := GET;
              url := API_URL browserEnv +:+ "/recommendations?" +:+ "q";
              headers := getAuthHeaders browserEnv;
              body := NoBody |} /\
    shownLimit c = Some l /\
    getAll "limit" params = [toString (limitValue l)] /\
    shownDaysAhead c = Some d /\
    getAll "days_ahead" params = [toString (daysAheadValue d)] /\
    shownMinScore c = Some s /\
    (getAll "min_score" params = [toString (minScoreValue s)] \/
     getAll "min_score" params = [] /\ s = All).
Proof.
  apply (selects_show_what_was_requested (fun _ => "q") browserEnv
           Samples.noRecommendations (onlyMinScore 40)
           [SelectDaysAhead Next30; SelectLimit Show50; Refresh] quietWorld);
    cbn; tauto.
Defined.

(** Initial filters the hypotheses exclude.  A limit of 5 is no option:
    the select shows "10 results", the request says 5.  A limit of 0 is
    passed to the select as 20: the select shows "20 results", the request
    says 0. *)
Example limit_outside_the_options :
  (let '(c, w') := mount (fun _ => "q") browserEnv Samples.noRecommendations
                     (onlyLimit 5) quietWorld in
   shownLimit c = Some Show10 /\
   getAll "limit" (buildParams (read (filters (hook c)))) = ["5"]) /\
  (let '(c, w') := mount (fun _ => "q") browserEnv Samples.noRecommendations
                     (onlyLimit 0) quietWorld in
   shownLimit c = Some Show20 /\
   getAll "limit" (buildParams (read (filters (hook c)))) = ["0"]).
Proof. split; split; reflexivity. Qed.

(** X17.  The list never asks for more than the bar offers.  Started with
    no filters, whatever the user does with the bar, every request the list
    issues is a GET of /recommendations with a limit of 10, 20, 50 or 100,
    a days_ahead of 7, 14, 30, 60 or 90, no min_score or one of 0, 40, 60
    and 80, and no sectors and no regions; and there is one request for the
    first render and one for each event. *)
Theorem bar_requests_stay_within_options
  (serialize : URLSearchParams -> string) (env : Env)
  (server : Server RecommendationResponse) (events : list Event) (w : World) :
  let '(c, w') :=
    handleAll serialize env server
      (mount serialize env server emptyObject w) events in
  console w' = console w /\
  exists issued,
    requests w' = requests w ++ issued /\
    length issued = S (length events) /\
    Forall (fun r => exists f : RecommendationFilters,
              r = recommendationsRequest serialize env f /\
              In (limitOf f) [10; 20; 50; 100] /\
              In (daysAheadOf f) [7; 14; 30; 60; 90] /\
              In (min_score f) [None; Some 0; Some 40; Some 60; Some 80] /\
              sectors f = None /\ regions f = None)
           issued.
Proof.
  set (P := fun f : FiltersObject =>
              In (limitOf (read f)) [10; 20; 50; 100] /\
              In (daysAheadOf (read f)) [7; 14; 30; 60; 90] /\
              In (min_score (read f)) [None; Some 0; Some 40; Some 60; Some 80] /\
              sectors (read f) = None /\ regions (read f) = None).
  destruct (mount_shape serialize env server emptyObject w)
    as (c0 & -> & Hlocal0 & Hhook0).
  assert (P0 : P emptyObject).
  { unfold P. cbn. tauto. }
  destruct (handleAll_invariant serialize env server P events) with (c := c0)
    (w := issue (recommendationsRequest serialize env (read emptyObject)) w)
    as (c & issued & -> & _ & _ & Hlen & Hall & _).
  - intros f o (H1 & H2 & H3 & H4 & H5). unfold P.
    split; [exact H1|]. split; [exact H2|]. split; [|split; assumption].
    destruct o; cbn; tauto.
  - intros f o (H1 & H2 & H3 & H4 & H5). unfold P.
    split; [exact H1|]. split; [|split; [exact H3|split; assumption]].
    destruct o; cbn; tauto.
  - intros f o (H1 & H2 & H3 & H4 & H5). unfold P.
    split; [|split; [exact H2|split; [exact H3|split; assumption]]].
    destruct o; cbn; tauto.
  - congruence.
  - now rewrite Hhook0.
  - cbn [requests console issue]. split; [reflexivity|].
    exists (recommendationsRequest serialize env (read emptyObject) :: issued).
    split; [now rewrite <- List.app_assoc|].
    split; [cbn; now rewrite Hlen|].
    constructor.
    + exists (read emptyObject). split; [reflexivity|exact P0].
    + eapply Forall_impl; [exact Hall|].
      intros r (f & Hf & ->). exists (read f). split; [reflexivity|exact Hf].
Qed.

(** X18.  A fetch never throws, and a failed one loses nothing.
    [fetchRecommendations] issues one GET for the filters it was given, or
    for the hook's own, and leaves [loading] false and the filters as they
    were.  If the request succeeds, the response replaces the data and no
    error is left.  If it fails, the data of the earlier fetch is kept, the
    error is the one thrown, or "Failed to fetch recommendations" for a
    thrown value that is not an Error, and the list shows the error panel
    alone. *)
Theorem failed_fetch_keeps_data_shows_error
  (serialize : URLSearchParams -> string) (env : Env)
  (server : Server RecommendationResponse)
  (newFilters : option FiltersObject) (h : Hook) (w : World) :
  let filtersToUse := match newFilters with Some f => f | None => filters h end in
  let request := recommendationsRequest serialize env (read filtersToUse) in
  let '(c, h', w') := fetchRecommendations serialize env server newFilters h w in
  c = Return tt /\
  requests w' = requests w ++ [request] /\
  console w' = console w /\
  loading h' = false /\
  filters h' = filters h /\
  (forall response, server request = Return response ->
     data h' = Some (Http.data response) /\ error h' = None) /\
  (forall e, server request = Throw e ->
     data h' = data h /\
     error h' = Some (if instanceofError e then e
                      else ErrorInstance "Failed to fetch recommendations") /\
     panels h' = [ErrorPanel (Some match e with
                                   | ErrorInstance m => m
                                   | NonError _ => "Failed to fetch recommendations"
                                   end)]).
Proof.
  cbv zeta. rewrite fetchRecommendations_shape. cbv zeta.
  split; [reflexivity|]. split; [reflexivity|]. split; [reflexivity|].
  destruct (server _) as [response|e]; cbn [settle begin loading filters data error].
  - split; [reflexivity|]. split; [reflexivity|]. split.
    + intros r [= <-]. split; reflexivity.
    + intros e [=].
  - split; [reflexivity|]. split; [reflexivity|]. split.
    + intros r [=].
    + intros e' [= <-]. split; [reflexivity|]. split; [reflexivity|].
      unfold panels. cbn [loading error isSome negb andb].
      destruct e; reflexivity.
Qed.

(** X19.  Under the filters bar the list shows one thing at a time.  With
    no request pending it shows exactly one of the error panel, the empty
    state and the cards.  The cards are all of the fetched recommendations
    and are shown only when there is at least one, no error, and no request
    pending.  While a request is pending the list shows the skeletons if it
    has no recommendations yet, and nothing if it has: the cards of the
    earlier fetch are taken away until the new one settles. *)
Theorem list_shows_one_panel_at_a_time (h : Hook) :
  (loading h = false -> exists p, panels h = [p]) /\
  (forall shown total, In (Cards shown total) (panels h) ->
     loading h = false /\ error h = None /\
     shown = recommendationsOf h /\ shown <> [] /\ total = totalOf h) /\
  panels (begin h) = if isEmpty (recommendationsOf h) then [Skeletons] else [].
Proof.
  split; [|split].
  - intros Hl. unfold panels. rewrite Hl.
    destruct (error h), (recommendationsOf h); cbn; eexists; reflexivity.
  - intros shown total. unfold panels.
    destruct (loading h), (error h), (recommendationsOf h) eqn:Hr; cbn;
      intros Hin;
      repeat match goal with
             | H : _ \/ _ |- _ => destruct H
             | H : False |- _ => destruct H
             | H : _ = Cards _ _ |- _ => inversion H; clear H; subst
             end.
    repeat split; congruence.
  - unfold panels, recommendationsOf. cbn.
    destruct (data h) as [d|]; [|reflexivity].
    destruct (recommendations d); reflexivity.
Qed.

(** ** The wizard around the form of the first step *)

Import ErrorUtils Wizard.

Lemma errorMessage_nullish (err : Value) (fallback : string) :
  isNullish err = true ->
  errorMessage err fallback = Throw (CannotReadProperties "response").
Proof. intros H. unfold errorMessage, get. now rewrite H. Qed.

(** What a handler that awaits the API leaves of the wizard's other
    state. *)
Lemma handleStep1Complete_keeps (api : Api) (wz : Wizard) :
  let wz' := snd (handleStep1Complete api wz) in
  form wz' = form wz /\ completed wz' = completed wz /\
  (posted wz' = posted wz \/
   posted wz' = posted wz ++ [Step1Form.data (form wz)] /\
   isStep1Valid (Step1Form.data (form wz)) = true) /\
  (loading wz = false -> loading wz' = false) /\
  (currentStep wz' = currentStep wz /\ profileId wz' = profileId wz \/
   currentStep wz' = 2 /\ exists p, profileId wz' = Some p).
Proof.
  cbv zeta. unfold handleStep1Complete.
  destruct (isStep1Valid (Step1Form.data (form wz))) eqn:Hv; cbn [negb].
  2: { cbn. repeat split; auto. }
  cbn [form setError setLoading post].
  destruct (createProfileStep1 api (Step1Form.data (form wz))) as [profile|err].
  - cbn. repeat split; eauto.
  - destruct (errorMessage err "Failed to save profile"); cbn; repeat split; auto.
Qed.

Lemma handleStep2Complete_keeps (api : Api) (wz : Wizard) :
  let wz' := snd (handleStep2Complete api wz) in
  form wz' = form wz /\ posted wz' = posted wz /\ loading wz' = false /\
  currentStep wz' = currentStep wz /\ profileId wz' = profileId wz.
Proof.
  cbv zeta. unfold handleStep2Complete.
  destruct (completeProfileStep2 api) as [profile|err].
  - cbn. repeat split.
  - destruct (errorMessage err "Failed to update profile"); cbn; repeat split.
Qed.

Lemma handleSkipStep2_keeps (wz : Wizard) :
  let wz' := handleSkipStep2 wz in
  form wz' = form wz /\ posted wz' = posted wz /\ loading wz' = loading wz /\
  currentStep wz' = currentStep wz /\ profileId wz' = profileId wz.
Proof.
  cbv zeta. unfold handleSkipStep2.
  destruct (profileId wz) as [p|] eqn:Hp; [destruct (truthyString p)|]; cbn;
    repeat split; exact Hp.
Qed.




(** The drafts of the form stay within the caps, and those posted are
    valid drafts within the caps. *)
Lemma handle_drafts (trim : string -> string) (wz : Wizard) (e : Event) :
  withinCaps (Step1Form.data (form wz)) /\ Forall meetsTier1Bounds (posted wz) ->
  withinCaps (Step1Form.data (form (handle trim wz e))) /\
  Forall meetsTier1Bounds (posted (handle trim wz e)).
Proof.
  intros [Hcaps Hposted].
  destruct e as [e|api| | |]; cbn [handle].
  - destruct (currentStep wz =? 1); cbn; [|auto].
    split; [now apply handle_withinCaps|exact Hposted].
  - destruct (mainButtonDisabled wz); [auto|].
    destruct (currentStep wz =? 1).
    + destruct (handleStep1Complete_keeps api wz)
        as (Hf & _ & [Hp|[Hp Hv]] & _).
      * rewrite Hf, Hp. auto.
      * rewrite Hf, Hp. split; [exact Hcaps|].
        apply Forall_app. split; [exact Hposted|].
        constructor; [|constructor].
        now apply withinCaps_valid_iff.
    + destruct (handleStep2Complete_keeps api wz) as (Hf & Hp & _).
      rewrite Hf, Hp. auto.
  - destruct ((1 <? currentStep wz) && negb (loading wz)); [|auto].
    unfold handleBack. destruct (1 <? currentStep wz); cbn; auto.
  - destruct ((currentStep wz =? 2) && negb (loading wz)); [|auto].
    destruct (handleSkipStep2_keeps wz) as (Hf & Hp & _).
    rewrite Hf, Hp. auto.
  - cbn. auto.
Qed.

Lemma handleAll_drafts (trim : string -> string) (events : list Event)
  (wz : Wizard) :
  withinCaps (Step1Form.data (form wz)) /\ Forall meetsTier1Bounds (posted wz) ->
  withinCaps (Step1Form.data (form (handleAll trim wz events))) /\
  Forall meetsTier1Bounds (posted (handleAll trim wz events)).
Proof.
  revert wz. induction events as [|e events IH]; intros wz H; [exact H|].
  apply IH. now apply handle_drafts.
Qed.

(** X20.  A wizard whose initial draft is within the caps never posts a
    draft outside the Tier-1 bounds.  Whatever the user does with the form
    and the buttons, and however the API answers, every draft handed to
    createProfileStep1 has a primary sector, 1 to 5 active sectors, 1 to 5
    preferred regions and 3 to 10 keywords. *)
Theorem wizard_posts_within_tier1 (trim : string -> string)
  (initialData : Step1Data) (events : list Event) :
  withinCaps (initialStep1Data initialData) ->
  Forall meetsTier1Bounds (posted (handleAll trim (mounted initialData) events)).
Proof.
  intros H. apply handleAll_drafts. split; [exact H|constructor].
Qed.

Lemma wizard_posts_within_tier1_witness :
  Forall meetsTier1Bounds
    (posted (handleAll (fun s => s) (mounted noInitialData)
               [OnForm (SelectPrimarySector "IT");
                OnForm (ToggleActiveSector "IT");
                OnForm (ToggleRegion "Oromia");
                OnForm (ClickSuggestedKeyword "cloud");
                OnForm (ClickSuggestedKeyword "erp");
                OnForm (ClickSuggestedKeyword "network");
                ClickMain Samples.obligingApi])).
Proof.
  apply (wizard_posts_within_tier1 (fun s => s) noInitialData).
  exact noInitialData_withinCaps.
Defined.

(** The initial draft the hypothesis excludes: six regions go out with the
    first press of "Continue". *)
Example six_regions_are_posted :
  posted (handleAll (fun s => s) (mounted sixRegionsDraft)
            [ClickMain Samples.obligingApi])
  = [sixRegionsDraft] /\
  currentStep (handleAll (fun s => s) (mounted sixRegionsDraft)
                 [ClickMain Samples.obligingApi]) = 2.
Proof. split; reflexivity. Qed.


Lemma errorMessage_precedence (err : Value) (fallback : string) :
  isNullish err = false ->
  errorMessage err fallback =
  Return (if truthy (optGet (optGet (optGet err "response") "data") "detail")
          then optGet (optGet (optGet err "response") "data") "detail"
          else if truthy (optGet err "message") then optGet err "message"
               else Str fallback).
Proof.
  intros H. unfold errorMessage, get. rewrite H. cbn [bind].
  destruct (truthy (optGet (optGet (optGet err "response") "data") "detail"));
    [reflexivity|].
  cbn [bind]. now destruct (truthy (optGet err "message")).
Qed.

Lemma errorBlock_truthy (wz : Wizard) (m : Value) :
  error wz = Some m -> truthy m = true ->
  errorBlock wz = match renderChild m with
                  | Return text => Return (Panel text)
                  | Throw e => Throw e
                  end.
Proof.
  intros Herr Ht. unfold errorBlock. rewrite Herr.
  destruct (renderChild m); [now rewrite Ht|reflexivity].
Qed.

(** X22.  What "Continue" does with a draft.  An invalid draft is not
    posted: the wizard only sets the error 'Please complete all required
    fields'.  A valid draft is posted once, and the wizard is not loading
    afterwards however the request settles.  If the profile is created the
    wizard moves to step 2 with its id and no error.  If the request fails
    the wizard stays where it is, and its error is the detail of the
    response when that is truthy, else the message of the error when that
    is truthy, else 'Failed to save profile'; this error is truthy, so the
    error panel is rendered with it: a string shows as it is, and a plain
    object makes the render throw.  If what was thrown is null or
    undefined, the handler itself throws a TypeError and sets no error. *)
Theorem continue_posts_valid_drafts_only (api : Api) (wz : Wizard) :
  let d := Step1Form.data (form wz) in
  let '(c, wz') := handleStep1Complete api wz in
  form wz' = form wz /\
  (isStep1Valid d = false ->
   c = Return tt /\ posted wz' = posted wz /\
   currentStep wz' = currentStep wz /\ loading wz' = loading wz /\
   error wz' = Some (Str "Please complete all required fields") /\
   errorBlock wz' = Return (Panel "Please complete all required fields")) /\
  (isStep1Valid d = true ->
   posted wz' = posted wz ++ [d] /\ loading wz' = false /\
   (forall profile, createProfileStep1 api d = Return profile ->
      c = Return tt /\ currentStep wz' = 2 /\
      profileId wz' = Some (id profile) /\ error wz' = None /\
      errorBlock wz' = Return NoBlock) /\
   (forall err, createProfileStep1 api d = Throw err ->
      currentStep wz' = currentStep wz /\ profileId wz' = profileId wz /\
      (isNullish err = true ->
       c = Throw (CannotReadProperties "response") /\ error wz' = None) /\
      (isNullish err = false ->
       let detail := optGet (optGet (optGet err "response") "data") "detail" in
       let message := optGet err "message" in
       let shown := if truthy detail then detail
                    else if truthy message then message
                         else Str "Failed to save profile" in
       c = Return tt /\
       error wz' = Some shown /\ truthy shown = true /\
       errorBlock wz' = match renderChild shown with
                        | Return text => Return (Panel text)
                        | Throw e => Throw e
                        end /\
       (forall s, shown = Str s -> errorBlock wz' = Return (Panel s)) /\
       (forall props, shown = Object props ->
          errorBlock wz' = Throw ObjectsAreNotValidAsAReactChild)))).
Proof.
  cbv zeta. unfold handleStep1Complete.
  destruct (isStep1Valid (Step1Form.data (form wz))) eqn:Hv; cbn [negb].
  { cbn [form setError setLoading post].
    destruct (createProfileStep1 api (Step1Form.data (form wz)))
      as [profile|err] eqn:Hc.
    - cbn. split; [reflexivity|]. split; [discriminate|]. intros _.
      split; [reflexivity|]. split; [reflexivity|]. split.
      + intros p [= <-]. repeat split.
      + intros e [=].
    - destruct (isNullish err) eqn:Hn.
      + rewrite (errorMessage_nullish err _ Hn). cbn.
        split; [reflexivity|]. split; [discriminate|]. intros _.
        split; [reflexivity|]. split; [reflexivity|]. split.
        * intros p [=].
        * intros e [= <-]. split; [reflexivity|]. split; [reflexivity|].
          rewrite Hn. split; [intros _; split; reflexivity|discriminate].
      + rewrite (errorMessage_precedence err _ Hn).
        set (shown := if truthy (optGet (optGet (optGet err "response") "data")
                                   "detail")
                      then optGet (optGet (optGet err "response") "data") "detail"
                      else if truthy (optGet err "message")
                           then optGet err "message"
                           else Str "Failed to save profile").
        assert (Hshown : truthy shown = true).
        { unfold shown.
          destruct (truthy (optGet (optGet (optGet err "response") "data")
                              "detail")) eqn:Hd; [exact Hd|].
          destruct (truthy (optGet err "message")) eqn:Hm; [exact Hm|].
          reflexivity. }
        cbn [fst snd].
        split; [reflexivity|]. split; [discriminate|]. intros _.
        split; [reflexivity|]. split; [reflexivity|]. split.
        * intros p [=].
        * intros e [= <-]. split; [reflexivity|]. split; [reflexivity|].
          rewrite Hn. split; [discriminate|]. intros _.
          fold shown.
          assert (Hblock : forall w0 : Wizard, error w0 = Some shown ->
                    errorBlock w0 = match renderChild shown with
                                    | Return text => Return (Panel text)
                                    | Throw e => Throw e
                                    end).
          { intros w0 H0. now apply errorBlock_truthy. }
          split; [reflexivity|]. split; [reflexivity|]. split; [exact Hshown|].
          split; [now apply Hblock|]. split.
          -- intros s Hs. rewrite Hblock by reflexivity. now rewrite Hs.
          -- intros props Hp. rewrite Hblock by reflexivity. now rewrite Hp. }
  cbn. split; [reflexivity|]. split; [|discriminate]. intros _.
  repeat split.
Qed.

(** A validation error of the API has an array of objects as its detail.
    The wizard keeps the array as its error, where [getErrorMessage] gives
    the text of the first, and the render of the error panel throws; a
    detail that is a string is shown as it is. *)
Example wizard_keeps_validation_errors :
  (exists errors, errorMessage validationError "Failed to save profile"
                  = Return (Array errors)) /\
  (exists text, getErrorMessage validationError = Return (Str text)) /\
  errorBlock
    (handleAll (fun s => s) (mounted noInitialData)
       [OnForm (SelectPrimarySector "IT");
        OnForm (ToggleActiveSector "IT");
        OnForm (ToggleRegion "Oromia");
        OnForm (ClickSuggestedKeyword "cloud");
        OnForm (ClickSuggestedKeyword "erp");
        OnForm (ClickSuggestedKeyword "network");
        ClickMain Samples.validatingApi])
  = Throw ObjectsAreNotValidAsAReactChild /\
  errorMessage Samples.conflictError "Failed to save profile"
  = getErrorMessage Samples.conflictError /\
  renderChild (Str "Profile already exists") = Return "Profile already exists".
Proof.
  split; [eexists; reflexivity|]. split; [eexists; reflexivity|].
  split; [reflexivity|]. split; reflexivity.
Qed.





(** The draft outside the caps: progress 4 of 4 on eleven keywords, and
    "Continue" disabled. *)
Example progress_full_on_eleven_keywords :
  let d := {| primary_sector := Some "IT"; active_sectors := Some ["IT"];
              sub_sectors := Some []; preferred_regions := Some ["Oromia"];
              keywords := Some ["a"; "b"; "c"; "d"; "e"; "f"; "g"; "h"; "i";
                                "j"; "k"] |} in
  requiredFieldsDone d = 4%nat /\ isStep1Valid d = false.
Proof. split; reflexivity. Qed.

(** ** Disabled controls and the handlers behind them *)

Lemma capped_toggle_unchanged (cap : nat) (l : list string) (x : string) :
  (if includes l x
   then List.filter (fun y => negb (String.eqb y x)) l
   else if (length l <? cap)%nat then l ++ [x] else l) = l
  <-> (cap <=? length l)%nat && negb (includes l x) = true.
Proof.
  destruct (includes l x) eqn:Hin; cbn [negb].
  - rewrite andb_false_r. split; [|discriminate].
    intros Heq. apply includes_In in Hin. rewrite <- Heq in Hin.
    apply List.filter_In in Hin as [_ Hx].
    now rewrite String.eqb_refl in Hx.
  - rewrite andb_true_r.
    destruct (Nat.ltb_spec (length l) cap) as [Hlt|Hge].
    + split.
      * intros Heq. apply (f_equal (@length string)) in Heq.
        rewrite List.length_app in Heq. cbn in Heq. lia.
      * intros Hle. apply Nat.leb_le in Hle. lia.
    + split; [intros _; now apply Nat.leb_le|reflexivity].
Qed.

Lemma change_same (f : Step1Form.Form) (patch : Step1Data) :
  (forall s, primary_sector patch = Some s ->
     primary_sector (Step1Form.data f) = Some s) ->
  (forall l, active_sectors patch = Some l ->
     active_sectors (Step1Form.data f) = Some l) ->
  (forall l, sub_sectors patch = Some l ->
     sub_sectors (Step1Form.data f) = Some l) ->
  (forall l, preferred_regions patch = Some l ->
     preferred_regions (Step1Form.data f) = Some l) ->
  (forall l, keywords patch = Some l ->
     keywords (Step1Form.data f) = Some l) ->
  Step1Form.change f patch = f.
Proof.
  intros H1 H2 H3 H4 H5. destruct f as [d input]. unfold Step1Form.change.
  cbn [Step1Form.data keywordInput] in *. f_equal.
  unfold updateStep1Data. destruct d as [p a s r k].
  cbn [primary_sector active_sectors sub_sectors preferred_regions keywords] in *.
  destruct patch as [p' a' s' r' k'].
  cbn [primary_sector active_sectors sub_sectors preferred_regions keywords] in *.
  f_equal.
  - destruct p'; [now rewrite (H1 _ eq_refl)|reflexivity].
  - destruct a'; [now rewrite (H2 _ eq_refl)|reflexivity].
  - destruct s'; [now rewrite (H3 _ eq_refl)|reflexivity].
  - destruct r'; [now rewrite (H4 _ eq_refl)|reflexivity].
  - destruct k'; [now rewrite (H5 _ eq_refl)|reflexivity].
Qed.

Lemma full_selection_is_there (o : option (list string)) (n : nat) :
  (S n <=? length (default [] o))%nat = true -> o = Some (default [] o).
Proof. destruct o; [reflexivity|discriminate]. Qed.

(** X24.  The handlers of the first step do not lean on the markup.  A
    control that is disabled is one whose handler would change nothing:
    pressing a disabled checkbox of a sector or a region, a disabled
    suggested keyword or the disabled "Add" leaves the form as it is; and
    the checkboxes and the suggested keywords are disabled only then. *)
Theorem disabled_controls_change_nothing (trim : string -> string)
  (f : Step1Form.Form) (e : Step1Form.Event) :
  ((forall text, e <> TypeKeyword text) ->
   Step1Controls.disabled f e = true -> Step1Form.handle trim f e = f) /\
  ((exists x, e = ToggleActiveSector x \/ e = ToggleRegion x \/
              e = ClickSuggestedKeyword x) ->
   Step1Form.handle trim f e = f -> Step1Controls.disabled f e = true).
Proof.
  split.
  - intros Hnot Hdis.
    destruct e as [s|s|t|s|r|k|text| |k]; cbn [Step1Controls.disabled] in Hdis;
      try discriminate Hdis.
    + cbn [Step1Form.handle].
      pose proof Hdis as Hfull. apply andb_true_iff in Hfull as [Hfull _].
      apply full_selection_is_there in Hfull.
      apply (capped_toggle_unchanged (MAX (ACTIVE_SECTORS VALIDATION))) in Hdis.
      unfold handleToggleActiveSector. rewrite Hdis.
      apply change_same; cbn; try discriminate. intros l [= <-]. exact Hfull.
    + cbn [Step1Form.handle].
      pose proof Hdis as Hfull. apply andb_true_iff in Hfull as [Hfull _].
      apply full_selection_is_there in Hfull.
      apply (capped_toggle_unchanged (MAX (REGIONS VALIDATION))) in Hdis.
      unfold handleToggleRegion. rewrite Hdis.
      apply change_same; cbn; try discriminate. intros l [= <-]. exact Hfull.
    + cbn [Step1Form.handle].
      apply orb_true_iff in Hdis as [Hin|Hfull].
      * now rewrite Hin.
      * apply Nat.leb_le in Hfull.
        destruct (Nat.ltb_spec
                    (length (default [] (keywords (Step1Form.data f))))
                    (MAX (KEYWORDS VALIDATION))) as [Hlt|_]; [lia|].
        now rewrite andb_false_r.
    + now destruct (Hnot text).
    + cbn [Step1Form.handle]. unfold handleAddKeyword. rewrite Hdis.
      now destruct (_ && _).
  - intros (x & [-> | [-> | ->]]) Hsame; cbn [Step1Controls.disabled];
      cbn [Step1Form.handle] in Hsame.
    + apply (f_equal (fun f => active_sectors (Step1Form.data f))) in Hsame.
      cbn in Hsame.
      apply (capped_toggle_unchanged (MAX (ACTIVE_SECTORS VALIDATION))).
      fold (handleToggleActiveSector
              (default [] (active_sectors (Step1Form.data f))) x).
      rewrite <- Hsame at 2. reflexivity.
    + apply (f_equal (fun f => preferred_regions (Step1Form.data f))) in Hsame.
      cbn in Hsame.
      apply (capped_toggle_unchanged (MAX (REGIONS VALIDATION))).
      fold (handleToggleRegion
              (default [] (preferred_regions (Step1Form.data f))) x).
      rewrite <- Hsame at 2. reflexivity.
    + destruct (includes (default [] (keywords (Step1Form.data f))) x) eqn:Hin;
        [reflexivity|]. cbn [negb andb orb] in *.
      destruct (Nat.ltb_spec
                  (length (default [] (keywords (Step1Form.data f))))
                  (MAX (KEYWORDS VALIDATION))) as [Hlt|Hge].
      * apply (f_equal (fun f => keywords (Step1Form.data f))) in Hsame.
        cbn in Hsame. rewrite <- Hsame in Hlt. cbn in Hlt.
        apply (f_equal (default [])) in Hsame. cbn in Hsame.
        apply (f_equal (@length string)) in Hsame.
        rewrite List.length_app in Hsame. cbn in Hsame. lia.
      * now apply Nat.leb_le.
Qed.

(** X25.  The settings page toggles sectors and regions under the same
    caps as the wizard.  A toggle never takes a selection of at most five
    above five, and a checkbox is disabled exactly when its toggle would
    leave the form data as they are. *)
Theorem settings_toggles_keep_caps (formData : CompanyProfileSettings.CompanyProfileUpdate)
  (x : string) :
  let sectors' := CompanyProfileSettings.handleToggleActiveSector x formData in
  let regions' := CompanyProfileSettings.handleToggleRegion x formData in
  ((CompanyProfileSettings.lengthOrZero
      (CompanyProfileSettings.active_sectors formData) <= 5)%nat ->
   (CompanyProfileSettings.lengthOrZero
      (CompanyProfileSettings.active_sectors sectors') <= 5)%nat) /\
  ((CompanyProfileSettings.lengthOrZero
      (CompanyProfileSettings.preferred_regions formData) <= 5)%nat ->
   (CompanyProfileSettings.lengthOrZero
      (CompanyProfileSettings.preferred_regions regions') <= 5)%nat) /\
  (CompanyProfileSettings.activeSectorDisabled formData x = true <->
   sectors' = formData) /\
  (CompanyProfileSettings.regionDisabled formData x = true <->
   regions' = formData).
Proof.
  cbv zeta. destruct formData as [p a s r k cs y c bmin bmax].
  unfold CompanyProfileSettings.handleToggleActiveSector,
    CompanyProfileSettings.handleToggleRegion,
    CompanyProfileSettings.activeSectorDisabled,
    CompanyProfileSettings.regionDisabled.
  cbn [CompanyProfileSettings.primary_sector
       CompanyProfileSettings.active_sectors
       CompanyProfileSettings.sub_sectors
       CompanyProfileSettings.preferred_regions
       CompanyProfileSettings.keywords
       CompanyProfileSettings.company_size
       CompanyProfileSettings.years_in_operation
       CompanyProfileSettings.certifications
       CompanyProfileSettings.budget_min
       CompanyProfileSettings.budget_max
       CompanyProfileSettings.lengthOrZero].
  change (MAX (ACTIVE_SECTORS VALIDATION)) with 5%nat.
  change (MAX (REGIONS VALIDATION)) with 5%nat.
  assert (Hlen : forall l : list string, (length l <= 5)%nat ->
            (length (if includes l x
                     then List.filter (fun y => negb (String.eqb y x)) l
                     else if (length l <? 5)%nat then l ++ [x] else l) <= 5)%nat).
  { intros l Hl. destruct (includes l x).
    - pose proof (List.filter_length_le (fun y => negb (String.eqb y x)) l). lia.
    - destruct (Nat.ltb_spec (length l) 5); [|exact Hl].
      rewrite List.length_app. cbn. lia. }
  assert (Hsame : forall o : option (list string),
            (5 <=? CompanyProfileSettings.lengthOrZero o)%nat
            && CompanyProfileSettings.notIncluded o x = true <->
            Some (if includes (default [] o) x
                  then List.filter (fun y => negb (String.eqb y x)) (default [] o)
                  else if (length (default [] o) <? 5)%nat
                       then default [] o ++ [x] else default [] o) = o).
  { intros [l|].
    - change (default [] (Some l)) with l.
      cbn [CompanyProfileSettings.lengthOrZero
           CompanyProfileSettings.notIncluded].
      rewrite <- (capped_toggle_unchanged 5 l x). split; congruence.
    - cbn. split; discriminate. }
  split; [|split; [|split]].
  - intros H. apply Hlen. destruct a; [exact H|cbn; lia].
  - intros H. apply Hlen. destruct r; [exact H|cbn; lia].
  - rewrite Hsame. split; [intros ->; reflexivity|intros [= ->]].
    congruence.
  - rewrite Hsame. split; [intros ->; reflexivity|intros [= ->]].
    congruence.
Qed.
